(** * Worklenz task list controller (tasks-controller-v2.ts)

  A shallow embedding of the filter composition, grouping, progress
  aggregation, dependency gate and re-parenting code of
  [worklenz-backend/src/controllers/tasks-controller-v2.ts], with the
  properties stated for it in the specification. *)

From Stdlib Require Import Ascii String ZArith Lia Sorted.
From stdpp Require Import base option list list_numbers strings gmap fin_maps.

Local Open Scope string_scope.

(** ** JavaScript values as the controller uses them *)

Module Js.

(** A property that may be [null] or [undefined] is an [option]. *)

(** [!!text] for a string-or-nullish value: the empty string is falsy. *)
Definition truthy (o : option string) : bool :=
  match o with
  | Some s => negb (String.eqb s "")
  | None => false
  end.

(** [o === lit] for a literal string. *)
Definition strict_eq (o : option string) (lit : string) : bool :=
  match o with
  | Some s => String.eqb s lit
  | None => false
  end.

(** [obj[k]] with a nullish [k]: the key is the string ["null"]. *)
Definition property_key (o : option string) : string :=
  match o with
  | Some s => s
  | None => "null"
  end.

(** [text.split(" ")]: never the empty list. *)
Fixpoint split_space (s : string) : list string :=
  match s with
  | EmptyString => [EmptyString]
  | String c rest =>
      if Ascii.eqb c " "%char then EmptyString :: split_space rest
      else match split_space rest with
           | h :: t => String c h :: t
           | [] => [String c EmptyString]
           end
  end.

(** [parts.join(sep)]. *)
Fixpoint join (sep : string) (parts : list string) : string :=
  match parts with
  | [] => ""
  | [p] => p
  | p :: rest => p ++ sep ++ join sep rest
  end.

(** [s.replace(/pat/g, rep)] for a literal, non-empty pattern: scan left
    to right, [skip] counts the characters of a match still to drop. *)
Fixpoint replace_from (pat rep : string) (skip : nat) (s : string) : string :=
  match s with
  | EmptyString => EmptyString
  | String c rest =>
      match skip with
      | S k => replace_from pat rep k rest
      | O =>
          if String.prefix pat s
          then rep ++ replace_from pat rep (String.length pat - 1) rest
          else String c (replace_from pat rep 0 rest)
      end
  end.

Definition replace_all (pat rep s : string) : string :=
  replace_from pat rep 0 s.

Definition or_else (s dflt : string) : string :=
  if String.eqb s "" then dflt else s.

(** [o == null]: the value is [undefined] or [null]. *)
Definition nullish {A} (o : option A) : bool :=
  match o with
  | Some _ => false
  | None => true
  end.

(** The names of the properties of [Object.prototype], which every plain
    object inherits: eleven functions and the accessor [__proto__]. *)
Definition object_prototype_members : list string :=
  [ "constructor"; "__defineGetter__"; "__defineSetter__"; "hasOwnProperty";
    "__lookupGetter__"; "__lookupSetter__"; "isPrototypeOf";
    "propertyIsEnumerable"; "toString"; "valueOf"; "__proto__";
    "toLocaleString" ].

Definition in_object_prototype (key : string) : bool :=
  existsb (String.eqb key) object_prototype_members.

(** The keys of an object, as [Object.keys] lists them. *)

Definition digit (c : ascii) : option N :=
  let n := N_of_ascii c in
  if (48 <=? n)%N && (n <=? 57)%N then Some (n - 48)%N else None.

Fixpoint decimal (s : string) (acc : N) : option N :=
  match s with
  | EmptyString => Some acc
  | String c rest =>
      match digit c with
      | Some d => decimal rest (10 * acc + d)%N
      | None => None
      end
  end.

(** A key is an array index when it is the canonical decimal form of a
    number below 2^32 - 1. *)
Definition array_index (key : string) : option N :=
  match key with
  | EmptyString => None
  | String c rest =>
      if Ascii.eqb c "0"%char && negb (String.eqb rest "") then None
      else match decimal key 0 with
           | Some n => if (n <? 4294967295)%N then Some n else None
           | None => None
           end
  end.

Definition is_array_index (key : string) : bool :=
  match array_index key with
  | Some _ => true
  | None => false
  end.

Definition index_value (key : string) : N :=
  match array_index key with
  | Some n => n
  | None => 0%N
  end.

Fixpoint insert_by_index (key : string) (sorted : list string) : list string :=
  match sorted with
  | [] => [key]
  | k :: rest =>
      if (index_value key <=? index_value k)%N then key :: sorted
      else k :: insert_by_index key rest
  end.

Definition sort_by_index (keys : list string) : list string :=
  foldr insert_by_index [] keys.

(** [obj[key] = ...], on the list of keys in creation order: a key that
    exists keeps its place. *)
Definition assign_key (keys : list string) (key : string) : list string :=
  if bool_decide (key ∈ keys) then keys else (keys ++ [key])%list.

(** [Object.keys(obj)] for an object whose keys were created in the order
    [created]: array indices in ascending order, then the other keys in
    creation order. *)
Definition object_keys (created : list string) : list string :=
  (sort_by_index (List.filter is_array_index created)
   ++ List.filter (fun k => negb (is_array_index k)) created)%list.

End Js.

(** ** SQL values: three-valued logic over nullable columns *)

Module Sql.

(** [a = b]: unknown as soon as one side is NULL. *)
Definition eq_ (a b : option string) : option bool :=
  match a, b with
  | Some x, Some y => Some (String.eqb x y)
  | _, _ => None
  end.

Definition and_ (a b : option bool) : option bool :=
  match a, b with
  | Some false, _ | _, Some false => Some false
  | Some true, Some true => Some true
  | _, _ => None
  end.

Definition not_ (a : option bool) : option bool :=
  match a with
  | Some b => Some (negb b)
  | None => None
  end.

Definition is_null {A} (o : option A) : bool :=
  match o with
  | Some _ => false
  | None => true
  end.

(** [x IN (l)]: true on a match, else unknown if NULL is involved and
    [l] has a row, else false. *)
Definition in_ (x : option string) (l : list (option string)) : option bool :=
  match x with
  | None => match l with [] => Some false | _ :: _ => None end
  | Some v =>
      if existsb (fun y => match y with Some w => String.eqb v w | None => false end) l
      then Some true
      else if existsb is_null l then None else Some false
  end.

(** [c IS TRUE], also what a WHERE clause keeps. *)
Definition is_true (c : option bool) : bool :=
  match c with
  | Some true => true
  | _ => false
  end.

(** [c IS FALSE]. *)
Definition is_false (c : option bool) : bool :=
  match c with
  | Some false => true
  | _ => false
  end.

(** [MAX(col)]: NULLs are ignored, no row gives NULL. *)
Fixpoint max_ (l : list (option Z)) : option Z :=
  match l with
  | [] => None
  | None :: rest => max_ rest
  | Some z :: rest =>
      match max_ rest with
      | Some m => Some (Z.max z m)
      | None => Some z
      end
  end.

(** The values of a column that are not NULL. *)
Fixpoint values {A} (l : list (option A)) : list A :=
  match l with
  | [] => []
  | Some a :: rest => a :: values rest
  | None :: rest => values rest
  end.

Definition coalesce (o : option Z) (dflt : Z) : Z :=
  match o with
  | Some z => z
  | None => dflt
  end.

End Sql.

(** ** Grouping engine and progress aggregator *)

Module Grouping.

Section Grouping.

(** Constants of [shared/constants.ts] and the values of the [GroupBy]
    enum of [tasks-controller-base.ts]; both files are outside the
    sources at hand, so the values are parameters. *)
Variable UNMAPPED : string.
Variable TASK_STATUS_COLOR_ALPHA : string.
Variables GroupBy_STATUS GroupBy_PRIORITY GroupBy_PHASE : string.

(** The derived view fields [updateTaskViewModel] attaches to a task. *)
Variable View : Type.

(** [status_category] of a row: the three flags of the category. *)
Record StatusCategory := {
  is_todo : bool;
  is_doing : bool;
  is_done : bool
}.

(** A task row as [getQuery] returns it, restricted to the columns the
    controller reads, plus what the controller writes on it. *)
Record Task := {
  task_id : string;
  status : option string;
  priority : option string;
  phase_id : option string;
  status_category : option StatusCategory;
  index : option nat;
  view : option View
}.

(** Modelled from the spec: [updateTaskViewModel] belongs to
    [tasks-controller-base.ts], which is missing. The spec has the core
    "only read and decorate (add derived view fields)"; the derived
    fields are computed by [viewModel] and stored next to the row. *)
Variable viewModel : Task -> View.

Definition updateTaskViewModel (task : Task) : Task :=
  {| task_id := task_id task;
     status := status task;
     priority := priority task;
     phase_id := phase_id task;
     status_category := status_category task;
     index := index task;
     view := Some (viewModel task) |}.

Definition set_index (task : Task) (i : nat) : Task :=
  {| task_id := task_id task;
     status := status task;
     priority := priority task;
     phase_id := phase_id task;
     status_category := status_category task;
     index := Some i;
     view := view task |}.

(** [ITaskGroup]. The progress fields are absent until
    [updateTaskProgresses] has run on a literal group. *)
Record TaskGroup := {
  name : string;
  category_id : option string;
  color_code : string;
  color_code_dark : option string;
  start_date : option string;
  end_date : option string;
  todo_progress : option nat;
  doing_progress : option nat;
  done_progress : option nat;
  tasks : list Task
}.

(** A row of [getGroups]. *)
Record GroupRow := {
  row_id : option string;
  row_name : string;
  row_category_id : option string;
  row_color_code : string;
  row_color_code_dark : option string;
  row_start_date : option string;
  row_end_date : option string
}.

Definition or_null (o : option string) : option string :=
  if Js.truthy o then o else None.

(** [new TaskListGroup(group)]. *)
Definition TaskListGroup (group : GroupRow) : TaskGroup :=
  {| name := row_name group;
     category_id := or_null (row_category_id group);
     start_date := or_null (row_start_date group);
     end_date := or_null (row_end_date group);
     color_code := row_color_code group ++ TASK_STATUS_COLOR_ALPHA;
     color_code_dark := row_color_code_dark group;
     todo_progress := Some 0;
     doing_progress := Some 0;
     done_progress := Some 0;
     tasks := [] |}.

Definition with_tasks (group : TaskGroup) (ts : list Task) : TaskGroup :=
  {| name := name group;
     category_id := category_id group;
     color_code := color_code group;
     color_code_dark := color_code_dark group;
     start_date := start_date group;
     end_date := end_date group;
     todo_progress := todo_progress group;
     doing_progress := doing_progress group;
     done_progress := done_progress group;
     tasks := ts |}.

(** *** The map of groups: a plain JavaScript object *)

(** [{ [p: string]: ITaskGroup }]: the own properties, their keys in the
    order of creation, which [Object.keys] goes by, and the prototype:
    [None] stands for [Object.prototype], as in the [{}] the reducer of
    [getList] starts from, [Some group] for a group that an assignment
    to [__proto__] has put in its place. *)
Record GroupMap := {
  own : gmap string TaskGroup;
  created : list string;
  proto : option TaskGroup
}.

(** [{}]. *)
Definition empty_object : GroupMap :=
  {| own := ∅; created := []; proto := None |}.

(** [group[key]] for a group: the field of that name is there and holds
    neither [undefined] nor [null]. The name, the colour and the task
    list always do. *)
Definition field_holds (group : TaskGroup) (key : string) : bool :=
  if String.eqb key "name" then true
  else if String.eqb key "category_id" then negb (Js.nullish (category_id group))
  else if String.eqb key "start_date" then negb (Js.nullish (start_date group))
  else if String.eqb key "end_date" then negb (Js.nullish (end_date group))
  else if String.eqb key "color_code" then true
  else if String.eqb key "color_code_dark" then negb (Js.nullish (color_code_dark group))
  else if String.eqb key "todo_progress" then negb (Js.nullish (todo_progress group))
  else if String.eqb key "doing_progress" then negb (Js.nullish (doing_progress group))
  else if String.eqb key "done_progress" then negb (Js.nullish (done_progress group))
  else String.eqb key "tasks".

(** What [map[key]] evaluates to. *)
Inductive Member :=
| Nullish                        (* [undefined] or [null] *)
| OwnGroup (group : TaskGroup)   (* the group under an own key *)
| ProtoGroup (group : TaskGroup) (* the prototype, when it is a group *)
| Other.                         (* a string, a number, an array, a function or
                                    [Object.prototype]: it has no [tasks] *)

(** [map[key]]: an own property first; then [__proto__], the accessor
    that gives the prototype; then the fields of a prototype that is a
    group; then the members of [Object.prototype]; else [undefined]. *)
Definition get (map : GroupMap) (key : string) : Member :=
  match own map !! key with
  | Some group => OwnGroup group
  | None =>
      if String.eqb key "__proto__" then
        match proto map with
        | Some group => ProtoGroup group
        | None => Other
        end
      else if match proto map with
              | Some group => field_holds group key
              | None => false
              end then Other
      else if Js.in_object_prototype key then Other
      else Nullish
  end.

(** [map[key] = group]: unless the object has an own property of that
    name, [__proto__] is the accessor of [Object.prototype], and
    assigning an object to it replaces the prototype and creates no key.
    Every other key becomes, or stays, an own property. *)
Definition assign (map : GroupMap) (key : string) (group : TaskGroup) : GroupMap :=
  if String.eqb key "__proto__" && Js.nullish (own map !! key) then
    {| own := own map; created := created map; proto := Some group |}
  else
    {| own := <[key := group]> (own map);
       created := Js.assign_key (created map) key;
       proto := proto map |}.

(** The reducer of [getList] that builds the map of group shells. *)
Definition shells (groups : list GroupRow) : GroupMap :=
  fold_left
    (fun g group =>
       match row_id group with
       | Some i => if Js.truthy (Some i) then assign g i (TaskListGroup group) else g
       | None => g
       end)
    groups empty_object.

(** [map[key]?.tasks.push(task)]. Nothing happens when [map[key]] is
    nullish; a group, own or the prototype, gets the task; for any other
    value [.tasks] is [undefined] and reading [push] from it throws a
    TypeError, which is the result [None]. *)
Definition push (map : GroupMap) (key : string) (task : Task) : option GroupMap :=
  match get map key with
  | Nullish => Some map
  | OwnGroup group =>
      Some {| own := <[key := with_tasks group (tasks group ++ [task])]> (own map);
              created := created map;
              proto := proto map |}
  | ProtoGroup group =>
      Some {| own := own map;
              created := created map;
              proto := Some (with_tasks group (tasks group ++ [task])) |}
  | Other => None
  end.

(** The state of the loop of [updateMapByGroup]. *)
Record Walk := {
  next_index : nat;
  unmapped : list Task;
  groups : GroupMap
}.

(** The loop goes on with the map a push has left, if it returned. *)
Definition pushed (w : Walk) (key : string) (task : Task) : option Walk :=
  match push (groups w) key task with
  | Some map =>
      Some {| next_index := S (next_index w); unmapped := unmapped w; groups := map |}
  | None => None
  end.

(** One iteration of [for (const task of tasks)]; [None] when it throws. *)
Definition visit (groupBy : string) (w : Walk) (task0 : Task) : option Walk :=
  let task := updateTaskViewModel (set_index task0 (next_index w)) in
  if String.eqb groupBy GroupBy_STATUS then
    pushed w (Js.property_key (status task)) task
  else if String.eqb groupBy GroupBy_PRIORITY then
    pushed w (Js.property_key (priority task)) task
  else if String.eqb groupBy GroupBy_PHASE && Js.truthy (phase_id task) then
    pushed w (Js.property_key (phase_id task)) task
  else
    Some {| next_index := S (next_index w); unmapped := unmapped w ++ [task];
            groups := groups w |}.

(** The loop from the state [w]: an iteration that throws ends it. *)
Fixpoint loop (groupBy : string) (tasks : list Task) (w : Walk) : option Walk :=
  match tasks with
  | [] => Some w
  | task :: rest =>
      match visit groupBy w task with
      | Some w' => loop groupBy rest w'
      | None => None
      end
  end.

Definition walk (tasks : list Task) (groupBy : string) (map : GroupMap) : option Walk :=
  loop groupBy tasks {| next_index := 0; unmapped := []; groups := map |}.

(** The object literal stored under [UNMAPPED]. *)
Definition unmapped_group (ts : list Task) : TaskGroup :=
  {| name := UNMAPPED;
     category_id := None;
     color_code := "#fbc84c69";
     color_code_dark := None;
     start_date := None;
     end_date := None;
     todo_progress := None;
     doing_progress := None;
     done_progress := None;
     tasks := ts |}.

(** [updateMapByGroup(tasks, groupBy, map)]; the map it mutates is the
    result, and [None] stands for the TypeError the loop may throw. *)
Definition updateMapByGroup (tasks : list Task) (groupBy : string)
    (map : GroupMap) : option GroupMap :=
  match walk tasks groupBy map with
  | Some w =>
      match unmapped w with
      | [] => Some (groups w)
      | _ :: _ => Some (assign (groups w) UNMAPPED (unmapped_group (unmapped w)))
      end
  | None => None
  end.

(** Modelled from the spec: [calculateTaskCompleteRatio] belongs to
    [tasks-controller-base.ts], which is missing. The spec gives it as
    the count over the total, "rounded to the nearest whole percentage
    point" and "defined as 0 when the group is empty". Halves round up. *)
Definition calculateTaskCompleteRatio (count total : nat) : nat :=
  if Nat.eqb total 0 then 0
  else (200 * count + total) / (2 * total).

(** [t.status_category?.flag]. *)
Definition category_flag (flag : StatusCategory -> bool) (t : Task) : bool :=
  match status_category t with
  | Some c => flag c
  | None => false
  end.

(** [updateTaskProgresses(group)]; the group it mutates is the result. *)
Definition updateTaskProgresses (group : TaskGroup) : TaskGroup :=
  let todoCount := length (List.filter (category_flag is_todo) (tasks group)) in
  let doingCount := length (List.filter (category_flag is_doing) (tasks group)) in
  let doneCount := length (List.filter (category_flag is_done) (tasks group)) in
  let total := length (tasks group) in
  {| name := name group;
     category_id := category_id group;
     color_code := color_code group;
     color_code_dark := color_code_dark group;
     start_date := start_date group;
     end_date := end_date group;
     todo_progress := Some (calculateTaskCompleteRatio todoCount total);
     doing_progress := Some (calculateTaskCompleteRatio doingCount total);
     done_progress := Some (calculateTaskCompleteRatio doneCount total);
     tasks := tasks group |}.

(** *** Vocabulary of the grouping properties *)

(** The tasks as the loop sees them: numbered from [n] and decorated. *)
Fixpoint prepare_from (n : nat) (ts : list Task) : list Task :=
  match ts with
  | [] => []
  | t :: rest => updateTaskViewModel (set_index t n) :: prepare_from (S n) rest
  end.

Definition prepare (ts : list Task) : list Task := prepare_from 0 ts.

(** Where the branches of the loop send a task. *)
Inductive Route :=
| ToGroup (key : string)
| ToUnmapped.

Definition route (groupBy : string) (task : Task) : Route :=
  if String.eqb groupBy GroupBy_STATUS then ToGroup (Js.property_key (status task))
  else if String.eqb groupBy GroupBy_PRIORITY then ToGroup (Js.property_key (priority task))
  else if String.eqb groupBy GroupBy_PHASE && Js.truthy (phase_id task)
       then ToGroup (Js.property_key (phase_id task))
  else ToUnmapped.

(** The loop sends the task to the group [key]. *)
Definition routed_to (groupBy key : string) (task : Task) : bool :=
  match route groupBy task with
  | ToGroup k => String.eqb k key
  | ToUnmapped => false
  end.

(** The task resolves to one of the supplied group shells: the key the
    dimension reads from it is an own key of the map. *)
Definition resolves (groupBy : string) (map : GroupMap) (task : Task) : bool :=
  match route groupBy task with
  | ToGroup key => bool_decide (is_Some (own map !! key))
  | ToUnmapped => false
  end.

(** The task is sent to a key the map does not own, so that it ends up
    in no group of the map. *)
Definition skipped (groupBy : string) (map : GroupMap) (task : Task) : bool :=
  match route groupBy task with
  | ToGroup key => bool_decide (own map !! key = None)
  | ToUnmapped => false
  end.

(** [map[key]] has no task list and is not nullish. *)
Definition reads_other (map : GroupMap) (key : string) : bool :=
  match get map key with
  | Other => true
  | _ => false
  end.

(** [map[key]] is the prototype of the map, a group. *)
Definition reads_prototype (map : GroupMap) (key : string) : bool :=
  match get map key with
  | ProtoGroup _ => true
  | _ => false
  end.

(** The push of the task throws: what the map holds for its key, through
    the prototype chain, is not nullish and has no task list. *)
Definition throws (groupBy : string) (map : GroupMap) (task : Task) : bool :=
  match route groupBy task with
  | ToGroup key => reads_other map key
  | ToUnmapped => false
  end.

(** The task is pushed into the prototype of the map. *)
Definition into_prototype (groupBy : string) (map : GroupMap) (task : Task) : bool :=
  match route groupBy task with
  | ToGroup key => reads_prototype map key
  | ToUnmapped => false
  end.

(** The assignment [map[key] = ...] replaces the prototype. *)
Definition sets_prototype (map : GroupMap) (key : string) : bool :=
  String.eqb key "__proto__" && Js.nullish (own map !! key).

(** The list of created keys names the own properties, each once: what
    holds of every object built from [{}] by assignments. *)
Definition well_keyed (map : GroupMap) : Prop :=
  NoDup (created map) /\ forall k, k ∈ created map <-> is_Some (own map !! k).

Definition to_unmapped (groupBy : string) (task : Task) : bool :=
  match route groupBy task with
  | ToGroup _ => false
  | ToUnmapped => true
  end.

(** The number of entries, over all groups among the own properties of a
    map, that satisfy [p]. *)
Definition entries_with (p : Task -> bool) (map : gmap string TaskGroup) : nat :=
  map_fold (fun _ group n => length (List.filter p (tasks group)) + n) 0 map.

(** The sum of the task counts over all groups among the own properties
    of a map. *)
Definition task_count (map : gmap string TaskGroup) : nat :=
  entries_with (fun _ => true) map.

Definition has_index (i : nat) (task : Task) : bool :=
  match index task with
  | Some j => Nat.eqb i j
  | None => false
  end.

(** The partition property as the specification words it: the call
    returns a map, the counts over its groups add up to the number of
    input tasks, and the task numbered [i] is an entry of exactly one
    group, once. *)
Definition partition_exhaustive (ts : list Task) (groupBy : string)
    (map : GroupMap) : Prop :=
  exists map',
    updateMapByGroup ts groupBy map = Some map' /\
    task_count (own map') = length ts /\
    forall i, i < length ts -> entries_with (has_index i) (own map') = 1.

End Grouping.

Arguments status {View} _.
Arguments priority {View} _.
Arguments phase_id {View} _.
Arguments status_category {View} _.
Arguments index {View} _.
Arguments view {View} _.
Arguments task_id {View} _.
Arguments name {View} _.
Arguments category_id {View} _.
Arguments color_code {View} _.
Arguments color_code_dark {View} _.
Arguments start_date {View} _.
Arguments end_date {View} _.
Arguments todo_progress {View} _.
Arguments doing_progress {View} _.
Arguments done_progress {View} _.
Arguments tasks {View} _.
Arguments groups {View} _.
Arguments unmapped {View} _.
Arguments next_index {View} _.
Arguments set_index {View} _ _.
Arguments with_tasks {View} _ _.
Arguments own {View} _.
Arguments created {View} _.
Arguments proto {View} _.
Arguments Nullish {View}.
Arguments OwnGroup {View} _.
Arguments ProtoGroup {View} _.
Arguments Other {View}.
Arguments field_holds {View} _ _.
Arguments get {View} _ _.
Arguments assign {View} _ _ _.
Arguments push {View} _ _ _.
Arguments pushed {View} _ _ _.
Arguments category_flag {View} _ _.
Arguments updateTaskProgresses {View} _.
Arguments entries_with {View} _ _.
Arguments task_count {View} _.
Arguments has_index {View} _ _.
Arguments updateTaskViewModel {View} _ _.
Arguments prepare_from {View} _ _ _.
Arguments prepare {View} _ _.
Arguments unmapped_group _ {View} _.
Arguments visit _ _ _ {View} _ _ _ _.
Arguments loop _ _ _ {View} _ _ _ _.
Arguments walk _ _ _ {View} _ _ _ _.
Arguments updateMapByGroup _ _ _ _ {View} _ _ _ _.
Arguments route _ _ _ {View} _ _.
Arguments resolves _ _ _ {View} _ _ _.
Arguments skipped _ _ _ {View} _ _ _.
Arguments to_unmapped _ _ _ {View} _ _.
Arguments routed_to _ _ _ {View} _ _ _.
Arguments reads_other {View} _ _.
Arguments reads_prototype {View} _ _.
Arguments throws _ _ _ {View} _ _ _.
Arguments into_prototype _ _ _ {View} _ _ _.
Arguments sets_prototype {View} _ _.
Arguments well_keyed {View} _.
Arguments partition_exhaustive _ _ _ _ {View} _ _ _ _.

End Grouping.

(** ** Filter predicate composer and query planner *)

Module Query.

(** The text [getStatusesQuery] selects for [filterBy === 'member']. *)
Definition statuses_sql : string :=
", (SELECT COALESCE(JSON_AGG(rec), '[]'::JSON)
      FROM (SELECT task_statuses.id, task_statuses.name, stsc.color_code
          FROM task_statuses
              INNER JOIN sys_task_status_categories stsc ON task_statuses.category_id = stsc.id
          WHERE project_id = t.project_id
          ORDER BY task_statuses.name) rec) AS statuses".

(** The custom column sub-select of [getQuery]. *)
Definition custom_columns_sql : string :=
", (SELECT COALESCE(
            jsonb_object_agg(
              custom_cols.key, 
              custom_cols.value
            ), 
            '{}'::JSONB
          )
          FROM (
            SELECT 
              cc.key,
              CASE 
                WHEN ccv.text_value IS NOT NULL THEN to_jsonb(ccv.text_value)
                WHEN ccv.number_value IS NOT NULL THEN to_jsonb(ccv.number_value)
                WHEN ccv.boolean_value IS NOT NULL THEN to_jsonb(ccv.boolean_value)
                WHEN ccv.date_value IS NOT NULL THEN to_jsonb(ccv.date_value)
                WHEN ccv.json_value IS NOT NULL THEN ccv.json_value
                ELSE NULL::JSONB
              END AS value
            FROM cc_column_values ccv
            JOIN cc_custom_columns cc ON ccv.column_id = cc.id
            WHERE ccv.task_id = t.id
          ) AS custom_cols
          WHERE custom_cols.value IS NOT NULL) AS custom_column_values".

(** The query template of [getQuery] up to the interpolated user id. *)
Definition select_head : string :=
"
      SELECT id,
             name,
             CONCAT((SELECT key FROM projects WHERE id = t.project_id), '-', task_no) AS task_key,
             (SELECT name FROM projects WHERE id = t.project_id) AS project_name,
             t.project_id AS project_id,
             t.parent_task_id,
             t.parent_task_id IS NOT NULL AS is_sub_task,
             (SELECT name FROM tasks WHERE id = t.parent_task_id) AS parent_task_name,
             (SELECT COUNT(*)
              FROM tasks
              WHERE parent_task_id = t.id)::INT AS sub_tasks_count,

             t.status_id AS status,
             t.archived,
             t.description,
             t.sort_order,

             (SELECT phase_id FROM task_phase WHERE task_id = t.id) AS phase_id,
             (SELECT name
              FROM project_phases
              WHERE id = (SELECT phase_id FROM task_phase WHERE task_id = t.id)) AS phase_name,
              (SELECT color_code
                FROM project_phases
                WHERE id = (SELECT phase_id FROM task_phase WHERE task_id = t.id)) AS phase_color_code,

             (EXISTS(SELECT 1 FROM task_subscribers WHERE task_id = t.id)) AS has_subscribers,
             (EXISTS(SELECT 1 FROM task_dependencies td WHERE td.task_id = t.id)) AS has_dependencies,
             (SELECT start_time
              FROM task_timers
              WHERE task_id = t.id
                AND user_id = '".

(** The template between the user id and the custom column select. *)
Definition select_columns : string :=
"') AS timer_start_time,

             (SELECT color_code
              FROM sys_task_status_categories
              WHERE id = (SELECT category_id FROM task_statuses WHERE id = t.status_id)) AS status_color,

             (SELECT color_code_dark
              FROM sys_task_status_categories
              WHERE id = (SELECT category_id FROM task_statuses WHERE id = t.status_id)) AS status_color_dark,

             (SELECT COALESCE(ROW_TO_JSON(r), '{}'::JSON)
              FROM (SELECT is_done, is_doing, is_todo
                    FROM sys_task_status_categories
                    WHERE id = (SELECT category_id FROM task_statuses WHERE id = t.status_id)) r) AS status_category,

             (SELECT COUNT(*) FROM task_comments WHERE task_id = t.id) AS comments_count,
             (SELECT COUNT(*) FROM task_attachments WHERE task_id = t.id) AS attachments_count,
             (CASE
                WHEN EXISTS(SELECT 1
                            FROM tasks_with_status_view
                            WHERE tasks_with_status_view.task_id = t.id
                              AND is_done IS TRUE) THEN 1
                ELSE 0 END) AS parent_task_completed,
             (SELECT get_task_assignees(t.id)) AS assignees,
             (SELECT COUNT(*)
              FROM tasks_with_status_view tt
              WHERE tt.parent_task_id = t.id
                AND tt.is_done IS TRUE)::INT
               AS completed_sub_tasks,

             (SELECT COALESCE(JSON_AGG(r), '[]'::JSON)
              FROM (SELECT task_labels.label_id AS id,
                           (SELECT name FROM team_labels WHERE id = task_labels.label_id),
                           (SELECT color_code FROM team_labels WHERE id = task_labels.label_id)
                    FROM task_labels
                    WHERE task_id = t.id) r) AS labels,
             (SELECT is_completed(status_id, project_id)) AS is_complete,
             (SELECT name FROM users WHERE id = t.reporter_id) AS reporter,
             (SELECT id FROM task_priorities WHERE id = t.priority_id) AS priority,
             (SELECT value FROM task_priorities WHERE id = t.priority_id) AS priority_value,
             total_minutes,
             (SELECT SUM(time_spent) FROM task_work_log WHERE task_id = t.id) AS total_minutes_spent,
             created_at,
             updated_at,
             completed_at,
             start_date,
             billable,
             schedule_id,
             END_DATE ".

(** The template between the select list and the filters. *)
Definition select_from : string :=
"
      FROM tasks t
      WHERE ".

(** The template between the search clause and the sort fields. *)
Definition select_order : string :=
"
      ORDER BY ".

(** The end of the template. *)
Definition select_tail : string :=
"
    ".

(** The query of [getTasksByName] up to the interpolated search string. *)
Definition tasks_by_name_head : string :=
"SELECT id AS value ,
       name AS label,
       CONCAT((SELECT key FROM projects WHERE id = t.project_id), '-', task_no) AS task_key
      FROM tasks t
      WHERE t.name ILIKE '%".

(** The query of [getTasksByName] after the search string. *)
Definition tasks_by_name_tail : string :=
"%'
        AND t.project_id = $1 AND t.id != $2
      LIMIT 15;".

Section Query.

(** The query string of a request ([ParsedQs]), by the parameters the
    controller reads; [others] are those only the base class reads. *)
Record Options := {
  search : option string;
  parent_task : option string;
  statuses : option string;
  labels : option string;
  members : option string;
  projects : option string;
  priorities : option string;
  filterBy : option string;
  customColumns : option string;
  archived : option string;
  isSubtasksInclude : option string;
  count : option string;
  others : list (string * string)
}.

(** [toPaginationOptions] belongs to [tasks-controller-base.ts], which is
    missing: a parameter, returning [searchQuery] and [sortField]. *)
Variable toPaginationOptions : Options -> string -> string * string.

Definition isCountsOnly (query : Options) : bool :=
  Js.strict_eq (count query) "true".

Definition flatString (text : option string) : string :=
  Js.join ","
    (List.map (fun s => "'" ++ s ++ "'")
       (Js.split_space (match text with Some s => s | None => "" end))).

Definition getFilterByStatusWhereClosure (text : option string) : string :=
  if Js.truthy text then "status_id IN (" ++ flatString text ++ ")" else "".

Definition getFilterByPriorityWhereClosure (text : option string) : string :=
  if Js.truthy text then "priority_id IN (" ++ flatString text ++ ")" else "".

Definition getFilterByLabelsWhereClosure (text : option string) : string :=
  if Js.truthy text
  then "id IN (SELECT task_id FROM task_labels WHERE label_id IN (" ++ flatString text ++ "))"
  else "".

Definition getFilterByMembersWhereClosure (text : option string) : string :=
  if Js.truthy text
  then "id IN (SELECT task_id FROM tasks_assignees WHERE team_member_id IN ("
       ++ flatString text ++ "))"
  else "".

Definition getFilterByProjectsWhereClosure (text : option string) : string :=
  if Js.truthy text then "project_id IN (" ++ flatString text ++ ")" else "".

Definition getFilterByAssignee (filterBy : option string) : string :=
  if Js.strict_eq filterBy "member"
  then "id IN (SELECT task_id FROM tasks_assignees WHERE team_member_id = $1)"
  else "project_id = $1".

Definition getStatusesQuery (filterBy : option string) : string :=
  if Js.strict_eq filterBy "member" then statuses_sql else "".

Definition nonempty (s : string) : bool := negb (String.eqb s "").

Definition archivedFilter (options : Options) : string :=
  if Js.strict_eq (archived options) "true" then "archived IS TRUE" else "archived IS FALSE".

Definition subTasksFilter (options : Options) : string :=
  if Js.strict_eq (isSubtasksInclude options) "true" then ""
  else if Js.truthy (parent_task options) then "parent_task_id = $2"
  else "parent_task_id IS NULL".

(** The array [filters] of [getQuery] before [.filter(i => !!i)]. *)
Definition filter_candidates (options : Options) : list string :=
  let isSubTasks := Js.truthy (parent_task options) in
  [ subTasksFilter options;
    (if isSubTasks then "1 = 1" else archivedFilter options);
    (if isSubTasks then "$1 = $1" else getFilterByAssignee (filterBy options));
    getFilterByStatusWhereClosure (statuses options);
    getFilterByPriorityWhereClosure (priorities options);
    getFilterByLabelsWhereClosure (labels options);
    getFilterByMembersWhereClosure (members options);
    getFilterByProjectsWhereClosure (projects options) ].

(** The fragments that reach the WHERE clause. *)
Definition where_fragments (options : Options) : list string :=
  List.filter nonempty (filter_candidates options).

Definition filters (options : Options) : string :=
  Js.join " AND " (where_fragments options).

(** [getQuery(userId, options)]. *)
Definition getQuery (userId : string) (options : Options) : string :=
  let searchField := if Js.truthy (search options) then "t.name" else "sort_order" in
  let '(searchQuery, sortField) := toPaginationOptions options searchField in
  let sortFields :=
    Js.or_else (Js.replace_all "descend" "DESC" (Js.replace_all "ascend" "ASC" sortField))
      "sort_order" in
  let statusesQuery := getStatusesQuery (filterBy options) in
  let customColumnsQuery :=
    if Js.truthy (customColumns options) then custom_columns_sql else "" in
  select_head ++ userId ++ select_columns ++ customColumnsQuery ++ " " ++ statusesQuery
    ++ select_from ++ filters options ++ " " ++ searchQuery
    ++ select_order ++ sortFields ++ select_tail.

End Query.

(** A call [db.query(q, params)] of [getTasksByName]: text and bound
    values. *)
Definition getTasksByName (searchString projectId taskId : string)
  : string * list string :=
  (tasks_by_name_head ++ searchString ++ tasks_by_name_tail, [projectId; taskId]).

(** *** Vocabulary of the query properties *)

(** The five multi-value filters, each with its value and its fragment. *)
Definition multi_value_filters (options : Options) : list (option string * string) :=
  [ (statuses options, getFilterByStatusWhereClosure (statuses options));
    (priorities options, getFilterByPriorityWhereClosure (priorities options));
    (labels options, getFilterByLabelsWhereClosure (labels options));
    (members options, getFilterByMembersWhereClosure (members options));
    (projects options, getFilterByProjectsWhereClosure (projects options)) ].

(** The fragments of the filters that carry a value. *)
Definition present_filters (options : Options) : list string :=
  List.map snd (List.filter (fun vf => Js.truthy (fst vf)) (multi_value_filters options)).

(** The fragments that do not come from a multi-value filter. *)
Definition scope_fragments (options : Options) : list string :=
  List.filter nonempty (firstn 3 (filter_candidates options)).

(** The archived rule as the specification words it: archived rows only
    when asked for, non-archived rows in every other request. The
    conjuncts of the WHERE clause are the fragments, so the rule needs
    the archived fragment among them at least. *)
Definition archived_rule (options : Options) : Prop :=
  if Js.strict_eq (archived options) "true"
  then In "archived IS TRUE" (where_fragments options)
  else In "archived IS FALSE" (where_fragments options).

(** [text] occurs in [query]. *)
Definition occurs_in (text query : string) : Prop :=
  exists before after, query = before ++ text ++ after.

End Query.

(** ** The task store, as the controller's SQL reads and writes it *)

Module Store.

(** Rows are keyed by their [id] column, the primary key; every other
    column is nullable. *)
Record Category := {
  cat_is_done : option bool
}.

Record TaskStatus := {
  ts_project_id : option string;
  ts_category_id : option string
}.

Record TaskRow := {
  project_id : option string;
  status_id : option string;
  priority_id : option string;
  parent_task_id : option string;
  sort_order : option Z
}.

Record Dependency := {
  td_task_id : option string;
  td_related_task_id : option string
}.

Record Db := {
  sys_task_status_categories : gmap string Category;
  task_statuses : gmap string TaskStatus;
  tasks : gmap string TaskRow;
  task_dependencies : list Dependency
}.

(** [FROM table]: the rows with their key. *)
Definition rows {A} (table : gmap string A) : list (string * A) :=
  map_to_list table.

(** *** [checkForCompletedDependencies] *)

(** [(SELECT project_id FROM tasks WHERE id = $1)]; the key admits one
    row at most. *)
Definition project_of_task (db : Db) (p1 : option string) : option string :=
  match List.filter (fun r => Sql.is_true (Sql.eq_ (Some (fst r)) p1)) (rows (tasks db)) with
  | [] => None
  | r :: _ => project_id (snd r)
  end.

(** [SELECT id FROM sys_task_status_categories WHERE is_done IS b]. *)
Definition categories_where_done_is (db : Db) (b : bool) : list (option string) :=
  List.map (fun r => Some (fst r))
    (List.filter
       (fun r => if b then Sql.is_true (cat_is_done (snd r))
                 else Sql.is_false (cat_is_done (snd r)))
       (rows (sys_task_status_categories db))).

(** The first WHEN: a status row [$2] of the task's project in a category
    that is not done. *)
Definition status_not_done_exists (db : Db) (p1 p2 : option string) : bool :=
  existsb
    (fun ts =>
       Sql.is_true
         (Sql.and_
            (Sql.and_ (Sql.eq_ (Some (fst ts)) p2)
               (Sql.eq_ (ts_project_id (snd ts)) (project_of_task db p1)))
            (Sql.in_ (ts_category_id (snd ts)) (categories_where_done_is db false))))
    (rows (task_statuses db)).

(** [task_dependencies td LEFT JOIN tasks t ON t.id = td.related_task_id]:
    a dependency without a task keeps one row, with NULL for [t]. *)
Definition dependencies_left_join_tasks (db : Db)
  : list (Dependency * option (string * TaskRow)) :=
  flat_map
    (fun td =>
       match List.filter
               (fun t => Sql.is_true (Sql.eq_ (Some (fst t)) (td_related_task_id td)))
               (rows (tasks db)) with
       | [] => [(td, None)]
       | matches => List.map (fun t => (td, Some t)) matches
       end)
    (task_dependencies db).

Definition joined_status_id (t : option (string * TaskRow)) : option string :=
  match t with
  | Some r => status_id (snd r)
  | None => None
  end.

Definition joined_project_id (t : option (string * TaskRow)) : option string :=
  match t with
  | Some r => project_id (snd r)
  | None => None
  end.

(** The sub-select of the second WHEN: the ids of the statuses of the
    project of [t] whose category is done. *)
Definition done_statuses_of_project (db : Db) (t_project_id : option string)
  : list (option string) :=
  List.map (fun ts => Some (fst ts))
    (List.filter
       (fun ts =>
          Sql.is_true
            (Sql.and_ (Sql.eq_ t_project_id (ts_project_id (snd ts)))
               (Sql.in_ (ts_category_id (snd ts)) (categories_where_done_is db true))))
       (rows (task_statuses db))).

(** The second WHEN: a dependency of [$1] whose task is not in a done
    status. *)
Definition incomplete_dependency_exists (db : Db) (p1 : option string) : bool :=
  existsb
    (fun row =>
       Sql.is_true
         (Sql.and_ (Sql.eq_ (td_task_id (fst row)) p1)
            (Sql.not_
               (Sql.in_ (joined_status_id (snd row))
                  (done_statuses_of_project db (joined_project_id (snd row)))))))
    (dependencies_left_join_tasks db).

(** [checkForCompletedDependencies(taskId, nextStatusId)]: the column
    [can_continue] of the one row the query returns. *)
Definition checkForCompletedDependencies (db : Db) (taskId nextStatusId : string) : bool :=
  if status_not_done_exists db (Some taskId) (Some nextStatusId) then true
  else if incomplete_dependency_exists db (Some taskId) then false
  else true.

(** *** Vocabulary of the gate properties *)

(** The category of status [sid] has [is_done = b]. *)
Definition status_category_done_is (db : Db) (sid : string) (b : bool) : bool :=
  match task_statuses db !! sid with
  | Some ts =>
      match ts_category_id ts with
      | Some cid =>
          match sys_task_status_categories db !! cid with
          | Some c => bool_decide (cat_is_done c = Some b)
          | None => false
          end
      | None => false
      end
  | None => false
  end.

(** Status [sid] is a status of project [pid]. *)
Definition status_of_project (db : Db) (sid pid : string) : bool :=
  match task_statuses db !! sid with
  | Some ts => bool_decide (ts_project_id ts = Some pid)
  | None => false
  end.

(** Status [sid] belongs to the done category for the project of task
    [taskId]. *)
Definition target_is_done (db : Db) (taskId sid : string) : bool :=
  match tasks db !! taskId with
  | Some t =>
      match project_id t with
      | Some pid => status_of_project db sid pid && status_category_done_is db sid true
      | None => false
      end
  | None => false
  end.

(** Status [sid] is a status of the project of task [taskId], in a
    category that is not done. *)
Definition target_is_open (db : Db) (taskId sid : string) : bool :=
  match tasks db !! taskId with
  | Some t =>
      match project_id t with
      | Some pid => status_of_project db sid pid && status_category_done_is db sid false
      | None => false
      end
  | None => false
  end.

(** The tasks [taskId] depends on, one hop away. *)
Definition direct_dependencies (db : Db) (taskId : string) : list (option string) :=
  List.map td_related_task_id
    (List.filter (fun td => bool_decide (td_task_id td = Some taskId))
       (task_dependencies db)).

(** The dependency is a task whose status is a done status of its
    project. *)
Definition dependency_done (db : Db) (related : option string) : bool :=
  match related with
  | Some rid =>
      match tasks db !! rid with
      | Some t =>
          match project_id t, status_id t with
          | Some pid, Some sid =>
              status_of_project db sid pid && status_category_done_is db sid true
          | _, _ => false
          end
      | None => false
      end
  | None => false
  end.

(** The gate as the specification words it. *)
Definition gate_policy (db : Db) (taskId sid : string) : Prop :=
  (target_is_done db taskId sid = false ->
   checkForCompletedDependencies db taskId sid = true) /\
  (target_is_done db taskId sid = true ->
   existsb (fun d => negb (dependency_done db d)) (direct_dependencies db taskId) = true ->
   checkForCompletedDependencies db taskId sid = false) /\
  (target_is_done db taskId sid = true ->
   forallb (dependency_done db) (direct_dependencies db taskId) = true ->
   checkForCompletedDependencies db taskId sid = true).

(** No task row has a NULL status. *)
Definition statuses_assigned (db : Db) : bool :=
  forallb (fun t => negb (Sql.is_null (status_id (snd t)))) (rows (tasks db)).

(** *** [convertToTask] and [convertToSubtask] *)

(** The SQL texts the two handlers pass to [db.query]. *)
Inductive Statement :=
| ConvertToTaskUpdate      (* UPDATE tasks SET parent_task_id = NULL, sort_order = ... WHERE id = $1 *)
| SubtaskStatusUpdate      (* ... SET parent_task_id = $3, sort_order = ..., status_id = $4 WHERE id = $1 *)
| SubtaskPriorityUpdate    (* ... SET parent_task_id = $3, sort_order = ..., priority_id = $4 WHERE id = $1 *)
| SubtaskParentUpdate      (* ... SET parent_task_id = $3, sort_order = ... WHERE id = $1 *)
| HandleOnTaskPhaseChange  (* SELECT handle_on_task_phase_change($1, $2) *)
| EmptyStatement           (* the empty text *)
| GetSingleTask.           (* SELECT get_single_task($1) AS task *)

Record Call := {
  statement : Statement;
  params : list (option string)
}.

(** [$n], counted from 1. *)
Definition param (n : nat) (ps : list (option string)) : option string :=
  nth (n - 1) ps None.

(** [COALESCE((SELECT MAX(sort_order) + 1 FROM tasks WHERE project_id = $2), 0)],
    over integers without a width: the column type is not in the sources. *)
Definition next_sort_order (db : Db) (p2 : option string) : Z :=
  Sql.coalesce
    (option_map (fun m => m + 1)%Z
       (Sql.max_
          (List.map (fun t => sort_order (snd t))
             (List.filter (fun t => Sql.is_true (Sql.eq_ (project_id (snd t)) p2))
                (rows (tasks db))))))
    0.

(** [UPDATE tasks SET ... WHERE id = $1]. *)
Definition update_tasks_where_id (set : TaskRow -> TaskRow) (p1 : option string) (db : Db) : Db :=
  {| sys_task_status_categories := sys_task_status_categories db;
     task_statuses := task_statuses db;
     tasks :=
       map_imap
         (fun i t => Some (if Sql.is_true (Sql.eq_ (Some i) p1) then set t else t))
         (tasks db);
     task_dependencies := task_dependencies db |}.

(** What a call does to the tables above; the stored functions
    [get_single_task] and [handle_on_task_phase_change] do not write
    them. *)
Definition exec (c : Call) (db : Db) : Db :=
  let ps := params c in
  let order := next_sort_order db (param 2 ps) in
  match statement c with
  | ConvertToTaskUpdate =>
      update_tasks_where_id
        (fun t => {| project_id := project_id t; status_id := status_id t;
                     priority_id := priority_id t; parent_task_id := None;
                     sort_order := Some order |})
        (param 1 ps) db
  | SubtaskStatusUpdate =>
      update_tasks_where_id
        (fun t => {| project_id := project_id t; status_id := param 4 ps;
                     priority_id := priority_id t; parent_task_id := param 3 ps;
                     sort_order := Some order |})
        (param 1 ps) db
  | SubtaskPriorityUpdate =>
      update_tasks_where_id
        (fun t => {| project_id := project_id t; status_id := status_id t;
                     priority_id := param 4 ps; parent_task_id := param 3 ps;
                     sort_order := Some order |})
        (param 1 ps) db
  | SubtaskParentUpdate =>
      update_tasks_where_id
        (fun t => {| project_id := project_id t; status_id := status_id t;
                     priority_id := priority_id t; parent_task_id := param 3 ps;
                     sort_order := Some order |})
        (param 1 ps) db
  | HandleOnTaskPhaseChange | EmptyStatement | GetSingleTask => db
  end.

(** The calls of a handler, awaited one after the other. *)
Definition run (calls : list Call) (db : Db) : Db :=
  fold_left (fun d c => exec c d) calls db.

(** [req.body] of the two handlers. *)
Record Body := {
  id : option string;
  body_project_id : option string;
  body_parent_task_id : option string;
  to_group_id : option string;
  group_by : option string
}.

(** [convertToTask]: the calls it awaits, in order. *)
Definition convertToTask (body : Body) : list Call :=
  [ {| statement := ConvertToTaskUpdate; params := [id body; body_project_id body] |};
    {| statement := GetSingleTask; params := [id body] |} ].

Section Reparent.

(** [UNMAPPED] of [shared/constants.ts], a parameter. *)
Variable UNMAPPED : string.

(** [convertToSubtask]: the calls it awaits, in order. *)
Definition convertToSubtask (body : Body) : list Call :=
  let groupType := group_by body in
  let early :=
    if Js.strict_eq groupType "status" then []
    else if Js.strict_eq groupType "priority" then []
    else if Js.strict_eq groupType "phase" then
      [ {| statement := SubtaskParentUpdate;
           params := [id body; body_project_id body; body_parent_task_id body] |} ]
    else [] in
  let q :=
    if Js.strict_eq groupType "status" then SubtaskStatusUpdate
    else if Js.strict_eq groupType "priority" then SubtaskPriorityUpdate
    else if Js.strict_eq groupType "phase" then HandleOnTaskPhaseChange
    else EmptyStatement in
  let to_group_id' :=
    if Js.strict_eq (to_group_id body) UNMAPPED then None else to_group_id body in
  let params' :=
    if Js.strict_eq groupType "phase"
    then [id body; to_group_id']
    else [id body; body_project_id body; body_parent_task_id body; to_group_id'] in
  early ++ [ {| statement := q; params := params' |};
             {| statement := GetSingleTask; params := [id body] |} ].

End Reparent.

(** *** Vocabulary of the re-parenting properties *)

(** The sort positions of the tasks of project [pid]. *)
Definition sort_positions (db : Db) (pid : string) : list Z :=
  Sql.values
    (List.map (fun t => sort_order (snd t))
       (List.filter (fun t => bool_decide (project_id (snd t) = Some pid))
          (rows (tasks db)))).

(** [m] is the largest of a list of positions. *)
Definition is_maximum (m : Z) (l : list Z) : Prop :=
  In m l /\ forall z, In z l -> (z <= m)%Z.

End Store.

(** ** Label assignment: the handler and the event loop *)

Module Labels.

(** What an observer of the handler can see. *)
Inductive Event :=
| Issued (n : nat) (taskId label : string)   (* the n-th write reaches the store *)
| Settled (n : nat)                          (* the n-th write has completed *)
| Responded (status : nat) (done : bool) (message : string).

(** The body of an [async] function: it runs until it awaits a write,
    and goes on when that write has settled. *)
Inductive Async :=
| Return
| AwaitQuery (taskId label : string) (rest : Async).

(** The state of the event loop: the events so far, the suspended
    bodies with the write each waits for, and the number of writes. *)
Record Loop := {
  trace : list Event;
  pending : list (nat * Async);
  writes : nat
}.

Definition start : Loop := {| trace := []; pending := []; writes := 0 |}.

(** Calling an [async] function: it runs up to its first [await],
    issues that write and hands a promise back; the caller goes on. *)
Definition call_async (body : Async) (l : Loop) : Loop :=
  match body with
  | Return => l
  | AwaitQuery taskId label rest =>
      {| trace := trace l ++ [Issued (writes l) taskId label];
         pending := pending l ++ [(writes l, rest)];
         writes := S (writes l) |}
  end.

(** The callback of [labels.forEach(async (label) => ...)]. *)
Definition callback (id label : string) : Async :=
  AwaitQuery id label Return.

(** [labels.forEach(f)]: the promises [f] returns are dropped. *)
Definition forEach (f : string -> Async) (labels : list string) (l : Loop) : Loop :=
  fold_left (fun l' label => call_async (f label) l') labels l.

Definition send (status : nat) (done : bool) (message : string) (l : Loop) : Loop :=
  {| trace := trace l ++ [Responded status done message];
     pending := pending l;
     writes := writes l |}.

(** [assignLabelsToTask], up to its [return]. *)
Definition assignLabelsToTask (id : string) (labels : list string) (l : Loop) : Loop :=
  send 200 true "Labels assigned successfully" (forEach (callback id) labels l).

(** Afterwards the loop settles the pending writes, in any order, and
    resumes the body that waited. *)
Inductive settles : Loop -> Loop -> Prop :=
| settle_one (l : Loop) (before after : list (nat * Async)) (n : nat) (rest : Async) :
    pending l = (before ++ (n, rest) :: after)%list ->
    settles l
      (call_async rest
         {| trace := (trace l ++ [Settled n])%list;
            pending := (before ++ after)%list;
            writes := writes l |}).

Inductive later : Loop -> Loop -> Prop :=
| later_now l : later l l
| later_step l1 l2 l3 : later l1 l2 -> settles l2 l3 -> later l1 l3.

Definition is_settled (e : Event) : bool :=
  match e with
  | Settled _ => true
  | _ => false
  end.

Definition is_response (e : Event) : bool :=
  match e with
  | Responded _ _ _ => true
  | _ => false
  end.

(** The number of writes that have completed when the response is sent. *)
Fixpoint settled_before_response (events : list Event) : nat :=
  match events with
  | [] => 0
  | e :: rest =>
      if is_response e then 0
      else (if is_settled e then 1 else 0) + settled_before_response rest
  end.

(** Events that are neither a completed write nor a response. *)
Definition quiet (events : list Event) : Prop :=
  Forall (fun e => is_settled e = false /\ is_response e = false) events.

(** The requirement of the specification: when the handler reports
    success, every write has completed. *)
Definition awaited_before_response (labels : list string) (events : list Event) : Prop :=
  settled_before_response events = length labels.

End Labels.


(** ** Sample data *)

Module Examples.

(** The constants as the product sets them. *)
Definition UNMAPPED : string := "Unmapped".
Definition GroupBy_STATUS : string := "status".
Definition GroupBy_PRIORITY : string := "priority".
Definition GroupBy_PHASE : string := "phase".

(** A view model without fields. *)
Definition no_view (t : Grouping.Task unit) : unit := tt.

Definition task (i : string) (phase : option string) : Grouping.Task unit :=
  {| Grouping.task_id := i;
     Grouping.status := Some "todo";
     Grouping.priority := Some "medium";
     Grouping.phase_id := phase;
     Grouping.status_category := None;
     Grouping.index := None;
     Grouping.view := None |}.

(** The shells of a project whose one phase is ["design"]. *)
Definition phase_shells : Grouping.GroupMap unit :=
  Grouping.shells "69" unit
    [ {| Grouping.row_id := Some "design";
         Grouping.row_name := "Design";
         Grouping.row_category_id := None;
         Grouping.row_color_code := "#70a6f3";
         Grouping.row_color_code_dark := Some "#70a6f3";
         Grouping.row_start_date := None;
         Grouping.row_end_date := None |} ].

(** A task of the phase, and a task of a phase that has no shell. *)
Definition tasks_with_removed_phase : list (Grouping.Task unit) :=
  [ task "t1" (Some "design"); task "t2" (Some "removed") ].

(** A task of the phase, and a task without a phase. *)
Definition tasks_with_missing_phase : list (Grouping.Task unit) :=
  [ task "t1" (Some "design"); task "t2" None ].

(** The example of the specification: statuses Todo, Doing and Done, and
    the tasks A (Todo), B (Doing), C and D (Done), grouped by status. *)
Definition status_row (i label : string) : Grouping.GroupRow :=
  {| Grouping.row_id := Some i;
     Grouping.row_name := label;
     Grouping.row_category_id := Some i;
     Grouping.row_color_code := "#a9a9a9";
     Grouping.row_color_code_dark := Some "#a9a9a9";
     Grouping.row_start_date := None;
     Grouping.row_end_date := None |}.

Definition status_shells : Grouping.GroupMap unit :=
  Grouping.shells "69" unit
    [ status_row "todo" "Todo"; status_row "doing" "Doing"; status_row "done" "Done" ].

Definition board_task (i s : string) : Grouping.Task unit :=
  {| Grouping.task_id := i;
     Grouping.status := Some s;
     Grouping.priority := Some "medium";
     Grouping.phase_id := None;
     Grouping.status_category :=
       Some {| Grouping.is_todo := String.eqb s "todo";
               Grouping.is_doing := String.eqb s "doing";
               Grouping.is_done := String.eqb s "done" |};
     Grouping.index := None;
     Grouping.view := None |}.

Definition board : list (Grouping.Task unit) :=
  [ board_task "A" "todo"; board_task "B" "doing";
    board_task "C" "done"; board_task "D" "done" ].

(** What [getList] reports of a group: its size and its progress. *)
Definition summary (g : Grouping.TaskGroup unit) : nat * option nat * option nat * option nat :=
  (length (Grouping.tasks g), Grouping.todo_progress g, Grouping.doing_progress g,
   Grouping.done_progress g).

Definition grouped_board
  : option (gmap string (nat * option nat * option nat * option nat)) :=
  (fun map => (fun g => summary (Grouping.updateTaskProgresses g)) <$> Grouping.own map)
    <$> Grouping.updateMapByGroup UNMAPPED GroupBy_STATUS GroupBy_PRIORITY GroupBy_PHASE
          no_view board "status" status_shells.

(** A request for the sub-tasks of a task, with nothing else set. *)
Definition subtask_request : Query.Options :=
  {| Query.search := None;
     Query.parent_task := Some "t1";
     Query.statuses := None;
     Query.labels := None;
     Query.members := None;
     Query.projects := None;
     Query.priorities := None;
     Query.filterBy := None;
     Query.customColumns := None;
     Query.archived := None;
     Query.isSubtasksInclude := None;
     Query.count := None;
     Query.others := [] |}.

(** A request for root tasks whose status filter ends the list of ids
    and goes on with a disjunction. *)
Definition injected_request : Query.Options :=
  {| Query.search := None;
     Query.parent_task := None;
     Query.statuses := Some "x')OR('1'='1";
     Query.labels := None;
     Query.members := None;
     Query.projects := None;
     Query.priorities := None;
     Query.filterBy := None;
     Query.customColumns := None;
     Query.archived := None;
     Query.isSubtasksInclude := None;
     Query.count := None;
     Query.others := [] |}.

(** A task list with a task whose status names a member of
    [Object.prototype], and rows of [getGroups] with the id [__proto__]. *)
Definition board_with_inherited_key : list (Grouping.Task unit) :=
  (board ++ [ board_task "E" "constructor" ])%list.

Definition board_with_prototype_key : list (Grouping.Task unit) :=
  (board ++ [ board_task "E" "__proto__" ])%list.

Definition rows_with_prototype : list Grouping.GroupRow :=
  [ status_row "todo" "Todo"; status_row "doing" "Doing"; status_row "done" "Done";
    status_row "__proto__" "Prototype" ].

(** Two projects: [p] with an open and a done status, [q] with an open
    status; task [t1] of [p] depends on task [t2] of [p], which is open. *)
Definition gate_db : Store.Db :=
  {| Store.sys_task_status_categories :=
       list_to_map
         [ ("c-todo", {| Store.cat_is_done := Some false |});
           ("c-done", {| Store.cat_is_done := Some true |}) ];
     Store.task_statuses :=
       list_to_map
         [ ("p-todo", {| Store.ts_project_id := Some "p";
                         Store.ts_category_id := Some "c-todo" |});
           ("p-done", {| Store.ts_project_id := Some "p";
                         Store.ts_category_id := Some "c-done" |});
           ("q-todo", {| Store.ts_project_id := Some "q";
                         Store.ts_category_id := Some "c-todo" |}) ];
     Store.tasks :=
       list_to_map
         [ ("t1", {| Store.project_id := Some "p"; Store.status_id := Some "p-todo";
                     Store.priority_id := None; Store.parent_task_id := None;
                     Store.sort_order := Some 0%Z |});
           ("t2", {| Store.project_id := Some "p"; Store.status_id := Some "p-todo";
                     Store.priority_id := None; Store.parent_task_id := Some "t1";
                     Store.sort_order := Some 4%Z |}) ];
     Store.task_dependencies :=
       [ {| Store.td_task_id := Some "t1"; Store.td_related_task_id := Some "t2" |} ] |}.

(** The body that turns [t2] into a root task of [p]. *)
Definition to_task_body : Store.Body :=
  {| Store.id := Some "t2";
     Store.body_project_id := Some "p";
     Store.body_parent_task_id := None;
     Store.to_group_id := None;
     Store.group_by := None |}.

(** The body that drops [t2] under [t1] in the unmapped status group. *)
Definition to_unmapped_body : Store.Body :=
  {| Store.id := Some "t2";
     Store.body_project_id := Some "p";
     Store.body_parent_task_id := Some "t1";
     Store.to_group_id := Some UNMAPPED;
     Store.group_by := Some "status" |}.

End Examples.

(** ** The grouped listing: [getList] *)

Module Listing.

Section Listing.

Variables UNMAPPED TASK_STATUS_COLOR_ALPHA : string.
Variables GroupBy_STATUS GroupBy_PRIORITY GroupBy_PHASE : string.
Variable View : Type.
Variable viewModel : Grouping.Task View -> View.

(** [req.query.group || GroupBy.STATUS]. *)
Definition or_status (group : option string) : string :=
  match group with
  | Some g => if Js.truthy group then g else GroupBy_STATUS
  | None => GroupBy_STATUS
  end.

(** An element of the array [getList] sends: [{ id: key, ...group }]. *)
Record ListedGroup := {
  listed_id : string;
  listed_group : Grouping.TaskGroup View
}.

(** [Object.keys(map).map(key => ...)]: the keys name own properties. *)
Definition listed (map : Grouping.GroupMap View) : list ListedGroup :=
  List.flat_map
    (fun key =>
       match Grouping.own map !! key with
       | Some g => [ {| listed_id := key;
                        listed_group := Grouping.updateTaskProgresses g |} ]
       | None => []
       end)
    (Js.object_keys (Grouping.created map)).

(** [getList], from the rows the two queries return: [group] is
    [req.query.group], [tasks] the rows of [getQuery], [groups] the rows
    of [getGroups]. The result is the data of the response, or [None]
    when [updateMapByGroup] throws and the exception goes to the handler
    of [HandleExceptions]. *)
Definition getList (group : option string) (tasks : list (Grouping.Task View))
    (groups : list Grouping.GroupRow) : option (list ListedGroup) :=
  let groupBy := or_status group in
  let map := Grouping.shells TASK_STATUS_COLOR_ALPHA View groups in
  match Grouping.updateMapByGroup UNMAPPED GroupBy_STATUS GroupBy_PRIORITY
          GroupBy_PHASE viewModel tasks groupBy map with
  | Some map' => Some (listed map')
  | None => None
  end.

(** *** Vocabulary of the listing properties *)

(** The last row of [getGroups] whose id is [key]. *)
Definition last_row_with_id (key : string) (groups : list Grouping.GroupRow)
  : option Grouping.GroupRow :=
  last (List.filter (fun g => Js.strict_eq (Grouping.row_id g) key) groups).

End Listing.

Arguments listed_id {View} _.
Arguments listed_group {View} _.
Arguments listed {View} _.
Arguments getList _ _ _ _ _ {View} _ _ _ _.

End Listing.

(** ** More vocabulary for the gate, the re-parenting and the labels *)

Module GateMore.

(** The rows of [task_dependencies] that belong to [taskId]. *)
Definition dependency_rows (db : Store.Db) (taskId : string) : list Store.Dependency :=
  List.filter (fun td => bool_decide (Store.td_task_id td = Some taskId))
    (Store.task_dependencies db).

(** The row of [tasks] the left join attaches to a dependency. *)
Definition joined_task (db : Store.Db) (td : Store.Dependency)
  : option (string * Store.TaskRow) :=
  match Store.td_related_task_id td with
  | Some rid =>
      match Store.tasks db !! rid with
      | Some t => Some (rid, t)
      | None => None
      end
  | None => None
  end.

(** The test of the second WHEN on one joined row. *)
Definition blocking (db : Store.Db) (td : Store.Dependency) : bool :=
  Sql.is_true
    (Sql.not_
       (Sql.in_ (Store.joined_status_id (joined_task db td))
          (Store.done_statuses_of_project db
             (Store.joined_project_id (joined_task db td))))).

(** Two stores with the same tasks, statuses and categories. *)
Definition same_tasks_and_statuses (db db' : Store.Db) : Prop :=
  Store.sys_task_status_categories db = Store.sys_task_status_categories db' /\
  Store.task_statuses db = Store.task_statuses db' /\
  Store.tasks db = Store.tasks db'.

End GateMore.

Module ReparentMore.

(** The group id [convertToSubtask] binds: NULL for the sentinel. *)
Definition bound_group (UNMAPPED : string) (body : Store.Body) : option string :=
  if Js.strict_eq (Store.to_group_id body) UNMAPPED then None
  else Store.to_group_id body.

(** The columns of a row other than parent and position. *)
Definition same_project_status_priority (t t' : Store.TaskRow) : Prop :=
  Store.project_id t' = Store.project_id t /\
  Store.status_id t' = Store.status_id t /\
  Store.priority_id t' = Store.priority_id t.

End ReparentMore.

Module LabelsMore.

Definition is_issued (e : Labels.Event) : bool :=
  match e with
  | Labels.Issued _ _ _ => true
  | _ => false
  end.

(** The number of events of a kind. *)
Definition count_events (kind : Labels.Event -> bool) (events : list Labels.Event) : nat :=
  length (List.filter kind events).

End LabelsMore.

(** ** More of the query planner *)

Module QueryMore.

(** The literal [flatString] makes of one id. *)
Definition quote (s : string) : string := "'" ++ s ++ "'".

Fixpoint spaces (s : string) : nat :=
  match s with
  | EmptyString => 0
  | String c rest => (if Ascii.eqb c " "%char then 1 else 0) + spaces rest
  end.

Definition no_space (s : string) : bool := Nat.eqb (spaces s) 0.

(** The values [getList] and [getTasksOnly] bind for the text of
    [getQuery]: [req.params.id || null], then the parent when the request
    names one. *)
Definition query_params (id : option string) (options : Query.Options)
  : list (option string) :=
  let project := if Js.truthy id then id else None in
  if Js.truthy (Query.parent_task options)
  then [project; Query.parent_task options]
  else [project].

End QueryMore.

(** ** [checkUserAssignedToTask] *)

Module Assignment.

Record Assignee := {
  ta_task_id : option string;
  ta_team_member_id : option string
}.

Record MemberInfo := {
  mi_user_id : option string;
  mi_team_id : option string;
  mi_team_member_id : option string
}.

Record Db := {
  tasks_assignees : list Assignee;
  team_member_info_view : list MemberInfo
}.

(** [(SELECT team_member_id FROM team_member_info_view WHERE user_id = $2
    AND team_id = $3)]: NULL without a row; with more than one row the
    store raises an error, which is [None]. *)
Definition member_of_user (db : Db) (userId teamId : option string)
  : option (option string) :=
  match List.filter
          (fun m => Sql.is_true
                      (Sql.and_ (Sql.eq_ (mi_user_id m) userId)
                         (Sql.eq_ (mi_team_id m) teamId)))
          (team_member_info_view db) with
  | [] => Some None
  | [m] => Some (mi_team_member_id m)
  | _ :: _ :: _ => None
  end.

(** [checkUserAssignedToTask(taskId, userId, teamId)]: the column
    [exists] of the one row, or [None] when the query fails. *)
Definition checkUserAssignedToTask (db : Db) (taskId userId teamId : string)
  : option bool :=
  match member_of_user db (Some userId) (Some teamId) with
  | Some member =>
      Some (existsb
              (fun a => Sql.is_true
                          (Sql.and_ (Sql.eq_ (ta_task_id a) (Some taskId))
                             (Sql.eq_ (ta_team_member_id a) member)))
              (tasks_assignees db))
  | None => None
  end.

(** The rows of the view for a user in a team. *)
Definition memberships (db : Db) (userId teamId : string) : list MemberInfo :=
  List.filter
    (fun m => bool_decide (mi_user_id m = Some userId)
              && bool_decide (mi_team_id m = Some teamId))
    (team_member_info_view db).

End Assignment.

(** ** [updateCustomColumnValue] *)

Module CustomColumns.

Local Set Implicit Arguments.

Section CustomColumns.

(** The value of the request body, the numbers and dates JavaScript makes
    of it, and the time of the store are kept abstract, with the
    conversions the handler calls as parameters. *)
Variables Json Number Date Time : Type.
Variable toString : Json -> string.                 (* String(value) *)
Variable parseFloat : string -> Number.
Variable newDate : string -> Date.                  (* new Date(text) *)
Variable toBoolean : Json -> bool.                  (* Boolean(value) *)
Variable isArray : Json -> bool.                    (* Array.isArray(value) *)
Variable stringify : Json -> string.                (* JSON.stringify(value) *)
Variable stringifySingleton : Json -> string.       (* JSON.stringify([value]) *)

Record ColumnRow := {
  cc_id : string;
  cc_project_id : option string;
  cc_key : option string;
  cc_field_type : option string
}.

(** A row of [cc_column_values], without the id the store generates. *)
Record ValueRow := {
  cv_task_id : option string;
  cv_column_id : option string;
  text_value : option string;
  number_value : option Number;
  date_value : option Date;
  boolean_value : option bool;
  json_value : option string;
  created_at : option Time;
  updated_at : option Time
}.

Record Tables := {
  cc_custom_columns : list ColumnRow;
  cc_column_values : list ValueRow
}.

(** [req.params.taskId] and the fields of [req.body]; [value] is [None]
    when the body has no such field. *)
Record Request := {
  taskId : option string;
  column_key : option string;
  value : option Json;
  project_id : option string
}.

Inductive Payload :=
| Message (text : string)
| Saved (task_id : option string) (key : option string) (v : Json).

Record Response := {
  status : nat;
  done : bool;
  body : Payload
}.

(** The statements the handler passes to [db.query]. *)
Inductive Query :=
| ColumnLookup   (* SELECT id, field_type FROM cc_custom_columns WHERE project_id = $1 AND key = $2 *)
| ValueLookup    (* SELECT id FROM cc_column_values WHERE task_id = $1 AND column_id = $2 *)
| ValueUpdate    (* UPDATE cc_column_values SET ... WHERE task_id = $6 AND column_id = $7 *)
| ValueInsert.   (* INSERT INTO cc_column_values (...) VALUES (...) *)

Record Outcome := {
  response : Response;
  store : Tables;
  queries : list Query
}.

(** The five variables the [switch] fills. *)
Record Slots := {
  textValue : option string;
  numberValue : option Number;
  dateValue : option Date;
  booleanValue : option bool;
  jsonValue : option string
}.

Definition no_slots : Slots :=
  {| textValue := None; numberValue := None; dateValue := None;
     booleanValue := None; jsonValue := None |}.

(** [switch (fieldType)]. *)
Definition slots_for (fieldType : option string) (v : Json) : Slots :=
  if Js.strict_eq fieldType "number" then
    {| textValue := None; numberValue := Some (parseFloat (toString v));
       dateValue := None; booleanValue := None; jsonValue := None |}
  else if Js.strict_eq fieldType "date" then
    {| textValue := None; numberValue := None;
       dateValue := Some (newDate (toString v));
       booleanValue := None; jsonValue := None |}
  else if Js.strict_eq fieldType "checkbox" then
    {| textValue := None; numberValue := None; dateValue := None;
       booleanValue := Some (toBoolean v); jsonValue := None |}
  else if Js.strict_eq fieldType "people" then
    {| textValue := None; numberValue := None; dateValue := None;
       booleanValue := None;
       jsonValue := Some (if isArray v then stringify v else stringifySingleton v) |}
  else
    {| textValue := Some (toString v); numberValue := None; dateValue := None;
       booleanValue := None; jsonValue := None |}.

(** [WHERE project_id = $1 AND key = $2]. *)
Definition column_matches (project key : option string) (c : ColumnRow) : bool :=
  Sql.is_true (Sql.and_ (Sql.eq_ (cc_project_id c) project) (Sql.eq_ (cc_key c) key)).

(** [WHERE task_id = $1 AND column_id = $2]. *)
Definition value_matches (task : option string) (column : string) (r : ValueRow) : bool :=
  Sql.is_true
    (Sql.and_ (Sql.eq_ (cv_task_id r) task) (Sql.eq_ (cv_column_id r) (Some column))).

Definition with_slots (s : Slots) (now : Time) (r : ValueRow) : ValueRow :=
  {| cv_task_id := cv_task_id r;
     cv_column_id := cv_column_id r;
     text_value := textValue s;
     number_value := numberValue s;
     date_value := dateValue s;
     boolean_value := booleanValue s;
     json_value := jsonValue s;
     created_at := created_at r;
     updated_at := Some now |}.

Definition new_row (task : option string) (column : string) (s : Slots) (now : Time)
  : ValueRow :=
  {| cv_task_id := task;
     cv_column_id := Some column;
     text_value := textValue s;
     number_value := numberValue s;
     date_value := dateValue s;
     boolean_value := booleanValue s;
     json_value := jsonValue s;
     created_at := Some now;
     updated_at := Some now |}.

Definition rejected (code : nat) (text : string) (db : Tables) (asked : list Query)
  : Outcome :=
  {| response := {| status := code; done := false; body := Message text |};
     store := db;
     queries := asked |}.

(** [updateCustomColumnValue]; [now] is what [NOW()] gives the one write.
    The first [if] of the handler is the [None] case of [value] together
    with the three other tests. The schema of the two tables is not part
    of the file: the store is taken to accept every write, and the column
    lookup to give its rows in table order. *)
Definition updateCustomColumnValue (now : Time) (req : Request) (db : Tables) : Outcome :=
  match value req with
  | None => rejected 400 "Missing required parameters" db []
  | Some v =>
      if negb (Js.truthy (taskId req)) || negb (Js.truthy (column_key req))
         || negb (Js.truthy (project_id req))
      then rejected 400 "Missing required parameters" db []
      else
        match List.filter (column_matches (project_id req) (column_key req))
                (cc_custom_columns db) with
        | [] => rejected 404 "Custom column not found" db [ColumnLookup]
        | column :: _ =>
            let s := slots_for (cc_field_type column) v in
            let existing :=
              List.filter (value_matches (taskId req) (cc_id column))
                (cc_column_values db) in
            let saved :=
              {| status := 200; done := true;
                 body := Saved (taskId req) (column_key req) v |} in
            if Nat.ltb 0 (length existing) then
              {| response := saved;
                 store :=
                   {| cc_custom_columns := cc_custom_columns db;
                      cc_column_values :=
                        List.map
                          (fun r => if value_matches (taskId req) (cc_id column) r
                                    then with_slots s now r else r)
                          (cc_column_values db) |};
                 queries := [ColumnLookup; ValueLookup; ValueUpdate] |}
            else
              {| response := saved;
                 store :=
                   {| cc_custom_columns := cc_custom_columns db;
                      cc_column_values :=
                        (cc_column_values db
                         ++ [new_row (taskId req) (cc_id column) s now])%list |};
                 queries := [ColumnLookup; ValueLookup; ValueInsert] |}
        end
  end.

(** *** Vocabulary of the custom column properties *)

(** The column the handler works on: the first row of the lookup. *)
Definition found_column (req : Request) (db : Tables) : option ColumnRow :=
  head (List.filter (column_matches (project_id req) (column_key req))
          (cc_custom_columns db)).

(** The request has its four parameters. *)
Definition complete (req : Request) : Prop :=
  Js.truthy (taskId req) = true /\ Js.truthy (column_key req) = true /\
  Js.truthy (project_id req) = true /\ value req <> None.

(** The number of slots of a row that are not NULL. *)
Definition slots_set (r : ValueRow) : nat :=
  (if Sql.is_null (text_value r) then 0 else 1)
  + (if Sql.is_null (number_value r) then 0 else 1)
  + (if Sql.is_null (date_value r) then 0 else 1)
  + (if Sql.is_null (boolean_value r) then 0 else 1)
  + (if Sql.is_null (json_value r) then 0 else 1).

(** The row holds the slots [s]. *)
Definition holds (s : Slots) (r : ValueRow) : Prop :=
  text_value r = textValue s /\ number_value r = numberValue s /\
  date_value r = dateValue s /\ boolean_value r = booleanValue s /\
  json_value r = jsonValue s.

Definition is_write (q : Query) : bool :=
  match q with
  | ValueUpdate | ValueInsert => true
  | _ => false
  end.

End CustomColumns.

End CustomColumns.

(** ** [getGroups] *)

Module Groups.

(** The statement of [getGroups] for [GroupBy.STATUS]. *)
Definition status_groups_sql : string :=
"
          SELECT id,
                 name,
                 (SELECT color_code FROM sys_task_status_categories WHERE id = task_statuses.category_id),
                 (SELECT color_code_dark FROM sys_task_status_categories WHERE id = task_statuses.category_id),
                 category_id
          FROM task_statuses
          WHERE project_id = $1
          ORDER BY sort_order;
        ".

(** The statement of [getGroups] for [GroupBy.PRIORITY]. *)
Definition priority_groups_sql : string :=
"SELECT id, name, color_code, color_code_dark
             FROM task_priorities
             ORDER BY value DESC;".

(** The statement of [getGroups] for [GroupBy.LABELS]. *)
Definition label_groups_sql : string :=
"
          SELECT id, name, color_code
          FROM team_labels
          WHERE team_id = $2
            AND EXISTS(SELECT 1
                       FROM tasks
                       WHERE project_id = $1
                         AND EXISTS(SELECT 1 FROM task_labels WHERE task_id = tasks.id AND label_id = team_labels.id))
          ORDER BY name;
        ".

(** The statement of [getGroups] for [GroupBy.PHASE]. *)
Definition phase_groups_sql : string :=
"
          SELECT id, name, color_code, color_code AS color_code_dark, start_date, end_date, sort_index
          FROM project_phases
          WHERE project_id = $1
          ORDER BY sort_index DESC;
        ".

Section Groups.

(** The values of the [GroupBy] enum, parameters as before. *)
Variables GroupBy_STATUS GroupBy_PRIORITY GroupBy_LABELS GroupBy_PHASE : string.

(** [getGroups(groupBy, projectId)]: the text and the values it passes to
    [db.query]. *)
Definition getGroups (groupBy projectId : string) : string * list string :=
  if String.eqb groupBy GroupBy_STATUS then (status_groups_sql, [projectId])
  else if String.eqb groupBy GroupBy_PRIORITY then (priority_groups_sql, [])
  else if String.eqb groupBy GroupBy_LABELS then (label_groups_sql, [])
  else if String.eqb groupBy GroupBy_PHASE then (phase_groups_sql, [projectId])
  else ("", []).

End Groups.

(** *** Vocabulary of the parameter properties *)

(** The number a text starts with, if it starts with a digit. *)
Fixpoint leading_number (s : string) (acc : option N) : option N :=
  match s with
  | EmptyString => acc
  | String c rest =>
      match Js.digit c with
      | Some d =>
          leading_number rest
            (Some (10 * match acc with Some n => n | None => 0 end + d)%N)
      | None => acc
      end
  end.

(** The placeholders [$n] of a statement, in order of appearance. *)
Fixpoint placeholders (s : string) : list N :=
  match s with
  | EmptyString => []
  | String c rest =>
      if Ascii.eqb c "$"%char
      then match leading_number rest None with
           | Some n => n :: placeholders rest
           | None => placeholders rest
           end
      else placeholders rest
  end.

(** Every placeholder of the text has a value. *)
Definition all_bound (call : string * list string) : bool :=
  forallb (fun n => (1 <=? n)%N && (n <=? N.of_nat (length (snd call)))%N)
    (placeholders (fst call)).

End Groups.

(** ** More sample data *)

Module Samples.

(** The rows of [getGroups] for the board of [Examples]. *)
Definition status_rows : list Grouping.GroupRow :=
  [ Examples.status_row "todo" "Todo"; Examples.status_row "doing" "Doing";
    Examples.status_row "done" "Done" ].

(** The store of [Examples] with a dependency back from [t2] to [t1]. *)
Definition gate_db_with_cycle : Store.Db :=
  {| Store.sys_task_status_categories :=
       Store.sys_task_status_categories Examples.gate_db;
     Store.task_statuses := Store.task_statuses Examples.gate_db;
     Store.tasks := Store.tasks Examples.gate_db;
     Store.task_dependencies :=
       (Store.task_dependencies Examples.gate_db
        ++ [ {| Store.td_task_id := Some "t2";
                Store.td_related_task_id := Some "t1" |} ])%list |}.

(** The row of [t2] in the store of [Examples]. *)
Definition row_t2 : Store.TaskRow :=
  {| Store.project_id := Some "p"; Store.status_id := Some "p-todo";
     Store.priority_id := None; Store.parent_task_id := Some "t1";
     Store.sort_order := Some 4%Z |}.

(** Stand-ins for the JavaScript conversions: the value is its JSON
    text, a number is the length of the text, a date the text itself. *)
Definition text_of (v : string) : string := v.
Definition number_of (s : string) : Z := Z.of_nat (String.length s).
Definition date_of (s : string) : string := s.
Definition truth_of (v : string) : bool := negb (String.eqb v "false").
Definition is_array (v : string) : bool := String.prefix "[" v.
Definition json_of (v : string) : string := v.
Definition json_of_singleton (v : string) : string := "[" ++ v ++ "]".

(** A project with one numeric custom column and no value yet. *)
Definition column_tables : CustomColumns.Tables Z string nat :=
  {| CustomColumns.cc_custom_columns :=
       [ {| CustomColumns.cc_id := "c1";
            CustomColumns.cc_project_id := Some "p";
            CustomColumns.cc_key := Some "estimate";
            CustomColumns.cc_field_type := Some "number" |} ];
     CustomColumns.cc_column_values := [] |}.

Definition estimate_column : CustomColumns.ColumnRow :=
  {| CustomColumns.cc_id := "c1";
     CustomColumns.cc_project_id := Some "p";
     CustomColumns.cc_key := Some "estimate";
     CustomColumns.cc_field_type := Some "number" |}.

Definition estimate_request : CustomColumns.Request string :=
  {| CustomColumns.taskId := Some "t1";
     CustomColumns.column_key := Some "estimate";
     CustomColumns.value := Some "12.5";
     CustomColumns.project_id := Some "p" |}.

(** One user who is member [m1] of team [team], assigned to [t1]. *)
Definition assignment_db : Assignment.Db :=
  {| Assignment.tasks_assignees :=
       [ {| Assignment.ta_task_id := Some "t1";
            Assignment.ta_team_member_id := Some "m1" |} ];
     Assignment.team_member_info_view :=
       [ {| Assignment.mi_user_id := Some "u1";
            Assignment.mi_team_id := Some "team";
            Assignment.mi_team_member_id := Some "m1" |} ] |}.

End Samples.

(** * Properties *)

(** ** Grouping engine *)

Section GroupingFacts.

Import Grouping.

Context (UNMAPPED STATUS PRIORITY PHASE : string).
Context {View : Type} (viewModel : Task View -> View).

Local Abbreviation visit := (Grouping.visit STATUS PRIORITY PHASE viewModel).
Local Abbreviation loop := (Grouping.loop STATUS PRIORITY PHASE viewModel).
Local Abbreviation walk := (Grouping.walk STATUS PRIORITY PHASE viewModel).
Local Abbreviation route := (Grouping.route STATUS PRIORITY PHASE).
Local Abbreviation routed_to := (Grouping.routed_to STATUS PRIORITY PHASE).
Local Abbreviation resolves := (Grouping.resolves STATUS PRIORITY PHASE).
Local Abbreviation skipped := (Grouping.skipped STATUS PRIORITY PHASE).
Local Abbreviation to_unmapped := (Grouping.to_unmapped STATUS PRIORITY PHASE).
Local Abbreviation throws := (Grouping.throws STATUS PRIORITY PHASE).
Local Abbreviation into_prototype := (Grouping.into_prototype STATUS PRIORITY PHASE).
Local Abbreviation updateMapByGroup :=
  (Grouping.updateMapByGroup UNMAPPED STATUS PRIORITY PHASE viewModel).
Local Abbreviation prepare_from := (Grouping.prepare_from viewModel).
Local Abbreviation prepare := (Grouping.prepare viewModel).

Implicit Types (map : GroupMap View) (m : gmap string (TaskGroup View))
  (t : Task View) (p : Task View -> bool) (w : Walk View) (g : TaskGroup View).

Lemma entries_with_empty p : entries_with p (∅ : gmap string (TaskGroup View)) = 0.
Proof. unfold entries_with. apply map_fold_empty. Qed.

Lemma entries_with_insert p m key group :
  m !! key = None ->
  entries_with p (<[key := group]> m)
  = length (List.filter p (tasks group)) + entries_with p m.
Proof.
  intros Hfresh. unfold entries_with.
  rewrite map_fold_insert_L; [reflexivity | | assumption].
  intros; lia.
Qed.

Lemma entries_with_lookup p m key group :
  m !! key = Some group ->
  entries_with p m
  = length (List.filter p (tasks group)) + entries_with p (delete key m).
Proof.
  intros Hin. unfold entries_with.
  rewrite (map_fold_delete_L _ _ key group m); [reflexivity | | assumption].
  intros; lia.
Qed.

Lemma entries_with_replace p m key group group' :
  m !! key = Some group ->
  entries_with p (<[key := group']> m) + length (List.filter p (tasks group))
  = entries_with p m + length (List.filter p (tasks group')).
Proof.
  intros Hin.
  rewrite <- insert_delete_eq.
  rewrite entries_with_insert by apply lookup_delete_eq.
  rewrite (entries_with_lookup p m key group Hin). lia.
Qed.

Lemma entries_with_le_count p m : entries_with p m <= task_count m.
Proof.
  induction m as [|key group m Hfresh IH] using map_ind.
  - unfold task_count. rewrite !entries_with_empty. lia.
  - unfold task_count in *. rewrite !entries_with_insert by assumption.
    assert (length (List.filter p (tasks group))
            <= length (List.filter (fun _ => true) (tasks group))).
    { clear. induction (tasks group) as [|x l IHl]; simpl; [lia|].
      destruct (p x); simpl; lia. }
    lia.
Qed.

Lemma filter_snoc p (l : list (Task View)) t :
  length (List.filter p (l ++ [t])) = length (List.filter p l) + (if p t then 1 else 0).
Proof.
  rewrite List.filter_app, length_app. simpl. destruct (p t); reflexivity.
Qed.

Lemma with_tasks_same g : with_tasks g (tasks g) = g.
Proof. destruct g; reflexivity. Qed.

(** *** Reading the map *)

Lemma get_own map key :
  get map key = match own map !! key with
                | Some g => OwnGroup g
                | None => get map key
                end.
Proof. unfold get. destruct (own map !! key); reflexivity. Qed.

Lemma reads_other_own map key g : own map !! key = Some g -> reads_other map key = false.
Proof. intros Hkey. unfold reads_other, get. rewrite Hkey. reflexivity. Qed.

Lemma reads_prototype_own map key g :
  own map !! key = Some g -> reads_prototype map key = false.
Proof. intros Hkey. unfold reads_prototype, get. rewrite Hkey. reflexivity. Qed.

(** The prototype is read under [__proto__] and no other key, and only
    when the map does not own that key. *)
Lemma reads_prototype_spec map key :
  reads_prototype map key
  = String.eqb key "__proto__" && Js.nullish (own map !! key)
    && negb (Js.nullish (proto map)).
Proof.
  unfold reads_prototype, get.
  destruct (own map !! key); [rewrite andb_false_r; reflexivity|].
  destruct (String.eqb key "__proto__").
  - destruct (proto map); reflexivity.
  - destruct (match proto map with Some _ => _ | None => _ end); [reflexivity|].
    destruct (Js.in_object_prototype key); reflexivity.
Qed.

(** What two maps hold under a key is of the same kind when they own the
    same keys and their prototypes differ in the task list at most. *)
Lemma reads_same map map' :
  (forall k, is_Some (own map' !! k) <-> is_Some (own map !! k)) ->
  (proto map' = proto map \/
   exists g l, proto map = Some g /\ proto map' = Some (with_tasks g l)) ->
  forall k,
    reads_other map' k = reads_other map k /\
    reads_prototype map' k = reads_prototype map k.
Proof.
  intros Hown Hproto k. unfold reads_other, reads_prototype, get.
  specialize (Hown k).
  destruct (own map' !! k) as [g'|] eqn:Hk', (own map !! k) as [g|] eqn:Hk.
  - split; reflexivity.
  - destruct (proj1 Hown) as [? ?]; [eauto | discriminate].
  - destruct (proj2 Hown) as [? ?]; [eauto | discriminate].
  - destruct Hproto as [->|(g & l & -> & ->)]; [split; reflexivity|].
    destruct (String.eqb k "__proto__"); [split; reflexivity|].
    assert (field_holds (with_tasks g l) k = field_holds g k) as -> by reflexivity.
    split; reflexivity.
Qed.

(** *** One push *)

Lemma push_throws map key t : push map key t = None <-> reads_other map key = true.
Proof.
  unfold push, reads_other. destruct (get map key); split; intros H; congruence.
Qed.

(** What a push that returns leaves: the keys and their order are as
    before; the group under the key, if the map owns it, has the task
    appended; else the prototype has, if the key reads it. *)
Lemma push_returns map key t map' :
  push map key t = Some map' ->
  reads_other map key = false /\
  created map' = created map /\
  (forall k,
     own map' !! k
     = (fun g => if String.eqb key k then with_tasks g (tasks g ++ [t]) else g)
         <$> own map !! k) /\
  proto map'
  = (fun g => if reads_prototype map key then with_tasks g (tasks g ++ [t]) else g)
      <$> proto map.
Proof.
  unfold push, reads_other, reads_prototype.
  destruct (get map key) as [|g|g|] eqn:Hget; intros Hpush; [| | |discriminate];
    injection Hpush as <-; (split; [reflexivity|]); (split; [reflexivity|]);
    cbn [own proto].
  - split; [|destruct (proto map); reflexivity].
    intros k. destruct (own map !! k) as [g|] eqn:Hk; [|reflexivity].
    cbn [fmap option_fmap option_map]. destruct (String.eqb_spec key k) as [->|_];
      [|reflexivity].
    unfold get in Hget. rewrite Hk in Hget. discriminate Hget.
  - assert (own map !! key = Some g) as Hkey.
    { unfold get in Hget. destruct (own map !! key) as [g'|]; [congruence|].
      destruct (String.eqb key "__proto__");
        [destruct (proto map); discriminate|].
      destruct (match proto map with Some _ => _ | None => _ end); [discriminate|].
      destruct (Js.in_object_prototype key); discriminate. }
    split; [|destruct (proto map); reflexivity].
    intros k. destruct (String.eqb_spec key k) as [<-|Hne].
    + rewrite lookup_insert_eq, Hkey. reflexivity.
    + rewrite lookup_insert_ne by exact Hne. destruct (own map !! k); reflexivity.
  - assert (own map !! key = None /\ proto map = Some g) as [Hkey Hproto].
    { unfold get in Hget. destruct (own map !! key) as [g'|]; [discriminate|].
      split; [reflexivity|].
      destruct (String.eqb key "__proto__").
      - destruct (proto map); congruence.
      - destruct (match proto map with Some _ => _ | None => _ end); [discriminate|].
        destruct (Js.in_object_prototype key); discriminate. }
    split; [|rewrite Hproto; reflexivity].
    intros k. destruct (own map !! k) as [g'|] eqn:Hk; [|reflexivity].
    cbn [fmap option_fmap option_map]. destruct (String.eqb_spec key k) as [->|_];
      [congruence | reflexivity].
Qed.

Lemma push_keeps_keys map key t map' :
  push map key t = Some map' ->
  forall k, is_Some (own map' !! k) <-> is_Some (own map !! k).
Proof.
  intros Hpush k. destruct (push_returns map key t map' Hpush) as (_ & _ & Hown & _).
  rewrite Hown, fmap_is_Some. reflexivity.
Qed.

Lemma push_keeps_reads map key t map' :
  push map key t = Some map' ->
  forall k,
    reads_other map' k = reads_other map k /\
    reads_prototype map' k = reads_prototype map k.
Proof.
  intros Hpush. apply reads_same; [exact (push_keeps_keys map key t map' Hpush)|].
  destruct (push_returns map key t map' Hpush) as (_ & _ & _ & Hproto).
  rewrite Hproto. destruct (proto map) as [g|]; [|left; reflexivity].
  destruct (reads_prototype map key); [|left; reflexivity].
  right. exists g, (tasks g ++ [t])%list. split; reflexivity.
Qed.

(** A push adds one entry to a group the map owns, and none otherwise. *)
Lemma entries_with_push p map key t map' :
  push map key t = Some map' ->
  entries_with p (own map')
  = entries_with p (own map)
    + (if p t && bool_decide (is_Some (own map !! key)) then 1 else 0).
Proof.
  unfold push, get.
  destruct (own map !! key) as [g|] eqn:Hkey.
  - intros Hpush. injection Hpush as <-. cbn [own].
    pose proof (entries_with_replace p (own map) key g
                  (with_tasks g (tasks g ++ [t])) Hkey) as Heq.
    cbn [tasks with_tasks] in Heq. rewrite filter_snoc in Heq.
    rewrite bool_decide_eq_true_2 by eauto. rewrite andb_true_r. lia.
  - rewrite bool_decide_eq_false_2 by (intros [? ?]; discriminate).
    rewrite andb_false_r, Nat.add_0_r.
    destruct (String.eqb key "__proto__").
    + destruct (proto map); intros Hpush; [|discriminate].
      injection Hpush as <-. reflexivity.
    + destruct (match proto map with Some _ => _ | None => _ end); [discriminate|].
      destruct (Js.in_object_prototype key); intros Hpush; [discriminate|].
      injection Hpush as <-. reflexivity.
Qed.

(** *** The loop *)

(** The loop body, by the route of the task it handles. *)
Lemma visit_route groupBy w t0 :
  let t := updateTaskViewModel viewModel (set_index t0 (next_index w)) in
  visit groupBy w t0
  = match route groupBy t with
    | ToGroup key => pushed w key t
    | ToUnmapped =>
        Some {| next_index := S (next_index w); unmapped := (unmapped w ++ [t])%list;
                groups := groups w |}
    end.
Proof.
  simpl. unfold Grouping.visit, Grouping.route.
  destruct (String.eqb groupBy STATUS); [reflexivity|].
  destruct (String.eqb groupBy PRIORITY); [reflexivity|].
  destruct (String.eqb groupBy PHASE && Js.truthy _); reflexivity.
Qed.

(** The predicates on tasks read the same off two maps that read alike. *)
Lemma routes_same groupBy map map' :
  (forall k, is_Some (own map' !! k) <-> is_Some (own map !! k)) ->
  (forall k, reads_other map' k = reads_other map k /\
             reads_prototype map' k = reads_prototype map k) ->
  forall t,
    throws groupBy map' t = throws groupBy map t /\
    into_prototype groupBy map' t = into_prototype groupBy map t /\
    resolves groupBy map' t = resolves groupBy map t.
Proof.
  intros Hown Hreads t.
  unfold Grouping.throws, Grouping.into_prototype, Grouping.resolves.
  destruct (route groupBy t) as [key|]; [|repeat split].
  destruct (Hreads key) as [-> ->]. repeat split.
  apply bool_decide_ext. apply Hown.
Qed.

Lemma filter_ext_in_tasks (q r : Task View -> bool) (l : list (Task View)) :
  (forall t, q t = r t) -> List.filter q l = List.filter r l.
Proof. intros Hext. apply List.filter_ext. exact Hext. Qed.

(** What the loop has done after any number of tasks: it throws exactly
    when the push of one of them does, judged on the map it started
    from; else the keys are as before, every group the map owns has got
    the tasks sent to its key, in input order, the prototype those that
    read it, and the rest went to the list of unmapped tasks or nowhere. *)
Lemma loop_spec ts : forall groupBy w,
  match loop groupBy ts w with
  | None =>
      exists t, In t (prepare_from (next_index w) ts) /\
                throws groupBy (groups w) t = true
  | Some w' =>
      (forall t, In t (prepare_from (next_index w) ts) ->
         throws groupBy (groups w) t = false) /\
      next_index w' = next_index w + length ts /\
      unmapped w'
      = (unmapped w
         ++ List.filter (to_unmapped groupBy) (prepare_from (next_index w) ts))%list /\
      created (groups w') = created (groups w) /\
      (forall k,
         own (groups w') !! k
         = (fun g => with_tasks g
                       (tasks g ++ List.filter (routed_to groupBy k)
                                     (prepare_from (next_index w) ts)))
             <$> own (groups w) !! k) /\
      proto (groups w')
      = (fun g => with_tasks g
                    (tasks g ++ List.filter (into_prototype groupBy (groups w))
                                  (prepare_from (next_index w) ts)))
          <$> proto (groups w) /\
      forall p,
        entries_with p (own (groups w'))
        = entries_with p (own (groups w))
          + length (List.filter (fun t => p t && resolves groupBy (groups w) t)
                      (prepare_from (next_index w) ts))
  end.
Proof.
  induction ts as [|t0 ts IH]; intros groupBy w.
  - cbn [Grouping.loop Grouping.prepare_from List.filter length].
    split; [intros t []|]. split; [lia|]. split; [rewrite app_nil_r; reflexivity|].
    split; [reflexivity|]. split; [|split; [|intros; lia]].
    + intros k. destruct (own (groups w) !! k) as [g|]; [|reflexivity].
      cbn [fmap option_fmap option_map]. rewrite app_nil_r, with_tasks_same. reflexivity.
    + destruct (proto (groups w)) as [g|]; [|reflexivity].
      cbn [fmap option_fmap option_map]. rewrite app_nil_r, with_tasks_same. reflexivity.
  - cbn [Grouping.loop Grouping.prepare_from].
    rewrite (visit_route groupBy w t0). cbn zeta.
    set (t := updateTaskViewModel viewModel (set_index t0 (next_index w))).
    unfold Grouping.to_unmapped, Grouping.routed_to, Grouping.throws,
      Grouping.into_prototype, Grouping.resolves in *.
    cbn [List.filter].
    destruct (route groupBy t) as [key|] eqn:Hroute.
    + unfold pushed. destruct (push (groups w) key t) as [map1|] eqn:Hpush.
      * destruct (push_returns _ _ _ _ Hpush) as (Hsafe & Hcreated & Hown & Hproto).
        pose proof (push_keeps_keys _ _ _ _ Hpush) as Hkeys.
        pose proof (push_keeps_reads _ _ _ _ Hpush) as Hreads.
        pose proof (routes_same groupBy (groups w) map1 Hkeys Hreads) as Hsame.
        unfold Grouping.throws, Grouping.into_prototype, Grouping.resolves in Hsame.
        specialize (IH groupBy
                      {| next_index := S (next_index w); unmapped := unmapped w;
                         groups := map1 |}).
        cbn [next_index unmapped groups] in IH.
        destruct (loop groupBy ts _) as [w'|].
        -- destruct IH as (Hnone & Hidx & Hunm & Hcr & Hlook & Hpr & Hcount).
           split.
           { intros t' [<-|Hin]; [rewrite Hroute; exact Hsafe|].
             rewrite <- (proj1 (Hsame t')). apply Hnone. exact Hin. }
           split; [simpl; lia|]. split; [exact Hunm|].
           split; [congruence|]. split; [|split].
           ++ intros k. rewrite Hlook, Hown.
              destruct (own (groups w) !! k) as [g|]; [|reflexivity].
              cbn [fmap option_fmap option_map]. f_equal.
              destruct (String.eqb key k).
              ** cbn [tasks with_tasks]. rewrite <- app_assoc. reflexivity.
              ** reflexivity.
           ++ rewrite Hpr, Hproto.
              rewrite (filter_ext_in_tasks _
                         (fun t' => match route groupBy t' with
                                    | ToGroup key0 => reads_prototype (groups w) key0
                                    | ToUnmapped => false
                                    end))
                by (intros t'; apply (Hsame t')).
              destruct (proto (groups w)) as [g|]; [|reflexivity].
              cbn [fmap option_fmap option_map]. f_equal.
              destruct (reads_prototype (groups w) key).
              ** cbn [tasks with_tasks]. rewrite <- app_assoc. reflexivity.
              ** reflexivity.
           ++ intros p. rewrite Hcount.
              rewrite (entries_with_push p _ _ _ _ Hpush).
              rewrite (filter_ext_in_tasks _
                         (fun t' => p t' && match route groupBy t' with
                                            | ToGroup key0 =>
                                                bool_decide
                                                  (is_Some (own (groups w) !! key0))
                                            | ToUnmapped => false
                                            end))
                by (intros t'; f_equal; apply (Hsame t')).
              destruct (p t && bool_decide (is_Some (own (groups w) !! key)));
                simpl; lia.
        -- destruct IH as (t' & Hin & Hthrows). exists t'.
           split; [right; exact Hin|].
           rewrite <- (proj1 (Hsame t')). exact Hthrows.
      * exists t. split; [left; reflexivity|]. rewrite Hroute.
        exact (proj1 (push_throws _ _ _) Hpush).
    + specialize (IH groupBy
                    {| next_index := S (next_index w);
                       unmapped := (unmapped w ++ [t])%list; groups := groups w |}).
      cbn [next_index unmapped groups] in IH.
      destruct (loop groupBy ts _) as [w'|].
      * destruct IH as (Hnone & Hidx & Hunm & Hcr & Hlook & Hpr & Hcount).
        split.
        { intros t' [<-|Hin]; [rewrite Hroute; reflexivity|]. apply Hnone. exact Hin. }
        split; [simpl; lia|].
        split; [rewrite Hunm, <- app_assoc; reflexivity|].
        split; [exact Hcr|]. split; [exact Hlook|]. split; [exact Hpr|].
        intros p. rewrite Hcount. rewrite andb_false_r. reflexivity.
      * destruct IH as (t' & Hin & Hthrows). exists t'.
        split; [right; exact Hin | exact Hthrows].
Qed.

Lemma loop_keeps_keys ts groupBy w w' :
  loop groupBy ts w = Some w' ->
  dom (own (groups w')) = dom (own (groups w)).
Proof.
  intros Hloop. pose proof (loop_spec ts groupBy w) as Hspec.
  rewrite Hloop in Hspec. destruct Hspec as (_ & _ & _ & _ & Hlook & _).
  apply set_eq. intros k. rewrite !elem_of_dom, Hlook, fmap_is_Some. reflexivity.
Qed.

(** The loop throws exactly when one of the pushes does. *)
Lemma loop_throws ts groupBy w :
  loop groupBy ts w = None
  <-> existsb (throws groupBy (groups w)) (prepare_from (next_index w) ts) = true.
Proof.
  pose proof (loop_spec ts groupBy w) as Hspec.
  destruct (loop groupBy ts w) as [w'|].
  - destruct Hspec as [Hnone _]. split; [discriminate|].
    intros Hex. apply existsb_exists in Hex. destruct Hex as (t & Hin & Hthrows).
    rewrite (Hnone t Hin) in Hthrows. discriminate Hthrows.
  - split; [intros _|reflexivity]. apply existsb_exists. exact Hspec.
Qed.

Lemma filter_kept_split groupBy map p (l : list (Task View)) :
  length (List.filter p (List.filter (fun t => negb (skipped groupBy map t)) l))
  = length (List.filter (fun t => p t && resolves groupBy map t) l)
    + length (List.filter p (List.filter (to_unmapped groupBy) l)).
Proof.
  induction l as [|t l IH]; [reflexivity|]. simpl.
  unfold Grouping.skipped, Grouping.resolves, Grouping.to_unmapped in *.
  destruct (route groupBy t) as [key|]; simpl.
  - destruct (own map !! key) as [group|] eqn:Hkey.
    + rewrite bool_decide_eq_false_2 by congruence.
      rewrite bool_decide_eq_true_2 by eauto. simpl.
      rewrite andb_true_r. destruct (p t); simpl; lia.
    + rewrite bool_decide_eq_true_2 by reflexivity.
      rewrite bool_decide_eq_false_2 by (intros [? ?]; congruence). simpl.
      rewrite andb_false_r. exact IH.
  - rewrite andb_false_r. destruct (p t); simpl; lia.
Qed.

Lemma filter_skipped_split groupBy map (l : list (Task View)) :
  length (List.filter (fun t => negb (skipped groupBy map t)) l)
  + length (List.filter (skipped groupBy map) l) = length l.
Proof.
  induction l as [|t l IH]; [reflexivity|]. simpl.
  destruct (skipped groupBy map t); simpl; lia.
Qed.

Lemma filter_true_length (l : list (Task View)) :
  length (List.filter (fun _ => true) l) = length l.
Proof. induction l; simpl; congruence. Qed.

(** The tasks are numbered by their position, each number once. *)
Lemma prepare_from_index i (ts : list (Task View)) : forall n,
  length (List.filter (has_index i) (prepare_from n ts))
  = if bool_decide (n <= i < n + length ts) then 1 else 0.
Proof.
  induction ts as [|t0 ts IH]; intros n; simpl.
  - rewrite bool_decide_eq_false_2 by lia. reflexivity.
  - assert (has_index i (updateTaskViewModel viewModel (set_index t0 n)) = Nat.eqb i n)
      as -> by reflexivity.
    specialize (IH (S n)).
    destruct (Nat.eqb_spec i n) as [->|Hne]; simpl; rewrite IH.
    + rewrite bool_decide_eq_false_2 by lia.
      rewrite bool_decide_eq_true_2 by lia. reflexivity.
    + destruct (bool_decide (S n <= i < S n + length ts)) eqn:Hin.
      * apply bool_decide_eq_true_1 in Hin.
        rewrite bool_decide_eq_true_2 by lia. reflexivity.
      * apply bool_decide_eq_false_1 in Hin.
        rewrite bool_decide_eq_false_2 by lia. reflexivity.
Qed.

Lemma prepare_from_length (ts : list (Task View)) : forall n,
  length (prepare_from n ts) = length ts.
Proof. induction ts as [|t0 ts IH]; intros n; simpl; [|rewrite IH]; reflexivity. Qed.

(** The assignment of the sentinel group, when the sentinel is not
    [__proto__]: one own key more, or the same keys. *)
Lemma own_assign map key g :
  key <> "__proto__" -> own (assign map key g) = <[key := g]> (own map).
Proof.
  intros Hkey. unfold assign.
  rewrite (proj2 (String.eqb_neq key "__proto__")) by exact Hkey. reflexivity.
Qed.

(** The result of [updateMapByGroup], by the state the loop ends in. *)
Lemma updateMapByGroup_walk ts groupBy map :
  updateMapByGroup ts groupBy map
  = match walk ts groupBy map with
    | Some w =>
        match List.filter (to_unmapped groupBy) (prepare ts) with
        | [] => Some (groups w)
        | u0 :: us => Some (assign (groups w) UNMAPPED (unmapped_group UNMAPPED (u0 :: us)))
        end
    | None => None
    end.
Proof.
  unfold Grouping.updateMapByGroup, Grouping.walk, Grouping.prepare.
  pose proof (loop_spec ts groupBy
                {| next_index := 0; unmapped := []; groups := map |}) as Hspec.
  destruct (loop groupBy ts _) as [w|]; [|reflexivity].
  destruct Hspec as (_ & _ & Hunm & _). cbn [next_index unmapped app] in Hunm.
  rewrite <- Hunm. destruct (unmapped w); reflexivity.
Qed.

(** The entries of the result, for a map of empty shells without the
    sentinel key. *)
Lemma entries_of_result ts groupBy map map' p :
  task_count (own map) = 0 ->
  own map !! UNMAPPED = None ->
  UNMAPPED <> "__proto__" ->
  updateMapByGroup ts groupBy map = Some map' ->
  entries_with p (own map')
  = length (List.filter p
              (List.filter (fun t => negb (skipped groupBy map t)) (prepare ts))).
Proof.
  intros Hempty Hfresh Hname. rewrite updateMapByGroup_walk.
  unfold Grouping.walk, Grouping.prepare.
  pose proof (loop_spec ts groupBy
                {| next_index := 0; unmapped := []; groups := map |}) as Hspec.
  pose proof (loop_keeps_keys ts groupBy
                {| next_index := 0; unmapped := []; groups := map |}) as Hdom.
  destruct (loop groupBy ts _) as [w|]; [|discriminate].
  specialize (Hdom w eq_refl).
  destruct Hspec as (_ & _ & _ & _ & _ & _ & Hcount).
  cbn [next_index unmapped groups app] in Hdom, Hcount.
  rewrite filter_kept_split. specialize (Hcount p).
  assert (entries_with p (own map) = 0) as Hzero
    by (pose proof (entries_with_le_count p (own map)); lia).
  destruct (List.filter (to_unmapped groupBy) (prepare_from 0 ts)) as [|u0 us] eqn:Hu;
    intros Hresult; injection Hresult as <-.
  - rewrite Hcount, Hzero. simpl. lia.
  - rewrite own_assign by exact Hname. rewrite entries_with_insert.
    + rewrite Hcount, Hzero. simpl. lia.
    + apply not_elem_of_dom. rewrite Hdom. apply not_elem_of_dom. exact Hfresh.
Qed.

(** C1, as the code has it: for every grouping dimension and every map of
    empty group shells without the sentinel key, the sentinel not being
    [__proto__], the call throws a TypeError exactly when the key the
    dimension reads from some task names an inherited member of the map
    that is not nullish and has no task list. When it returns, the
    groups of the map hold exactly the prepared input tasks that were not
    skipped, a task being skipped when its key is not an own key of the
    map (the optional call then drops it, or pushes it into the prototype
    under [__proto__]). The counts add up to the number of input tasks
    less the skipped ones, and when no task is skipped the partition is
    exhaustive: every task is in exactly one group. *)
Theorem partition_of_unskipped_tasks ts groupBy map :
  task_count (own map) = 0 ->
  own map !! UNMAPPED = None ->
  UNMAPPED <> "__proto__" ->
  match updateMapByGroup ts groupBy map with
  | None => exists t, In t (prepare ts) /\ throws groupBy map t = true
  | Some map' =>
      (forall t, In t (prepare ts) -> throws groupBy map t = false) /\
      (forall p,
         entries_with p (own map')
         = length (List.filter p
                     (List.filter (fun t => negb (skipped groupBy map t)) (prepare ts)))) /\
      task_count (own map')
      + length (List.filter (skipped groupBy map) (prepare ts)) = length ts /\
      (List.filter (skipped groupBy map) (prepare ts) = [] ->
       Grouping.partition_exhaustive UNMAPPED STATUS PRIORITY PHASE viewModel
         ts groupBy map)
  end.
Proof.
  intros Hempty Hfresh Hname.
  pose proof (entries_of_result ts groupBy map) as Hentries.
  pose proof (updateMapByGroup_walk ts groupBy map) as Hwalk.
  unfold Grouping.walk in Hwalk.
  pose proof (loop_spec ts groupBy
                {| next_index := 0; unmapped := []; groups := map |}) as Hspec.
  cbn [next_index groups] in Hspec. fold (prepare ts) in Hspec.
  destruct (loop groupBy ts _) as [w|].
  - destruct Hspec as (Hnone & _).
    destruct (updateMapByGroup ts groupBy map) as [map'|] eqn:Hresult;
      [|destruct (List.filter (to_unmapped groupBy) (prepare ts)); discriminate Hwalk].
    specialize (fun p => Hentries map' p Hempty Hfresh Hname eq_refl).
    assert (task_count (own map')
            + length (List.filter (skipped groupBy map) (prepare ts)) = length ts) as Hsum.
    { unfold task_count at 1. rewrite Hentries, filter_true_length.
      rewrite filter_skipped_split. apply prepare_from_length. }
    split; [exact Hnone|]. split; [exact Hentries|]. split; [exact Hsum|].
    intros Hnoskip. exists map'. split; [exact Hresult|]. split.
    + rewrite Hnoskip in Hsum. simpl in Hsum. lia.
    + intros i Hi. rewrite Hentries.
      assert (List.filter (fun t => negb (skipped groupBy map t)) (prepare ts) = prepare ts)
        as ->.
      { pose proof (filter_skipped_split groupBy map (prepare ts)) as Hsplit.
        rewrite Hnoskip in Hsplit. simpl in Hsplit.
        revert Hsplit. generalize (prepare ts). intros l.
        induction l as [|t l IH]; [reflexivity|]. simpl.
        destruct (skipped groupBy map t); simpl; intros Hlen.
        - pose proof (List.filter_length_le (fun t => negb (skipped groupBy map t)) l).
          lia.
        - f_equal. apply IH. lia. }
      unfold Grouping.prepare. rewrite prepare_from_index.
      rewrite bool_decide_eq_true_2 by lia. reflexivity.
  - rewrite Hwalk. exact Hspec.
Qed.

(** C8: the loop adds no key to the map, so the sentinel key is not there
    before the loop is over; afterwards the map is either left as the
    loop made it, or the sentinel is assigned one more group, with the
    sentinel as name, no category and the fixed colour, and then at least
    one task did not resolve to a supplied shell. The assignment makes
    the group the own property under the sentinel key, unless the
    sentinel is [__proto__]. A loop that throws leaves no result, so the
    group is not made then. *)
Theorem unmapped_group_is_lazy ts groupBy map :
  match walk ts groupBy map with
  | None => updateMapByGroup ts groupBy map = None
  | Some w =>
      dom (own (groups w)) = dom (own map) /\
      created (groups w) = created map /\
      (updateMapByGroup ts groupBy map = Some (groups w) \/
       exists u map',
         u <> [] /\
         u = List.filter (to_unmapped groupBy) (prepare ts) /\
         updateMapByGroup ts groupBy map = Some map' /\
         map' = assign (groups w) UNMAPPED
                  {| name := UNMAPPED; category_id := None;
                     color_code := "#fbc84c69"; color_code_dark := None;
                     start_date := None; end_date := None;
                     todo_progress := None; doing_progress := None;
                     done_progress := None; tasks := u |} /\
         (if String.eqb UNMAPPED "__proto__"
          then True
          else own map'
               = <[UNMAPPED := {| name := UNMAPPED; category_id := None;
                                  color_code := "#fbc84c69"; color_code_dark := None;
                                  start_date := None; end_date := None;
                                  todo_progress := None; doing_progress := None;
                                  done_progress := None; tasks := u |}]>
                   (own (groups w)) /\
               created map' = Js.assign_key (created map) UNMAPPED /\
               proto map' = proto (groups w)) /\
         exists t, In t (prepare ts) /\ resolves groupBy map t = false)
  end.
Proof.
  pose proof (updateMapByGroup_walk ts groupBy map) as Hresult.
  unfold Grouping.walk in *.
  pose proof (loop_spec ts groupBy
                {| next_index := 0; unmapped := []; groups := map |}) as Hspec.
  pose proof (loop_keeps_keys ts groupBy
                {| next_index := 0; unmapped := []; groups := map |}) as Hdom.
  destruct (loop groupBy ts _) as [w|]; [|exact Hresult].
  specialize (Hdom w eq_refl).
  destruct Hspec as (_ & _ & _ & Hcreated & _).
  cbn [next_index unmapped groups app] in Hdom, Hcreated.
  split; [exact Hdom|]. split; [exact Hcreated|].
  fold (prepare ts) in Hresult.
  destruct (List.filter (to_unmapped groupBy) (prepare ts)) as [|t us] eqn:Hu;
    [left; exact Hresult|].
  right. exists (t :: us), (assign (groups w) UNMAPPED (unmapped_group UNMAPPED (t :: us))).
  split; [discriminate|]. split; [reflexivity|]. split; [exact Hresult|].
  split; [reflexivity|]. split.
  - unfold assign. destruct (String.eqb UNMAPPED "__proto__"); [exact I|].
    cbn [andb own created proto]. rewrite Hcreated. repeat split.
  - exists t.
    assert (In t (List.filter (to_unmapped groupBy) (prepare ts))) as Hin
      by (rewrite Hu; left; reflexivity).
    apply List.filter_In in Hin. destruct Hin as [Hin Hroute].
    split; [exact Hin|].
    unfold Grouping.to_unmapped in Hroute. unfold Grouping.resolves.
    destruct (route groupBy t); [discriminate | reflexivity].
Qed.

Lemma ratio_bound count total :
  count <= total -> calculateTaskCompleteRatio count total <= 100.
Proof.
  intros Hle. unfold calculateTaskCompleteRatio.
  destruct (Nat.eqb_spec total 0) as [_|Hpos]; [lia|].
  assert ((200 * count + total) / (2 * total) < 101); [|lia].
  apply Nat.Div0.div_lt_upper_bound. lia.
Qed.

(** C6: after [updateTaskProgresses] the three progress values are whole
    numbers from 0 to 100, and those of a group without tasks are 0. *)
Theorem progress_is_a_percentage (group : TaskGroup View) :
  (exists todo doing done,
     todo_progress (updateTaskProgresses group) = Some todo /\
     doing_progress (updateTaskProgresses group) = Some doing /\
     done_progress (updateTaskProgresses group) = Some done /\
     0 <= todo <= 100 /\ 0 <= doing <= 100 /\ 0 <= done <= 100) /\
  todo_progress (updateTaskProgresses (with_tasks group [])) = Some 0 /\
  doing_progress (updateTaskProgresses (with_tasks group [])) = Some 0 /\
  done_progress (updateTaskProgresses (with_tasks group [])) = Some 0.
Proof.
  split; [|repeat split].
  eexists _, _, _. simpl.
  repeat (split; [reflexivity|]).
  repeat split; try lia; apply ratio_bound, List.filter_length_le.
Qed.

End GroupingFacts.

(** ** Filter predicate composer and query planner *)

Section QueryFacts.

Import Query.

Context (toPaginationOptions : Options -> string -> string * string).

Local Abbreviation getQuery := (Query.getQuery toPaginationOptions).

Lemma append_assoc (a b c : string) : (a ++ b) ++ c = a ++ (b ++ c).
Proof.
  induction a as [|x a IH]; [reflexivity|].
  change (String x ((a ++ b) ++ c) = String x (a ++ (b ++ c))).
  rewrite IH. reflexivity.
Qed.

Lemma occurs_in_after_prefix (text query prefix : string) :
  occurs_in text query -> occurs_in text (prefix ++ query).
Proof.
  intros (before & after & ->). exists (prefix ++ before), after.
  rewrite append_assoc. reflexivity.
Qed.

Lemma occurs_in_at_start (text after : string) : occurs_in text (text ++ after).
Proof. exists "", after. reflexivity. Qed.

Lemma select_from_ends_with_where :
  exists before, select_from = before ++ "WHERE ".
Proof.
  exists (substring 0 (String.length select_from - 6) select_from).
  vm_compute. reflexivity.
Qed.

Lemma nonempty_append_literal c (s t : string) : nonempty ((String c s) ++ t) = true.
Proof. reflexivity. Qed.


Lemma multi_value_fragment_shape (options : Options) fragment :
  In fragment (skipn 3 (filter_candidates options)) ->
  fragment = "" \/
  exists rest, fragment = String "s" rest \/ fragment = String "p" rest
               \/ fragment = String "i" rest.
Proof.
  unfold filter_candidates. cbn [skipn].
  unfold getFilterByStatusWhereClosure, getFilterByPriorityWhereClosure,
    getFilterByLabelsWhereClosure, getFilterByMembersWhereClosure,
    getFilterByProjectsWhereClosure.
  intros Hin. repeat destruct Hin as [<-|Hin]; try contradiction;
    match goal with
    | |- (if ?b then _ else _) = _ \/ _ => destruct b; [right; eexists|left; reflexivity]
    end; simpl; eauto.
Qed.

Lemma archived_literal_not_a_filter (options : Options) (b : bool) :
  ~ In (if b then "archived IS TRUE" else "archived IS FALSE")
      (skipn 3 (filter_candidates options)).
Proof.
  intros Hin. apply multi_value_fragment_shape in Hin.
  destruct Hin as [Heq|[rest [Heq|[Heq|Heq]]]]; destruct b; discriminate Heq.
Qed.

Lemma in_where_fragments (options : Options) fragment :
  In fragment (where_fragments options) ->
  In fragment (firstn 3 (filter_candidates options)) \/
  In fragment (skipn 3 (filter_candidates options)).
Proof.
  unfold where_fragments. intros Hin. apply List.filter_In in Hin.
  destruct Hin as [Hin _].
  rewrite <- (firstn_skipn 3 (filter_candidates options)) in Hin.
  apply in_app_or in Hin. exact Hin.
Qed.

Lemma where_fragments_split (options : Options) :
  where_fragments options = (scope_fragments options ++ present_filters options)%list.
Proof.
  unfold where_fragments, scope_fragments, present_filters, multi_value_filters,
    filter_candidates.
  cbn [firstn].
  match goal with
  | |- List.filter _ (?a :: ?b :: ?c :: ?rest) = _ =>
      change (a :: b :: c :: rest) with ([a; b; c] ++ rest)%list
  end.
  rewrite List.filter_app. f_equal.
  unfold getFilterByStatusWhereClosure, getFilterByPriorityWhereClosure,
    getFilterByLabelsWhereClosure, getFilterByMembersWhereClosure,
    getFilterByProjectsWhereClosure.
  cbn [List.filter List.map fst snd].
  destruct (Js.truthy (statuses options)), (Js.truthy (priorities options)),
    (Js.truthy (labels options)), (Js.truthy (members options)),
    (Js.truthy (projects options)); reflexivity.
Qed.

(** The text [getQuery] puts after WHERE: the fragments joined by AND,
    a space, and the search clause of the base class. *)
Lemma getQuery_where userId (options : Options) :
  occurs_in
    ("WHERE " ++ Js.join " AND " (where_fragments options) ++ " "
     ++ fst (toPaginationOptions options
               (if Js.truthy (search options) then "t.name" else "sort_order")))
    (getQuery userId options).
Proof.
  unfold occurs_in, Query.getQuery, filters.
  destruct (toPaginationOptions options _) as [searchQuery sortField]. simpl fst.
  destruct select_from_ends_with_where as [before ->].
  do 6 apply occurs_in_after_prefix. rewrite append_assoc.
  apply occurs_in_after_prefix.
  match goal with
  | |- occurs_in ?text (?w ++ ?f ++ ?sp ++ ?sq ++ ?rest) =>
      replace (w ++ f ++ sp ++ sq ++ rest) with (text ++ rest)
        by (rewrite !append_assoc; reflexivity)
  end.
  apply occurs_in_at_start.
Qed.

(** The fragments that do not come from a multi-value filter, by the
    scope of the request. *)
Lemma scope_fragments_by_scope (options : Options) :
  scope_fragments options
  = (List.filter nonempty [subTasksFilter options]
     ++ (if Js.truthy (parent_task options)
         then ["1 = 1"; "$1 = $1"]
         else [ (if Js.strict_eq (archived options) "true"
                 then "archived IS TRUE" else "archived IS FALSE");
                getFilterByAssignee (filterBy options) ]))%list.
Proof.
  unfold scope_fragments, filter_candidates. cbn [firstn].
  unfold archivedFilter, getFilterByAssignee.
  destruct (Js.truthy (parent_task options)).
  - cbn [List.filter]. destruct (nonempty (subTasksFilter options)); reflexivity.
  - cbn [List.filter].
    destruct (nonempty (subTasksFilter options)),
      (Js.strict_eq (archived options) "true"),
      (Js.strict_eq (filterBy options) "member"); reflexivity.
Qed.


Lemma select_head_ends_with_quote :
  exists before, select_head = before ++ "AND user_id = '".
Proof.
  exists (substring 0 (String.length select_head - 15) select_head).
  vm_compute. reflexivity.
Qed.

Lemma select_columns_starts_with_quote :
  exists after, select_columns = "'" ++ after.
Proof.
  exists (substring 1 (String.length select_columns - 1) select_columns).
  vm_compute. reflexivity.
Qed.

(** C4, what the code does instead: the search string of
    [getTasksByName] and the user id of [getQuery] are spliced into the
    query text between two quotes, and so is every id of a filter list;
    only the project and task ids of [getTasksByName] are bound. A quote
    in the input ends the SQL literal. *)
Theorem input_is_spliced_into_query_text :
  (forall searchString projectId taskId,
     getTasksByName searchString projectId taskId
     = (tasks_by_name_head ++ searchString ++ tasks_by_name_tail, [projectId; taskId])) /\
  (exists before after,
     tasks_by_name_head = before ++ "t.name ILIKE '%" /\
     tasks_by_name_tail = "%'" ++ after) /\
  (forall userId options,
     occurs_in ("AND user_id = '" ++ userId ++ "'") (getQuery userId options)) /\
  getFilterByStatusWhereClosure (Some "1') OR ('1'='1")
  = "status_id IN ('1')','OR','('1'='1')" /\
  fst (getTasksByName "x' OR 'a' = 'a" "p1" "t1")
  <> fst (getTasksByName "x" "p1" "t1").
Proof.
  split; [reflexivity|]. split.
  { exists (substring 0 (String.length tasks_by_name_head - 15) tasks_by_name_head),
      (substring 2 (String.length tasks_by_name_tail - 2) tasks_by_name_tail).
    split; vm_compute; reflexivity. }
  split.
  { intros userId options. unfold occurs_in, Query.getQuery.
    destruct (toPaginationOptions options _) as [searchQuery sortField].
    destruct select_head_ends_with_quote as [before ->].
    destruct select_columns_starts_with_quote as [after ->].
    eexists before, _.
    rewrite !append_assoc. reflexivity. }
  split; [vm_compute; reflexivity|].
  vm_compute. intros Heq.
  apply (f_equal String.length) in Heq. vm_compute in Heq. discriminate Heq.
Qed.

End QueryFacts.

(** ** SQL helpers *)

Section SqlFacts.

Lemma is_true_and a b : Sql.is_true (Sql.and_ a b) = Sql.is_true a && Sql.is_true b.
Proof. destruct a as [[|]|], b as [[|]|]; reflexivity. Qed.

Lemma is_true_some (b : bool) : Sql.is_true (Some b) = b.
Proof. destruct b; reflexivity. Qed.

Lemma is_true_eq_some x y : Sql.is_true (Sql.eq_ (Some x) (Some y)) = String.eqb x y.
Proof. simpl. destruct (String.eqb x y); reflexivity. Qed.

Lemma is_true_eq_null_l y : Sql.is_true (Sql.eq_ None y) = false.
Proof. reflexivity. Qed.

Lemma is_true_eq_null_r x : Sql.is_true (Sql.eq_ x None) = false.
Proof. destruct x; reflexivity. Qed.

Lemma is_true_eq_decide (a : option string) (y : string) :
  Sql.is_true (Sql.eq_ a (Some y)) = bool_decide (a = Some y).
Proof.
  destruct a as [x|]; [|reflexivity].
  rewrite is_true_eq_some. destruct (String.eqb_spec x y) as [->|Hne].
  - rewrite bool_decide_eq_true_2; reflexivity.
  - rewrite bool_decide_eq_false_2; [reflexivity | congruence].
Qed.

(** [IN] over a list without NULL is plain membership. *)
Lemma in_without_null v (l : list string) :
  Sql.in_ (Some v) (List.map Some l) = Some (existsb (String.eqb v) l).
Proof.
  simpl.
  assert (existsb (fun y : option string =>
                     match y with Some w => String.eqb v w | None => false end)
            (List.map Some l) = existsb (String.eqb v) l) as ->.
  { induction l as [|x l IH]; simpl; [|rewrite IH]; reflexivity. }
  destruct (existsb (String.eqb v) l); [reflexivity|].
  assert (existsb Sql.is_null (List.map Some l) = false) as ->; [|reflexivity].
  induction l as [|x l IH]; simpl; [reflexivity | exact IH].
Qed.

Lemma existsb_eqb_In v (l : list string) : existsb (String.eqb v) l = true <-> In v l.
Proof.
  rewrite existsb_exists. split.
  - intros (x & Hin & Heq). apply String.eqb_eq in Heq. subst. exact Hin.
  - intros Hin. exists v. split; [exact Hin | apply String.eqb_refl].
Qed.

Lemma existsb_filter {A} (p g : A -> bool) (l : list A) :
  existsb (fun r => p r && g r) l = existsb g (List.filter p l).
Proof.
  induction l as [|x l IH]; simpl; [reflexivity|].
  destruct (p x); simpl; rewrite IH; reflexivity.
Qed.

Lemma existsb_flat_map {A B} (f : B -> bool) (g : A -> list B) (l : list A) :
  existsb f (flat_map g l) = existsb (fun a => existsb f (g a)) l.
Proof.
  induction l as [|x l IH]; simpl; [reflexivity|].
  rewrite existsb_app, IH. reflexivity.
Qed.

Lemma existsb_map {A B} (f : B -> bool) (g : A -> B) (l : list A) :
  existsb f (List.map g l) = existsb (fun a => f (g a)) l.
Proof. induction l as [|x l IH]; simpl; [|rewrite IH]; reflexivity. Qed.

Lemma existsb_ext {A} (f g : A -> bool) (l : list A) :
  (forall a, In a l -> f a = g a) -> existsb f l = existsb g l.
Proof.
  induction l as [|x l IH]; simpl; intros Hext; [reflexivity|].
  rewrite Hext by (left; reflexivity). rewrite IH; [reflexivity|].
  intros a Hin. apply Hext. right. exact Hin.
Qed.

Lemma negb_existsb_negb {A} (f : A -> bool) (l : list A) :
  negb (existsb (fun a => negb (f a)) l) = forallb f l.
Proof.
  induction l as [|x l IH]; simpl; [reflexivity|].
  rewrite negb_orb, negb_involutive, IH. reflexivity.
Qed.

(** A key selects one row at most. *)
Lemma rows_with_key {A} (table : gmap string A) (k : string) :
  List.filter (fun r => String.eqb (fst r) k) (Store.rows table)
  = match table !! k with
    | Some a => [(k, a)]
    | None => []
    end.
Proof.
  unfold Store.rows.
  set (l := List.filter (fun r => String.eqb (fst r) k) (map_to_list table)).
  assert (forall r, In r l <-> exists a, r = (k, a) /\ table !! k = Some a) as Hchar.
  { intros [k' a]. unfold l. rewrite List.filter_In, <- list_elem_of_In.
    rewrite elem_of_map_to_list. simpl. rewrite String.eqb_eq. split.
    - intros [Hin ->]. eauto.
    - intros (a' & Heq & Hin). inversion Heq; subst. auto. }
  assert (NoDup l) as Hnodup.
  { unfold l. apply NoDup_ListNoDup, List.NoDup_filter, NoDup_ListNoDup.
    apply NoDup_map_to_list. }
  destruct (table !! k) as [a|] eqn:Hk.
  - assert (forall r, In r l <-> r = (k, a)) as Hone.
    { intros r. rewrite Hchar. split.
      - intros (a' & -> & Ha). congruence.
      - intros ->. eauto. }
    destruct l as [|r1 [|r2 l']].
    + exfalso. apply (Hone (k, a)). reflexivity.
    + f_equal. apply Hone. left. reflexivity.
    + exfalso. apply NoDup_cons in Hnodup. destruct Hnodup as [Hnotin _].
      apply Hnotin. rewrite list_elem_of_In.
      assert (r1 = (k, a)) as -> by (apply Hone; left; reflexivity).
      assert (r2 = (k, a)) as -> by (apply Hone; right; left; reflexivity).
      left. reflexivity.
  - destruct l as [|r l']; [reflexivity|].
    exfalso. destruct (proj1 (Hchar r)) as (a & _ & Ha); [left; reflexivity|].
    discriminate Ha.
Qed.

Lemma filter_ext_eqb {A} (table : gmap string A) (o : option string) :
  List.filter (fun r => Sql.is_true (Sql.eq_ (Some (fst r)) o)) (Store.rows table)
  = match o with
    | Some k => List.filter (fun r => String.eqb (fst r) k) (Store.rows table)
    | None => []
    end.
Proof.
  destruct o as [k|].
  - apply List.filter_ext. intros r. apply is_true_eq_some.
  - induction (Store.rows table) as [|r l IH]; simpl; [reflexivity | exact IH].
Qed.

(** [existsb] over the rows, with the key fixed, is a lookup. *)
Lemma existsb_rows_with_key {A} (table : gmap string A) (k : string)
    (g : string * A -> bool) :
  existsb (fun r => String.eqb (fst r) k && g r) (Store.rows table)
  = match table !! k with
    | Some a => g (k, a)
    | None => false
    end.
Proof.
  rewrite existsb_filter, rows_with_key.
  destruct (table !! k); simpl; [apply orb_false_r | reflexivity].
Qed.

End SqlFacts.

(** ** Dependency gate *)

Section GateFacts.

Import Store.

Implicit Types (db : Db) (taskId sid : string).

Lemma project_of_task_lookup db taskId :
  project_of_task db (Some taskId)
  = match tasks db !! taskId with
    | Some t => project_id t
    | None => None
    end.
Proof.
  unfold project_of_task. rewrite filter_ext_eqb, rows_with_key.
  destruct (tasks db !! taskId); reflexivity.
Qed.

(** Membership in the ids of the categories with a given [is_done]. *)
Lemma in_categories db (cid : option string) (b : bool) :
  Sql.is_true (Sql.in_ cid (categories_where_done_is db b))
  = match cid with
    | Some c =>
        match sys_task_status_categories db !! c with
        | Some cat => bool_decide (cat_is_done cat = Some b)
        | None => false
        end
    | None => false
    end.
Proof.
  unfold categories_where_done_is.
  destruct cid as [c|].
  - rewrite <- (List.map_map fst Some), in_without_null, is_true_some.
    rewrite existsb_map.
    rewrite <- existsb_filter.
    rewrite (existsb_ext _
               (fun r => String.eqb (fst r) c
                         && bool_decide (cat_is_done (snd r) = Some b))).
    + rewrite existsb_rows_with_key. destruct (_ !! c); reflexivity.
    + intros [k cat] _. simpl. rewrite String.eqb_sym, andb_comm. f_equal.
      destruct b, (cat_is_done cat) as [[|]|]; reflexivity.
  - simpl. destruct (List.map _ _); reflexivity.
Qed.

(** The first WHEN is the lookup of an open status of the project. *)
Lemma status_not_done_exists_spec db taskId sid :
  status_not_done_exists db (Some taskId) (Some sid) = target_is_open db taskId sid.
Proof.
  unfold status_not_done_exists, target_is_open.
  rewrite (existsb_ext _
             (fun ts => String.eqb (fst ts) sid
                        && (Sql.is_true
                              (Sql.eq_ (ts_project_id (snd ts))
                                 (project_of_task db (Some taskId)))
                            && Sql.is_true
                                 (Sql.in_ (ts_category_id (snd ts))
                                    (categories_where_done_is db false))))).
  2:{ intros ts _. rewrite !is_true_and, is_true_eq_some, andb_assoc. reflexivity. }
  rewrite existsb_rows_with_key, project_of_task_lookup.
  unfold status_of_project, status_category_done_is.
  destruct (tasks db !! taskId) as [t|].
  - destruct (project_id t) as [pid|].
    + destruct (task_statuses db !! sid) as [ts|]; [|reflexivity]. simpl.
      rewrite is_true_eq_decide, in_categories. reflexivity.
    + destruct (task_statuses db !! sid) as [ts|]; [|reflexivity]. simpl.
      rewrite is_true_eq_null_r. reflexivity.
  - destruct (task_statuses db !! sid) as [ts|]; [|reflexivity]. simpl.
    rewrite is_true_eq_null_r. reflexivity.
Qed.

(** The left join gives each dependency one row. *)
Lemma left_join_row db (td : Dependency) :
  match List.filter
          (fun t => Sql.is_true (Sql.eq_ (Some (fst t)) (td_related_task_id td)))
          (rows (tasks db)) with
  | [] => [(td, None)]
  | matches => List.map (fun t => (td, Some t)) matches
  end
  = [(td, match td_related_task_id td with
          | Some rid =>
              match tasks db !! rid with
              | Some t => Some (rid, t)
              | None => None
              end
          | None => None
          end)].
Proof.
  rewrite filter_ext_eqb. destruct (td_related_task_id td) as [rid|]; [|reflexivity].
  rewrite rows_with_key. destruct (tasks db !! rid); reflexivity.
Qed.

(** Membership in the done statuses of a project. *)
Lemma in_done_statuses db (pid v : string) :
  Sql.in_ (Some v) (done_statuses_of_project db (Some pid))
  = Some (status_of_project db v pid && status_category_done_is db v true).
Proof.
  unfold done_statuses_of_project.
  rewrite <- (List.map_map fst Some), in_without_null. f_equal.
  rewrite existsb_map, <- existsb_filter.
  rewrite (existsb_ext _
             (fun ts => String.eqb (fst ts) v
                        && (bool_decide (ts_project_id (snd ts) = Some pid)
                            && Sql.is_true
                                 (Sql.in_ (ts_category_id (snd ts))
                                    (categories_where_done_is db true))))).
  - rewrite existsb_rows_with_key.
    unfold status_of_project, status_category_done_is.
    destruct (task_statuses db !! v) as [ts|]; [|reflexivity]. simpl.
    rewrite in_categories. reflexivity.
  - intros [k ts] _. simpl. rewrite is_true_and, String.eqb_sym, andb_comm. f_equal.
    f_equal. destruct (ts_project_id ts) as [q|]; simpl.
    + rewrite String.eqb_sym. destruct (String.eqb_spec q pid) as [->|Hne].
      * rewrite bool_decide_eq_true_2; reflexivity.
      * rewrite bool_decide_eq_false_2; [reflexivity | congruence].
    + reflexivity.
Qed.

Lemma done_statuses_of_no_project db : done_statuses_of_project db None = [].
Proof.
  unfold done_statuses_of_project.
  induction (rows (task_statuses db)) as [|r l IH]; [reflexivity|].
  cbn [List.filter]. rewrite is_true_and, is_true_eq_null_l. exact IH.
Qed.

Lemma task_has_status db rid (t : TaskRow) :
  statuses_assigned db = true -> tasks db !! rid = Some t -> status_id t <> None.
Proof.
  unfold statuses_assigned. rewrite forallb_forall. intros Hall Hin Hnull.
  specialize (Hall (rid, t)). simpl in Hall. rewrite Hnull in Hall.
  assert (In (rid, t) (rows (tasks db))) as Hrow
    by (apply list_elem_of_In, elem_of_map_to_list; exact Hin).
  specialize (Hall Hrow). discriminate Hall.
Qed.

(** The second WHEN finds a direct dependency that is not done. *)
Lemma incomplete_dependency_exists_spec db taskId :
  statuses_assigned db = true ->
  incomplete_dependency_exists db (Some taskId)
  = existsb (fun d => negb (dependency_done db d)) (direct_dependencies db taskId).
Proof.
  intros Hassigned.
  unfold incomplete_dependency_exists, dependencies_left_join_tasks, direct_dependencies.
  rewrite existsb_flat_map, existsb_map, <- existsb_filter.
  apply existsb_ext. intros td _.
  rewrite left_join_row. simpl. rewrite orb_false_r, is_true_and, is_true_eq_decide.
  f_equal. unfold dependency_done.
  destruct (td_related_task_id td) as [rid|]; simpl.
  2:{ rewrite done_statuses_of_no_project. reflexivity. }
  destruct (tasks db !! rid) as [t|] eqn:Ht; simpl.
  2:{ rewrite done_statuses_of_no_project. reflexivity. }
  pose proof (task_has_status db rid t Hassigned Ht) as Hstatus.
  destruct (status_id t) as [v|]; [|congruence].
  destruct (project_id t) as [pid|].
  - rewrite in_done_statuses. simpl.
    destruct (status_of_project db v pid && status_category_done_is db v true);
      reflexivity.
  - rewrite done_statuses_of_no_project. reflexivity.
Qed.

(** C2, as the code has it: the transition is allowed at once when the
    target is a status of the task's project in a category that is not
    done; for every other target id the gate looks at the direct
    dependencies, blocks when one of them is not in a done status of its
    project, and allows otherwise (also without dependencies). *)
Theorem gate_by_open_target_then_dependencies db taskId sid :
  statuses_assigned db = true ->
  (target_is_open db taskId sid = true ->
   checkForCompletedDependencies db taskId sid = true) /\
  (target_is_open db taskId sid = false ->
   existsb (fun d => negb (dependency_done db d)) (direct_dependencies db taskId) = true ->
   checkForCompletedDependencies db taskId sid = false) /\
  (target_is_open db taskId sid = false ->
   forallb (dependency_done db) (direct_dependencies db taskId) = true ->
   checkForCompletedDependencies db taskId sid = true) /\
  checkForCompletedDependencies db taskId sid
  = target_is_open db taskId sid
    || forallb (dependency_done db) (direct_dependencies db taskId).
Proof.
  intros Hassigned. unfold checkForCompletedDependencies.
  rewrite status_not_done_exists_spec.
  rewrite (incomplete_dependency_exists_spec db taskId Hassigned).
  rewrite <- negb_existsb_negb.
  destruct (target_is_open db taskId sid); simpl.
  - repeat split; try reflexivity; discriminate.
  - destruct (existsb _ _); repeat split; try reflexivity; discriminate.
Qed.

End GateFacts.

(** ** Re-parenting *)

Section ReparentFacts.

Import Store.

Context (UNMAPPED : string).

Local Abbreviation convertToSubtask := (Store.convertToSubtask UNMAPPED).

Implicit Types (db : Db) (body : Body).

(** [MAX] is the largest of the values that are not NULL. *)
Lemma max_spec (l : list (option Z)) :
  match Sql.max_ l with
  | Some m => is_maximum m (Sql.values l)
  | None => Sql.values l = []
  end.
Proof.
  induction l as [|[z|] l IH]; simpl; [reflexivity | | exact IH].
  destruct (Sql.max_ l) as [m|].
  - destruct IH as [Hin Hmax]. split.
    + destruct (Z.max_spec z m) as [[_ ->]|[_ ->]]; [right; exact Hin | left; reflexivity].
    + intros y [<-|Hy]; [lia|]. specialize (Hmax y Hy). lia.
  - rewrite IH. split; [left; reflexivity|].
    intros y [<-|[]]. lia.
Qed.

Lemma sort_positions_rows db pid :
  Sql.values
    (List.map (fun t => sort_order (snd t))
       (List.filter (fun t => Sql.is_true (Sql.eq_ (project_id (snd t)) (Some pid)))
          (rows (tasks db))))
  = sort_positions db pid.
Proof.
  unfold sort_positions. do 2 f_equal.
  apply List.filter_ext. intros r. apply is_true_eq_decide.
Qed.

(** The position [COALESCE(MAX + 1, 0)] computes. *)
Lemma next_sort_order_spec db pid :
  (sort_positions db pid = [] /\ next_sort_order db (Some pid) = 0%Z) \/
  (exists m, is_maximum m (sort_positions db pid) /\
             next_sort_order db (Some pid) = (m + 1)%Z).
Proof.
  unfold next_sort_order.
  pose proof (max_spec
                (List.map (fun t => sort_order (snd t))
                   (List.filter
                      (fun t => Sql.is_true (Sql.eq_ (project_id (snd t)) (Some pid)))
                      (rows (tasks db))))) as Hmax.
  rewrite sort_positions_rows in Hmax.
  destruct (Sql.max_ _) as [m|]; simpl.
  - right. exists m. split; [exact Hmax | reflexivity].
  - left. split; [exact Hmax | reflexivity].
Qed.

Lemma no_task_no_position db pid :
  (forall j r, tasks db !! j = Some r -> project_id r <> Some pid) ->
  sort_positions db pid = [].
Proof.
  intros Hnone. unfold sort_positions.
  assert (forall r, In r (rows (tasks db)) -> project_id (snd r) <> Some pid) as Hrows.
  { intros [j r] Hin. apply list_elem_of_In, elem_of_map_to_list in Hin.
    exact (Hnone j r Hin). }
  induction (rows (tasks db)) as [|r l IH]; [reflexivity|]. simpl.
  rewrite bool_decide_eq_false_2 by (apply Hrows; left; reflexivity).
  apply IH. intros r' Hin. apply Hrows. right. exact Hin.
Qed.

Lemma lookup_update_tasks set db i (t : TaskRow) :
  tasks db !! i = Some t ->
  tasks (update_tasks_where_id set (Some i) db) !! i = Some (set t).
Proof.
  intros Ht. unfold update_tasks_where_id. simpl.
  rewrite map_lookup_imap, Ht. simpl.
  rewrite String.eqb_refl. reflexivity.
Qed.

(** C7: [convertToTask] leaves the task without a parent and puts it one
    past the largest sort position of the tasks of the project it is
    given, or at 0 when no task of that project has a position, which is
    so when the project has no tasks. *)
Theorem convertToTask_detaches_and_appends db body i pid (t : TaskRow) :
  id body = Some i ->
  body_project_id body = Some pid ->
  tasks db !! i = Some t ->
  exists t',
    tasks (run (convertToTask body) db) !! i = Some t' /\
    parent_task_id t' = None /\
    ((exists m, is_maximum m (sort_positions db pid) /\ sort_order t' = Some (m + 1)%Z) \/
     (sort_positions db pid = [] /\ sort_order t' = Some 0%Z)) /\
    ((forall j r, tasks db !! j = Some r -> project_id r <> Some pid) ->
     sort_order t' = Some 0%Z).
Proof.
  intros Hid Hpid Ht.
  assert (run (convertToTask body) db
          = update_tasks_where_id
              (fun t0 => {| project_id := project_id t0; status_id := status_id t0;
                            priority_id := priority_id t0; parent_task_id := None;
                            sort_order := Some (next_sort_order db (Some pid)) |})
              (Some i) db) as ->.
  { unfold convertToTask, run. cbn [fold_left]. unfold exec.
    cbn [statement params]. unfold param. cbn [nth Nat.sub].
    rewrite Hid, Hpid. reflexivity. }
  eexists. split; [apply lookup_update_tasks; exact Ht|]. cbn [parent_task_id sort_order].
  split; [reflexivity|].
  destruct (next_sort_order_spec db pid) as [[Hnil ->]|(m & Hmax & ->)].
  - split; [right; split; [exact Hnil | reflexivity] | reflexivity].
  - split; [left; exists m; split; [exact Hmax | reflexivity]|].
    intros Hnone. apply no_task_no_position in Hnone.
    destruct Hmax as [Hin _]. rewrite Hnone in Hin. destruct Hin.
Qed.

(** C10: when the destination group is the sentinel, the group id that
    [convertToSubtask] binds is NULL: as the fourth parameter of the
    status or priority update, which then stores NULL in that column, or
    as the second parameter of the phase-change call, which is issued
    after the update of parent and position. *)
Theorem unmapped_destination_binds_null body :
  to_group_id body = Some UNMAPPED ->
  (group_by body = Some "status" ->
   convertToSubtask body
   = [ {| statement := SubtaskStatusUpdate;
          params := [id body; body_project_id body; body_parent_task_id body; None] |};
       {| statement := GetSingleTask; params := [id body] |} ] /\
   forall db i t, id body = Some i -> tasks db !! i = Some t ->
     exists t', tasks (run (convertToSubtask body) db) !! i = Some t' /\
                status_id t' = None) /\
  (group_by body = Some "priority" ->
   convertToSubtask body
   = [ {| statement := SubtaskPriorityUpdate;
          params := [id body; body_project_id body; body_parent_task_id body; None] |};
       {| statement := GetSingleTask; params := [id body] |} ] /\
   forall db i t, id body = Some i -> tasks db !! i = Some t ->
     exists t', tasks (run (convertToSubtask body) db) !! i = Some t' /\
                priority_id t' = None) /\
  (group_by body = Some "phase" ->
   convertToSubtask body
   = [ {| statement := SubtaskParentUpdate;
          params := [id body; body_project_id body; body_parent_task_id body] |};
       {| statement := HandleOnTaskPhaseChange; params := [id body; None] |};
       {| statement := GetSingleTask; params := [id body] |} ]) /\
  Forall (fun c => param 4 (params c) = None /\
                   (statement c = HandleOnTaskPhaseChange -> param 2 (params c) = None))
    (convertToSubtask body).
Proof.
  intros Hto. unfold Store.convertToSubtask. rewrite Hto. simpl.
  rewrite String.eqb_refl.
  split; [|split; [|split]].
  - intros ->. cbn [Js.strict_eq String.eqb Ascii.eqb Bool.eqb app]. split; [reflexivity|].
    intros db i t Hid Ht. unfold run. cbn [fold_left]. unfold exec.
    cbn [statement params]. unfold param. cbn [nth Nat.sub]. rewrite Hid.
    eexists. split; [apply lookup_update_tasks; exact Ht | reflexivity].
  - intros ->. cbn [Js.strict_eq String.eqb Ascii.eqb Bool.eqb app]. split; [reflexivity|].
    intros db i t Hid Ht. unfold run. cbn [fold_left]. unfold exec.
    cbn [statement params]. unfold param. cbn [nth Nat.sub]. rewrite Hid.
    eexists. split; [apply lookup_update_tasks; exact Ht | reflexivity].
  - intros ->. reflexivity.
  - destruct (Js.strict_eq (group_by body) "status"),
      (Js.strict_eq (group_by body) "priority"),
      (Js.strict_eq (group_by body) "phase"); simpl;
      repeat constructor; simpl; try reflexivity; discriminate.
Qed.

End ReparentFacts.

(** ** Label assignment *)

Section LabelsFacts.

Import Labels.

Implicit Types (l : Loop) (labels : list string).

Lemma forEach_issues id labels : forall l,
  exists issued,
    trace (forEach (callback id) labels l) = (trace l ++ issued)%list /\
    quiet issued /\
    length issued = length labels /\
    length (pending (forEach (callback id) labels l))
    = length (pending l) + length labels.
Proof.
  induction labels as [|label labels IH]; intros l.
  - exists []. simpl. rewrite app_nil_r. repeat split; [constructor | lia].
  - destruct (IH (call_async (callback id label) l))
      as (issued & Htrace & Hquiet & Hlen & Hpend).
    exists (Issued (writes l) id label :: issued).
    change (forEach (callback id) (label :: labels) l)
      with (forEach (callback id) labels (call_async (callback id label) l)).
    rewrite Htrace, Hpend. unfold callback, call_async. cbn [trace pending length].
    rewrite <- app_assoc, length_app. cbn [length app].
    repeat split; [|lia|lia].
    constructor; [split; reflexivity | exact Hquiet].
Qed.

Lemma settled_before_response_quiet issued status done message rest :
  quiet issued ->
  settled_before_response (issued ++ Responded status done message :: rest) = 0.
Proof.
  induction 1 as [|e issued [Hs Hr] _ IH]; simpl; [reflexivity|].
  rewrite Hr, Hs. exact IH.
Qed.

Lemma later_extends l l' : later l l' -> exists rest, trace l' = (trace l ++ rest)%list.
Proof.
  induction 1 as [l|l1 l2 l3 _ [rest Hrest] Hstep].
  - exists []. rewrite app_nil_r. reflexivity.
  - destruct Hstep as [l2 before after n body _].
    destruct body as [|taskId label body]; cbn [call_async trace];
      rewrite Hrest, <- ?app_assoc; eexists; reflexivity.
Qed.

(** [assignLabelsToTask] issues one write per label without waiting for
    any of them and sends the success response at once; when it returns
    every write is still pending, and whatever the event loop settles
    later, no write had completed when the response was sent. *)
Lemma response_is_sent_before_any_write_completes id labels l' :
  later (assignLabelsToTask id labels start) l' ->
  (exists issued,
     trace (assignLabelsToTask id labels start)
     = (issued ++ [Responded 200 true "Labels assigned successfully"])%list /\
     quiet issued /\ length issued = length labels) /\
  length (pending (assignLabelsToTask id labels start)) = length labels /\
  settled_before_response (trace l') = 0 /\
  (labels <> [] -> ~ awaited_before_response labels (trace l')).
Proof.
  intros Hlater.
  destruct (forEach_issues id labels start) as (issued & Htrace & Hquiet & Hlen & Hpend).
  simpl in Htrace, Hpend.
  assert (settled_before_response (trace l') = 0) as Hzero.
  { destruct (later_extends _ _ Hlater) as [rest ->].
    unfold assignLabelsToTask, send. simpl. rewrite Htrace, <- app_assoc. simpl.
    apply settled_before_response_quiet. exact Hquiet. }
  split; [exists issued; unfold assignLabelsToTask, send; simpl; rewrite Htrace; auto|].
  split; [exact Hpend|]. split; [exact Hzero|].
  intros Hne Hawaited. unfold awaited_before_response in Hawaited.
  rewrite Hzero in Hawaited. destruct labels; [congruence | discriminate].
Qed.

End LabelsFacts.

(** ** The properties on sample data *)

(** The example of the specification, run on the model. *)
Example grouped_board_counts_and_progress :
  exists groups,
    Examples.grouped_board = Some groups /\
    groups !! "todo" = Some (1, Some 100, Some 0, Some 0) /\
    groups !! "doing" = Some (1, Some 0, Some 100, Some 0) /\
    groups !! "done" = Some (2, Some 0, Some 0, Some 100) /\
    groups !! Examples.UNMAPPED = None.
Proof.
  destruct Examples.grouped_board as [groups|] eqn:Hboard;
    [|vm_compute in Hboard; discriminate Hboard].
  exists groups. split; [reflexivity|].
  vm_compute in Hboard. injection Hboard as <-.
  repeat split; vm_compute; reflexivity.
Qed.

(** A status that names a member of [Object.prototype]: the push reads
    the inherited function, which has no task list, and the call throws. *)
Example inherited_key_throws :
  Grouping.updateMapByGroup Examples.UNMAPPED Examples.GroupBy_STATUS
    Examples.GroupBy_PRIORITY Examples.GroupBy_PHASE Examples.no_view
    Examples.board_with_inherited_key "status" Examples.status_shells = None.
Proof. vm_compute. reflexivity. Qed.

(** A row with the id [__proto__] creates no key: its group becomes the
    prototype, takes the task of that status, and is not listed. *)
Example prototype_row_is_not_listed :
  Grouping.own (Grouping.shells "69" unit Examples.rows_with_prototype) !! "__proto__"
  = None /\
  option_map
    (List.map (fun e => (Listing.listed_id e,
                         length (Grouping.tasks (Listing.listed_group e)))))
    (Listing.getList Examples.UNMAPPED "69" Examples.GroupBy_STATUS
       Examples.GroupBy_PRIORITY Examples.GroupBy_PHASE Examples.no_view None
       Examples.board_with_prototype_key Examples.rows_with_prototype)
  = Some [ ("todo", 1); ("doing", 1); ("done", 2) ] /\
  Listing.getList Examples.UNMAPPED "69" Examples.GroupBy_STATUS
    Examples.GroupBy_PRIORITY Examples.GroupBy_PHASE Examples.no_view None
    Examples.board_with_prototype_key Samples.status_rows
  = None.
Proof. repeat split; vm_compute; reflexivity. Qed.

(** The partition property fails as stated: grouped by phase, a task whose phase has no shell
    is in no group, so one task is counted where two came in. *)
Lemma partition_drops_task_of_removed_phase :
  ~ Grouping.partition_exhaustive Examples.UNMAPPED Examples.GroupBy_STATUS
      Examples.GroupBy_PRIORITY Examples.GroupBy_PHASE Examples.no_view
      Examples.tasks_with_removed_phase "phase" Examples.phase_shells.
Proof.
  intros (map' & Hresult & Hcount & _).
  vm_compute in Hresult. injection Hresult as <-.
  vm_compute in Hcount. discriminate Hcount.
Qed.

Lemma partition_of_unskipped_tasks_witness :
  Grouping.task_count (Grouping.own Examples.phase_shells) = 0 /\
  Grouping.own Examples.phase_shells !! Examples.UNMAPPED = None /\
  Examples.UNMAPPED <> "__proto__" /\
  Grouping.partition_exhaustive Examples.UNMAPPED Examples.GroupBy_STATUS
    Examples.GroupBy_PRIORITY Examples.GroupBy_PHASE Examples.no_view
    Examples.tasks_with_missing_phase "phase" Examples.phase_shells.
Proof.
  assert (Grouping.task_count (Grouping.own Examples.phase_shells) = 0) as Hempty
    by (vm_compute; reflexivity).
  assert (Grouping.own Examples.phase_shells !! Examples.UNMAPPED = None) as Hfresh
    by (vm_compute; reflexivity).
  assert (Examples.UNMAPPED <> "__proto__") as Hname by discriminate.
  split; [exact Hempty|]. split; [exact Hfresh|]. split; [exact Hname|].
  pose proof (partition_of_unskipped_tasks Examples.UNMAPPED Examples.GroupBy_STATUS
                Examples.GroupBy_PRIORITY Examples.GroupBy_PHASE Examples.no_view
                Examples.tasks_with_missing_phase "phase" Examples.phase_shells
                Hempty Hfresh Hname) as Hpartition.
  destruct (Grouping.updateMapByGroup Examples.UNMAPPED Examples.GroupBy_STATUS
              Examples.GroupBy_PRIORITY Examples.GroupBy_PHASE Examples.no_view
              Examples.tasks_with_missing_phase "phase" Examples.phase_shells)
    as [map'|] eqn:Hresult; [|vm_compute in Hresult; discriminate Hresult].
  destruct Hpartition as (_ & _ & _ & Hall).
  apply Hall. vm_compute. reflexivity.
Defined.


(** The gate policy fails as stated: [q-todo] is not a done status of the project of
    [t1], yet the gate blocks, because it is not a status of that
    project at all and [t1] has an open dependency. *)
Lemma gate_blocks_status_of_other_project :
  ~ Store.gate_policy Examples.gate_db "t1" "q-todo".
Proof.
  intros [Hopen _].
  assert (Store.target_is_done Examples.gate_db "t1" "q-todo" = false) as Hnot
    by (vm_compute; reflexivity).
  specialize (Hopen Hnot). vm_compute in Hopen. discriminate Hopen.
Qed.

Lemma gate_by_open_target_then_dependencies_witness :
  Store.statuses_assigned Examples.gate_db = true /\
  Store.checkForCompletedDependencies Examples.gate_db "t1" "p-done" = false.
Proof.
  assert (Store.statuses_assigned Examples.gate_db = true) as Hassigned
    by (vm_compute; reflexivity).
  split; [exact Hassigned|].
  destruct (gate_by_open_target_then_dependencies Examples.gate_db "t1" "p-done"
              Hassigned) as (_ & Hblock & _).
  apply Hblock; vm_compute; reflexivity.
Defined.

Lemma convertToTask_detaches_and_appends_witness :
  exists t',
    Store.tasks (Store.run (Store.convertToTask Examples.to_task_body) Examples.gate_db)
      !! "t2" = Some t' /\
    Store.parent_task_id t' = None /\
    Store.sort_order t' = Some 5%Z.
Proof.
  destruct (convertToTask_detaches_and_appends Examples.gate_db Examples.to_task_body
              "t2" "p"
              {| Store.project_id := Some "p"; Store.status_id := Some "p-todo";
                 Store.priority_id := None; Store.parent_task_id := Some "t1";
                 Store.sort_order := Some 4%Z |})
    as (t' & Hlookup & Hparent & _).
  - reflexivity.
  - reflexivity.
  - vm_compute. reflexivity.
  - exists t'. split; [exact Hlookup|]. split; [exact Hparent|].
    vm_compute in Hlookup. injection Hlookup as <-. reflexivity.
Defined.

Lemma unmapped_destination_binds_null_witness :
  Store.to_group_id Examples.to_unmapped_body = Some Examples.UNMAPPED /\
  Store.convertToSubtask Examples.UNMAPPED Examples.to_unmapped_body
  = [ {| Store.statement := Store.SubtaskStatusUpdate;
         Store.params := [Some "t2"; Some "p"; Some "t1"; None] |};
      {| Store.statement := Store.GetSingleTask; Store.params := [Some "t2"] |} ].
Proof.
  split; [reflexivity|].
  destruct (unmapped_destination_binds_null Examples.UNMAPPED Examples.to_unmapped_body
              eq_refl) as (Hstatus & _).
  destruct (Hstatus eq_refl) as [Hcalls _]. exact Hcalls.
Defined.

(** C9, what the code does instead: with two labels the handler issues
    both writes and responds; both writes are pending then, and in no
    later state of the event loop had they completed before the
    response. *)
Theorem assignLabelsToTask_does_not_await :
  Labels.trace (Labels.assignLabelsToTask "t1" ["bug"; "ui"] Labels.start)
  = [ Labels.Issued 0 "t1" "bug"; Labels.Issued 1 "t1" "ui";
      Labels.Responded 200 true "Labels assigned successfully" ] /\
  Labels.pending (Labels.assignLabelsToTask "t1" ["bug"; "ui"] Labels.start)
  = [ (0, Labels.Return); (1, Labels.Return) ] /\
  ~ exists l',
      Labels.later (Labels.assignLabelsToTask "t1" ["bug"; "ui"] Labels.start) l' /\
      Labels.awaited_before_response ["bug"; "ui"] (Labels.trace l').
Proof.
  split; [reflexivity|]. split; [reflexivity|].
  intros (l' & Hlater & Hawaited).
  destruct (response_is_sent_before_any_write_completes "t1" ["bug"; "ui"] l' Hlater)
    as (_ & _ & _ & Hnot).
  apply Hnot; [discriminate | exact Hawaited].
Qed.

(** * Further properties *)

(** ** What the grouping loop builds *)

Section GroupingStructure.

Import Grouping.

Context (UNMAPPED STATUS PRIORITY PHASE : string).
Context {View : Type} (viewModel : Task View -> View).

Local Abbreviation loop := (Grouping.loop STATUS PRIORITY PHASE viewModel).
Local Abbreviation walk := (Grouping.walk STATUS PRIORITY PHASE viewModel).
Local Abbreviation route := (Grouping.route STATUS PRIORITY PHASE).
Local Abbreviation to_unmapped := (Grouping.to_unmapped STATUS PRIORITY PHASE).
Local Abbreviation routed_to := (Grouping.routed_to STATUS PRIORITY PHASE).
Local Abbreviation throws := (Grouping.throws STATUS PRIORITY PHASE).
Local Abbreviation into_prototype := (Grouping.into_prototype STATUS PRIORITY PHASE).
Local Abbreviation updateMapByGroup :=
  (Grouping.updateMapByGroup UNMAPPED STATUS PRIORITY PHASE viewModel).
Local Abbreviation prepare_from := (Grouping.prepare_from viewModel).
Local Abbreviation prepare := (Grouping.prepare viewModel).

Implicit Types (map : GroupMap View) (t : Task View)
  (p : Task View -> bool) (w : Walk View) (g : TaskGroup View).

(** The result of [updateMapByGroup] in full: when no push throws, the
    groups after the loop, and then the assignment of the sentinel group
    if a task took the last branch. *)
Lemma updateMapByGroup_returns ts groupBy map :
  if existsb (throws groupBy map) (prepare ts)
  then updateMapByGroup ts groupBy map = None
  else
    exists looped,
      created looped = created map /\
      (forall k,
         own looped !! k
         = (fun g => with_tasks g
                       (tasks g ++ List.filter (routed_to groupBy k) (prepare ts)))
             <$> own map !! k) /\
      proto looped
      = (fun g => with_tasks g
                    (tasks g ++ List.filter (into_prototype groupBy map) (prepare ts)))
          <$> proto map /\
      updateMapByGroup ts groupBy map
      = match List.filter (to_unmapped groupBy) (prepare ts) with
        | [] => Some looped
        | u0 :: us => Some (assign looped UNMAPPED (unmapped_group UNMAPPED (u0 :: us)))
        end.
Proof.
  rewrite (updateMapByGroup_walk UNMAPPED STATUS PRIORITY PHASE viewModel).
  unfold Grouping.walk.
  pose proof (loop_spec STATUS PRIORITY PHASE viewModel ts groupBy
                {| next_index := 0; unmapped := []; groups := map |}) as Hspec.
  pose proof (loop_throws STATUS PRIORITY PHASE viewModel ts groupBy
                {| next_index := 0; unmapped := []; groups := map |}) as Hthrows.
  cbn [next_index groups] in Hspec, Hthrows. fold (prepare ts) in Hspec, Hthrows.
  destruct (loop groupBy ts _) as [w|].
  - destruct (existsb (throws groupBy map) (prepare ts));
      [discriminate (proj2 Hthrows eq_refl)|].
    destruct Hspec as (_ & _ & _ & Hcreated & Hown & Hproto & _).
    exists (groups w). repeat split; assumption.
  - rewrite (proj1 Hthrows eq_refl). reflexivity.
Qed.

Lemma sets_prototype_same map map' key :
  (forall k, is_Some (own map' !! k) <-> is_Some (own map !! k)) ->
  sets_prototype map' key = sets_prototype map key.
Proof.
  intros Hown. unfold sets_prototype. f_equal. specialize (Hown key).
  destruct (own map' !! key), (own map !! key); try reflexivity.
  - destruct (proj1 Hown) as [? ?]; [eauto | discriminate].
  - destruct (proj2 Hown) as [? ?]; [eauto | discriminate].
Qed.

Lemma own_assign_lookup map key g k :
  own (assign map key g) !! k
  = if String.eqb k key && negb (sets_prototype map key) then Some g else own map !! k.
Proof.
  unfold assign, sets_prototype.
  destruct (String.eqb key "__proto__" && Js.nullish (own map !! key)).
  - rewrite andb_false_r. reflexivity.
  - rewrite andb_true_r. cbn [own]. destruct (String.eqb_spec k key) as [->|Hne].
    + apply lookup_insert_eq.
    + apply lookup_insert_ne. congruence.
Qed.

Lemma proto_assign map key g :
  proto (assign map key g) = if sets_prototype map key then Some g else proto map.
Proof.
  unfold assign, sets_prototype.
  destruct (String.eqb key "__proto__" && Js.nullish (own map !! key)); reflexivity.
Qed.

(** X1: [updateMapByGroup] is a filter per key, or a TypeError. It throws
    exactly when the push of some task does, that is when the key of the
    task is not an own key of the map and names an inherited member that
    is not nullish and is not the prototype group. Otherwise, under
    every own key the result has the group that was there, with the same
    name, colours, category, dates and progress, and with the prepared
    input tasks the dimension sends to that key appended in input order;
    the prototype, if it is a group, gets the tasks sent to [__proto__]
    in the same way. Only the sentinel differs, and only when some task
    takes the last branch of the loop: the literal group with exactly
    those tasks, in input order, is then the own property under the
    sentinel key, whatever was there before, or the prototype when the
    sentinel is [__proto__]. No other key appears. *)
Theorem updateMapByGroup_lookup ts groupBy map :
  if existsb (throws groupBy map) (prepare ts)
  then updateMapByGroup ts groupBy map = None
  else
    exists map',
      updateMapByGroup ts groupBy map = Some map' /\
      (forall k,
         own map' !! k
         = match List.filter (to_unmapped groupBy) (prepare ts) with
           | u0 :: us =>
               if String.eqb k UNMAPPED && negb (sets_prototype map UNMAPPED)
               then Some (unmapped_group UNMAPPED (u0 :: us))
               else (fun g => with_tasks g
                                (tasks g ++ List.filter (routed_to groupBy k) (prepare ts)))
                      <$> own map !! k
           | [] =>
               (fun g => with_tasks g
                           (tasks g ++ List.filter (routed_to groupBy k) (prepare ts)))
                 <$> own map !! k
           end) /\
      proto map'
      = match List.filter (to_unmapped groupBy) (prepare ts) with
        | u0 :: us =>
            if sets_prototype map UNMAPPED
            then Some (unmapped_group UNMAPPED (u0 :: us))
            else (fun g => with_tasks g
                             (tasks g
                              ++ List.filter (into_prototype groupBy map) (prepare ts)))
                   <$> proto map
        | [] =>
            (fun g => with_tasks g
                        (tasks g ++ List.filter (into_prototype groupBy map) (prepare ts)))
              <$> proto map
        end.
Proof.
  pose proof (updateMapByGroup_returns ts groupBy map) as Hreturns.
  destruct (existsb (throws groupBy map) (prepare ts)); [exact Hreturns|].
  destruct Hreturns as (looped & _ & Hown & Hproto & Hresult).
  assert (sets_prototype looped UNMAPPED = sets_prototype map UNMAPPED) as Hsets.
  { apply sets_prototype_same. intros k. rewrite Hown, fmap_is_Some. reflexivity. }
  destruct (List.filter (to_unmapped groupBy) (prepare ts)) as [|u0 us].
  - exists looped. split; [exact Hresult|]. split; [exact Hown | exact Hproto].
  - eexists. split; [exact Hresult|]. split.
    + intros k. rewrite own_assign_lookup, Hsets, Hown. reflexivity.
    + rewrite proto_assign, Hsets, Hproto. reflexivity.
Qed.

End GroupingStructure.

Section GroupingOrder.

Import Grouping.

Context (UNMAPPED TASK_STATUS_COLOR_ALPHA STATUS PRIORITY PHASE : string).
Context {View : Type} (viewModel : Task View -> View).

Local Abbreviation route := (Grouping.route STATUS PRIORITY PHASE).
Local Abbreviation to_unmapped := (Grouping.to_unmapped STATUS PRIORITY PHASE).
Local Abbreviation routed_to := (Grouping.routed_to STATUS PRIORITY PHASE).
Local Abbreviation throws := (Grouping.throws STATUS PRIORITY PHASE).
Local Abbreviation updateMapByGroup :=
  (Grouping.updateMapByGroup UNMAPPED STATUS PRIORITY PHASE viewModel).
Local Abbreviation prepare_from := (Grouping.prepare_from viewModel).
Local Abbreviation prepare := (Grouping.prepare viewModel).
Local Abbreviation shells := (Grouping.shells TASK_STATUS_COLOR_ALPHA View).
Local Abbreviation TaskListGroup := (Grouping.TaskListGroup TASK_STATUS_COLOR_ALPHA View).

Implicit Types (map : GroupMap View) (m : gmap string (TaskGroup View)) (t : Task View)
  (p : Task View -> bool) (g : TaskGroup View).

(** The tasks of a group of the result: what the group had, then a
    selection of the prepared input in input order. *)
Lemma result_group_tasks ts groupBy map map' k g :
  updateMapByGroup ts groupBy map = Some map' ->
  own map' !! k = Some g ->
  exists p before,
    tasks g = (before ++ List.filter p (prepare ts))%list /\
    (before = [] \/ exists g0, own map !! k = Some g0 /\ before = tasks g0).
Proof.
  pose proof (updateMapByGroup_returns UNMAPPED STATUS PRIORITY PHASE viewModel
                ts groupBy map) as Hreturns.
  destruct (existsb (throws groupBy map) (prepare ts));
    [rewrite Hreturns; discriminate|].
  destruct Hreturns as (looped & _ & Hown & _ & ->).
  assert (forall g', own looped !! k = Some g' ->
            exists p before,
              tasks g' = (before ++ List.filter p (prepare ts))%list /\
              (before = [] \/ exists g0, own map !! k = Some g0 /\ before = tasks g0))
    as Hshell.
  { intros g' Hg'. rewrite Hown in Hg'.
    destruct (own map !! k) as [g0|]; [|discriminate].
    injection Hg' as <-. exists (routed_to groupBy k), (tasks g0).
    split; [reflexivity|]. right. exists g0. split; reflexivity. }
  destruct (List.filter (to_unmapped groupBy) (prepare ts)) as [|u0 us] eqn:Hu;
    intros Hresult; injection Hresult as <-; [apply Hshell|].
  rewrite own_assign_lookup.
  destruct (String.eqb k UNMAPPED && negb (sets_prototype looped UNMAPPED));
    [|apply Hshell].
  intros Hg. injection Hg as <-.
  exists (to_unmapped groupBy), []. split; [|left; reflexivity].
  cbn [tasks unmapped_group app]. symmetry. exact Hu.
Qed.

Lemma empty_shell_tasks m k g :
  task_count m = 0 -> m !! k = Some g -> tasks g = [].
Proof.
  intros Hzero Hk. unfold task_count in Hzero.
  rewrite (entries_with_lookup _ m k g Hk) in Hzero.
  rewrite filter_true_length in Hzero.
  destruct (tasks g); [reflexivity | simpl in Hzero; lia].
Qed.

Lemma prepare_from_lookup (ts : list (Task View)) : forall n i,
  prepare_from n ts !! i
  = (fun t0 => updateTaskViewModel viewModel (set_index t0 (n + i))) <$> ts !! i.
Proof.
  induction ts as [|t0 ts IH]; intros n i; [reflexivity|].
  destruct i as [|i]; cbn [Grouping.prepare_from lookup list_lookup].
  - rewrite Nat.add_0_r. reflexivity.
  - rewrite IH. replace (S n + i) with (n + S i) by lia. reflexivity.
Qed.

Lemma filter_prepare_indices p (ts : list (Task View)) : forall n,
  exists ns,
    List.map index (List.filter p (prepare_from n ts)) = List.map Some ns /\
    StronglySorted lt ns /\
    Forall (fun j => n <= j < n + length ts) ns.
Proof.
  induction ts as [|t0 ts IH]; intros n.
  - exists []. repeat split; constructor.
  - destruct (IH (S n)) as (ns & Hmap & Hsorted & Hrange).
    cbn [Grouping.prepare_from List.filter].
    destruct (p _).
    + exists (n :: ns). cbn [List.map]. rewrite Hmap. split; [reflexivity|]. split.
      * constructor; [exact Hsorted|].
        eapply Forall_impl; [exact Hrange|]. simpl. intros j Hj. lia.
      * constructor; [simpl; lia|].
        eapply Forall_impl; [exact Hrange|]. simpl. intros j Hj. lia.
    + exists ns. split; [exact Hmap|]. split; [exact Hsorted|].
      eapply Forall_impl; [exact Hrange|]. simpl. intros j Hj. lia.
Qed.

(** X2: in every group of the result of [updateMapByGroup] on empty
    shells, the sentinel group included, the tasks stand in the order of
    the flat input: their display indices increase strictly along the
    group. Each entry is the input task at the position its index names,
    with the index and the view model added and nothing else changed, so
    the index is the position in the whole result, not in the group. *)
Theorem group_entries_keep_flat_order ts groupBy map map' k g :
  task_count (own map) = 0 ->
  updateMapByGroup ts groupBy map = Some map' ->
  own map' !! k = Some g ->
  (exists ns,
     List.map index (tasks g) = List.map Some ns /\
     StronglySorted lt ns /\
     Forall (fun i => i < length ts) ns) /\
  (forall t, In t (tasks g) ->
     exists i t0,
       index t = Some i /\ ts !! i = Some t0 /\
       t = updateTaskViewModel viewModel (set_index t0 i)).
Proof.
  intros Hzero Hresult Hg.
  destruct (result_group_tasks ts groupBy map map' k g Hresult Hg)
    as (p & before & Htasks & Hbefore).
  assert (before = []) as ->.
  { destruct Hbefore as [->|(g0 & Hk & ->)]; [reflexivity|].
    exact (empty_shell_tasks (own map) k g0 Hzero Hk). }
  cbn [app] in Htasks. rewrite Htasks. split.
  - destruct (filter_prepare_indices p ts 0) as (ns & Hmap & Hsorted & Hrange).
    exists ns. split; [exact Hmap|]. split; [exact Hsorted|].
    eapply Forall_impl; [exact Hrange|]. simpl. intros j Hj. lia.
  - intros t Hin. apply List.filter_In in Hin. destruct Hin as [Hin _].
    apply list_elem_of_In, list_elem_of_lookup in Hin. destruct Hin as [i Hi].
    unfold Grouping.prepare in Hi. rewrite prepare_from_lookup in Hi.
    destruct (ts !! i) as [t0|] eqn:Ht0; [|discriminate].
    injection Hi as <-. exists i, t0.
    split; [reflexivity|]. split; [exact Ht0 | reflexivity].
Qed.

(** The reducer of [getList], from any object that does not own the key
    [__proto__]. *)
Lemma shells_from (rows : list GroupRow) : forall (acc : GroupMap View) k,
  own acc !! "__proto__" = None ->
  own (fold_left
         (fun o group =>
            match row_id group with
            | Some i => if Js.truthy (Some i) then assign o i (TaskListGroup group) else o
            | None => o
            end)
         rows acc) !! k
  = (if String.eqb k "" || String.eqb k "__proto__"
     then own acc !! k
     else match Listing.last_row_with_id k rows with
          | Some r => Some (TaskListGroup r)
          | None => own acc !! k
          end) /\
  proto (fold_left
           (fun o group =>
              match row_id group with
              | Some i => if Js.truthy (Some i) then assign o i (TaskListGroup group) else o
              | None => o
              end)
           rows acc)
  = match Listing.last_row_with_id "__proto__" rows with
    | Some r => Some (TaskListGroup r)
    | None => proto acc
    end.
Proof.
  unfold Listing.last_row_with_id.
  induction rows as [|r rows IH]; intros acc k Hacc.
  - simpl. split; [|reflexivity].
    destruct (String.eqb k "" || String.eqb k "__proto__"); reflexivity.
  - cbn [fold_left List.filter].
    destruct (row_id r) as [i|]; cbn [Js.strict_eq]; [|apply IH; exact Hacc].
    change (Js.truthy (Some i)) with (negb (String.eqb i "")).
    destruct (String.eqb_spec i "") as [->|Hi]; cbn [negb].
    + destruct (IH acc k Hacc) as [Hown Hproto]. split.
      * rewrite Hown. destruct (String.eqb_spec k "") as [->|Hk]; [reflexivity|].
        rewrite (proj2 (String.eqb_neq "" k)) by congruence. reflexivity.
      * rewrite Hproto. reflexivity.
    + assert (own (assign acc i (TaskListGroup r)) !! "__proto__" = None) as Hacc'.
      { unfold assign. destruct (String.eqb_spec i "__proto__") as [->|Hne].
        - rewrite Hacc. exact Hacc.
        - cbn [andb own]. rewrite lookup_insert_ne by exact Hne. exact Hacc. }
      destruct (IH (assign acc i (TaskListGroup r)) k Hacc') as [Hown Hproto]. split.
      * rewrite Hown. clear Hown Hproto.
        destruct (String.eqb_spec k "") as [->|Hk]; cbn [orb].
        { rewrite own_assign_lookup.
          rewrite (proj2 (String.eqb_neq "" i)) by congruence. reflexivity. }
        destruct (String.eqb_spec k "__proto__") as [->|Hp].
        { rewrite Hacc'. symmetry. exact Hacc. }
        destruct (String.eqb_spec i k) as [->|Hik].
        -- rewrite last_cons.
           destruct (last (List.filter (fun r0 : GroupRow => Js.strict_eq (row_id r0) k) rows)); [reflexivity|].
           rewrite own_assign_lookup, String.eqb_refl. unfold sets_prototype.
           rewrite (proj2 (String.eqb_neq k "__proto__")) by exact Hp. reflexivity.
        -- destruct (last (List.filter (fun r0 : GroupRow => Js.strict_eq (row_id r0) k) rows)); [reflexivity|].
           rewrite own_assign_lookup.
           rewrite (proj2 (String.eqb_neq k i)) by congruence. reflexivity.
      * rewrite Hproto. clear Hown Hproto.
        destruct (String.eqb_spec i "__proto__") as [->|Hp].
        -- rewrite last_cons.
           destruct (last (List.filter (fun r0 : GroupRow => Js.strict_eq (row_id r0) "__proto__") rows)); [reflexivity|].
           rewrite proto_assign. unfold sets_prototype. rewrite Hacc. reflexivity.
        -- destruct (last (List.filter (fun r0 : GroupRow => Js.strict_eq (row_id r0) "__proto__") rows)); [reflexivity|].
           rewrite proto_assign. unfold sets_prototype.
           rewrite (proj2 (String.eqb_neq i "__proto__")) by exact Hp. reflexivity.
Qed.

(** X3: the object [getList] builds from the rows of [getGroups] has,
    under every key that is neither empty nor [__proto__], the group
    made from the last row with that id, and no other own key: rows
    without an id or with an empty id are left out, and a row with the id
    [__proto__] creates no key but makes its group the prototype of the
    object. All these groups have no tasks and zero progress. *)
Theorem shells_lookup (rows : list GroupRow) k :
  own (shells rows) !! k
  = (if String.eqb k "" || String.eqb k "__proto__" then None
     else TaskListGroup <$> Listing.last_row_with_id k rows) /\
  proto (shells rows) = TaskListGroup <$> Listing.last_row_with_id "__proto__" rows /\
  (forall g, own (shells rows) !! k = Some g \/ proto (shells rows) = Some g ->
     tasks g = [] /\ todo_progress g = Some 0 /\ doing_progress g = Some 0 /\
     done_progress g = Some 0).
Proof.
  destruct (shells_from rows (empty_object View) k (lookup_empty _)) as [Hown Hproto].
  fold (shells rows) in Hown, Hproto. cbn [empty_object own proto] in Hown, Hproto.
  rewrite lookup_empty in Hown.
  assert (own (shells rows) !! k
          = (if String.eqb k "" || String.eqb k "__proto__" then None
             else TaskListGroup <$> Listing.last_row_with_id k rows)) as Hlook.
  { rewrite Hown. destruct (String.eqb k "" || String.eqb k "__proto__"); [reflexivity|].
    destruct (Listing.last_row_with_id k rows); reflexivity. }
  assert (proto (shells rows)
          = TaskListGroup <$> Listing.last_row_with_id "__proto__" rows) as Hlast.
  { rewrite Hproto. destruct (Listing.last_row_with_id "__proto__" rows); reflexivity. }
  split; [exact Hlook|]. split; [exact Hlast|].
  intros g [Hg|Hg].
  - rewrite Hlook in Hg.
    destruct (String.eqb k "" || String.eqb k "__proto__"); [discriminate|].
    destruct (Listing.last_row_with_id k rows) as [r|]; [|discriminate].
    injection Hg as <-. repeat split; reflexivity.
  - rewrite Hlast in Hg.
    destruct (Listing.last_row_with_id "__proto__" rows) as [r|]; [|discriminate].
    injection Hg as <-. repeat split; reflexivity.
Qed.

End GroupingOrder.

(** ** The grouped listing *)

Section ListingFacts.

Import Grouping Listing.

Context (UNMAPPED TASK_STATUS_COLOR_ALPHA STATUS PRIORITY PHASE : string).
Context {View : Type} (viewModel : Task View -> View).

Local Abbreviation skipped := (Grouping.skipped STATUS PRIORITY PHASE).
Local Abbreviation throws := (Grouping.throws STATUS PRIORITY PHASE).
Local Abbreviation to_unmapped := (Grouping.to_unmapped STATUS PRIORITY PHASE).
Local Abbreviation updateMapByGroup :=
  (Grouping.updateMapByGroup UNMAPPED STATUS PRIORITY PHASE viewModel).
Local Abbreviation prepare := (Grouping.prepare viewModel).
Local Abbreviation shells := (Grouping.shells TASK_STATUS_COLOR_ALPHA View).
Local Abbreviation TaskListGroup := (Grouping.TaskListGroup TASK_STATUS_COLOR_ALPHA View).
Local Abbreviation or_status := (Listing.or_status STATUS).
Local Abbreviation getList :=
  (Listing.getList UNMAPPED TASK_STATUS_COLOR_ALPHA STATUS PRIORITY PHASE viewModel).

Implicit Types (map : GroupMap View) (m : gmap string (TaskGroup View))
  (g : TaskGroup View) (keys : list string).

Lemma insert_by_index_perm key keys : Js.insert_by_index key keys ≡ₚ key :: keys.
Proof.
  induction keys as [|k keys IH]; [reflexivity|]. simpl.
  destruct (Js.index_value key <=? Js.index_value k)%N; [reflexivity|].
  rewrite IH. apply perm_swap.
Qed.

Lemma sort_by_index_perm keys : Js.sort_by_index keys ≡ₚ keys.
Proof.
  induction keys as [|k keys IH]; [reflexivity|]. simpl.
  rewrite insert_by_index_perm, IH. reflexivity.
Qed.

Lemma filter_split_perm {A} (p : A -> bool) (l : list A) :
  (List.filter p l ++ List.filter (fun a => negb (p a)) l)%list ≡ₚ l.
Proof.
  induction l as [|a l IH]; [reflexivity|]. simpl.
  destruct (p a); simpl.
  - rewrite IH. reflexivity.
  - rewrite <- Permutation_middle, IH. reflexivity.
Qed.

(** [Object.keys] lists every key once, whatever their order. *)
Lemma object_keys_perm keys : Js.object_keys keys ≡ₚ keys.
Proof.
  unfold Js.object_keys. rewrite sort_by_index_perm. apply filter_split_perm.
Qed.

Lemma assign_key_spec keys key :
  NoDup keys ->
  NoDup (Js.assign_key keys key) /\
  forall k, k ∈ Js.assign_key keys key <-> k = key \/ k ∈ keys.
Proof.
  intros Hnodup. unfold Js.assign_key.
  destruct (bool_decide_reflect (key ∈ keys)) as [Hin|Hout].
  - split; [exact Hnodup|]. intros k. split; [tauto|]. intros [->|Hk]; assumption.
  - split.
    + apply NoDup_app. split; [exact Hnodup|]. split; [|apply NoDup_singleton].
      intros k Hk Hk'. apply list_elem_of_singleton in Hk'. subst. contradiction.
    + intros k. rewrite elem_of_app, list_elem_of_singleton. tauto.
Qed.

(** An assignment keeps the list of created keys in step with the own
    properties. *)
Lemma assign_well_keyed map key g : well_keyed map -> well_keyed (assign map key g).
Proof.
  intros [Hnodup Hkeys]. unfold assign.
  destruct (String.eqb key "__proto__" && Js.nullish (own map !! key));
    [split; assumption|].
  split; cbn [created own]; [apply assign_key_spec; exact Hnodup|].
  intros k. rewrite (proj2 (assign_key_spec (created map) key Hnodup)).
  rewrite lookup_insert_is_Some, Hkeys.
  split; [intros [->|Hk]; [left; reflexivity|]|intros [->|[_ Hk]]; auto].
  destruct (decide (key = k)) as [->|Hne]; [left; reflexivity | right; auto].
Qed.

Lemma shells_well_keyed (rows : list GroupRow) : well_keyed (shells rows).
Proof.
  unfold Grouping.shells.
  assert (well_keyed (empty_object View)) as Hempty.
  { split; [constructor|]. intros k. cbn [empty_object created own].
    rewrite lookup_empty. split; [intros Hin; inversion Hin|].
    intros [? ?]; discriminate. }
  revert Hempty. generalize (empty_object View).
  induction rows as [|r rows IH]; intros acc Hacc; [exact Hacc|].
  cbn [fold_left]. apply IH.
  destruct (row_id r) as [i|]; [|exact Hacc].
  destruct (Js.truthy (Some i)); [|exact Hacc].
  apply assign_well_keyed. exact Hacc.
Qed.

(** The keys of the map a call of [updateMapByGroup] returns. *)
Lemma updateMapByGroup_well_keyed ts groupBy map map' :
  well_keyed map ->
  updateMapByGroup ts groupBy map = Some map' ->
  well_keyed map'.
Proof.
  intros Hkeyed.
  pose proof (updateMapByGroup_returns UNMAPPED STATUS PRIORITY PHASE viewModel
                ts groupBy map) as Hreturns.
  destruct (existsb (throws groupBy map) (prepare ts));
    [rewrite Hreturns; discriminate|].
  destruct Hreturns as (looped & Hcreated & Hown & _ & ->).
  assert (well_keyed looped) as Hlooped.
  { destruct Hkeyed as [Hnodup Hkeys]. split; [rewrite Hcreated; exact Hnodup|].
    intros k. rewrite Hcreated, Hown, fmap_is_Some. apply Hkeys. }
  destruct (List.filter (to_unmapped groupBy) (prepare ts));
    intros Hresult; injection Hresult as <-; [exact Hlooped|].
  apply assign_well_keyed. exact Hlooped.
Qed.

(** Listing the groups of a map under keys that all exist. *)
Lemma listed_ids map :
  well_keyed map -> List.map listed_id (listed map) = Js.object_keys (created map).
Proof.
  intros [_ Hkeys]. unfold listed.
  assert (forall k, k ∈ Js.object_keys (created map) -> is_Some (own map !! k)) as Hall.
  { intros k Hk. apply Hkeys. rewrite <- (object_keys_perm (created map)). exact Hk. }
  revert Hall. generalize (Js.object_keys (created map)). intros keys.
  induction keys as [|k keys IH]; intros Hall; [reflexivity|].
  cbn [List.flat_map]. rewrite List.map_app, IH.
  - destruct (Hall k) as [g ->]; [left|reflexivity].
  - intros k' Hk'. apply Hall. right. exact Hk'.
Qed.

Lemma listed_entries map (e : ListedGroup View) :
  In e (listed map) ->
  exists g, own map !! listed_id e = Some g /\ listed_group e = updateTaskProgresses g.
Proof.
  unfold listed. intros Hin. apply in_flat_map in Hin. destruct Hin as (k & _ & Hin).
  destruct (own map !! k) as [g|] eqn:Hk; [|destruct Hin].
  destruct Hin as [<-|[]]. exists g. split; [exact Hk | reflexivity].
Qed.

Lemma sum_list_with_ext_in {A} (f h : A -> nat) (l : list A) :
  (forall a, a ∈ l -> f a = h a) -> sum_list_with f l = sum_list_with h l.
Proof.
  induction l as [|a l IH]; intros Hext; [reflexivity|]. simpl.
  rewrite (Hext a) by left. rewrite IH; [reflexivity|].
  intros b Hb. apply Hext. right. exact Hb.
Qed.

(** Summing over a list of the keys is folding over the map. *)
Lemma entries_with_keys (p : Task View -> bool) m : forall keys,
  NoDup keys ->
  (forall k, k ∈ keys <-> is_Some (m !! k)) ->
  sum_list_with
    (fun k => match m !! k with
              | Some g => length (List.filter p (tasks g))
              | None => 0
              end)
    keys
  = entries_with p m.
Proof.
  induction m as [|i x m Hfresh IH] using map_ind; intros keys Hnodup Hkeys.
  - rewrite entries_with_empty. destruct keys as [|k keys]; [reflexivity|].
    destruct (proj1 (Hkeys k)) as [g Hg]; [left|]. rewrite lookup_empty in Hg.
    discriminate.
  - assert (i ∈ keys) as Hi by (apply Hkeys; rewrite lookup_insert_eq; eauto).
    apply elem_of_Permutation in Hi. destruct Hi as [rest Hperm].
    rewrite Hperm in Hnodup. apply NoDup_cons in Hnodup. destruct Hnodup as [Hout Hrest].
    rewrite Hperm. cbn [sum_list_with]. rewrite lookup_insert_eq.
    rewrite entries_with_insert by exact Hfresh. f_equal.
    rewrite <- (IH rest Hrest).
    + apply sum_list_with_ext_in. intros k Hk.
      rewrite lookup_insert_ne; [reflexivity|]. intros ->. contradiction.
    + intros k. split.
      * intros Hk. assert (k ∈ keys) as Hk' by (rewrite Hperm; right; exact Hk).
        apply Hkeys in Hk'. rewrite lookup_insert_ne in Hk'; [exact Hk'|].
        intros ->. contradiction.
      * intros Hk. assert (i <> k) as Hne.
        { intros ->. rewrite Hfresh in Hk. destruct Hk; discriminate. }
        assert (k ∈ keys) as Hk'
          by (apply Hkeys; rewrite lookup_insert_ne by exact Hne; exact Hk).
        rewrite Hperm in Hk'. apply elem_of_cons in Hk'.
        destruct Hk' as [->|Hk']; [contradiction | exact Hk'].
Qed.

Lemma listed_sum (p : Task View -> bool) map :
  well_keyed map ->
  sum_list_with (fun e => length (List.filter p (tasks (listed_group e)))) (listed map)
  = entries_with p (own map).
Proof.
  intros [Hnodup Hkeys].
  transitivity
    (sum_list_with
       (fun k => match own map !! k with
                 | Some g => length (List.filter p (tasks g))
                 | None => 0
                 end)
       (Js.object_keys (created map))).
  - unfold listed. generalize (Js.object_keys (created map)). intros keys.
    induction keys as [|k keys IH]; [reflexivity|].
    cbn [List.flat_map]. rewrite sum_list_with_app, IH. cbn [sum_list_with].
    destruct (own map !! k); simpl; lia.
  - rewrite (object_keys_perm (created map)).
    exact (entries_with_keys p (own map) (created map) Hnodup Hkeys).
Qed.

Lemma shells_have_no_tasks (rows : list GroupRow) : task_count (own (shells rows)) = 0.
Proof.
  assert (forall k g, own (shells rows) !! k = Some g -> tasks g = []) as Hempty.
  { intros k g. unfold Grouping.shells.
    rewrite (proj1 (shells_from TASK_STATUS_COLOR_ALPHA rows (empty_object View) k
                      (lookup_empty _))).
    cbn [empty_object own]. rewrite lookup_empty.
    destruct (String.eqb k "" || String.eqb k "__proto__"); [discriminate|].
    destruct (Listing.last_row_with_id k rows); [|discriminate].
    intros Hg. injection Hg as <-. reflexivity. }
  revert Hempty. generalize (own (shells rows)). intros m.
  induction m as [|i x m Hfresh IH] using map_ind; intros Hempty.
  - apply entries_with_empty.
  - unfold task_count in *. rewrite entries_with_insert by exact Hfresh.
    rewrite (Hempty i x) by apply lookup_insert_eq. simpl. apply IH.
    intros k g Hk. apply (Hempty k). rewrite lookup_insert_ne; [exact Hk|].
    intros ->. rewrite Hfresh in Hk. discriminate.
Qed.

(** [getList] answers unless [updateMapByGroup] throws. *)
Lemma getList_answers group ts (rows : list GroupRow) :
  if existsb (throws (or_status group) (shells rows)) (prepare ts)
  then getList group ts rows = None
  else
    exists map',
      updateMapByGroup ts (or_status group) (shells rows) = Some map' /\
      well_keyed map' /\
      getList group ts rows = Some (listed map').
Proof.
  pose proof (updateMapByGroup_returns UNMAPPED STATUS PRIORITY PHASE viewModel
                ts (or_status group) (shells rows)) as Hreturns.
  pose proof (updateMapByGroup_well_keyed ts (or_status group) (shells rows)) as Hkeyed.
  unfold Listing.getList. cbn zeta.
  destruct (existsb (throws (or_status group) (shells rows)) (prepare ts)).
  - rewrite Hreturns. reflexivity.
  - destruct Hreturns as (looped & _ & _ & _ & Hresult).
    destruct (updateMapByGroup ts (or_status group) (shells rows)) as [map'|];
      [|destruct (List.filter _ (prepare ts)); discriminate Hresult].
    exists map'. split; [reflexivity|].
    split; [exact (Hkeyed map' (shells_well_keyed rows) eq_refl) | reflexivity].
Qed.



End ListingFacts.

(** ** More on the dependency gate *)

Section GateMoreFacts.

Import Store GateMore.

Implicit Types (db : Db) (taskId sid : string).

(** The second WHEN reads the dependency rows of the task and no other. *)
Lemma incomplete_by_direct_rows db taskId :
  incomplete_dependency_exists db (Some taskId)
  = existsb (blocking db) (dependency_rows db taskId).
Proof.
  unfold incomplete_dependency_exists, dependencies_left_join_tasks, dependency_rows.
  rewrite existsb_flat_map, <- existsb_filter.
  apply existsb_ext. intros td _.
  rewrite left_join_row. cbn [existsb fst snd]. rewrite orb_false_r.
  rewrite is_true_and, is_true_eq_decide. reflexivity.
Qed.

Lemma blocking_same db db' (td : Dependency) :
  same_tasks_and_statuses db db' -> blocking db td = blocking db' td.
Proof.
  intros (Hcat & Hstatus & Htasks).
  unfold blocking, joined_task, done_statuses_of_project, categories_where_done_is.
  rewrite Hcat, Hstatus, Htasks. reflexivity.
Qed.

Lemma status_not_done_exists_same db db' p1 p2 :
  same_tasks_and_statuses db db' ->
  status_not_done_exists db p1 p2 = status_not_done_exists db' p1 p2.
Proof.
  intros (Hcat & Hstatus & Htasks).
  unfold status_not_done_exists, project_of_task, categories_where_done_is.
  rewrite Hcat, Hstatus, Htasks. reflexivity.
Qed.

(** X6: the gate never blocks a task that has no dependency row, whatever
    the target id and whatever the store holds, and it never blocks a
    move to a status of the task's project that is not done, whatever the
    dependencies; neither needs an assumption on NULL columns. *)
Theorem gate_allows_without_dependencies_or_to_open_status db taskId sid :
  dependency_rows db taskId = [] \/ target_is_open db taskId sid = true ->
  checkForCompletedDependencies db taskId sid = true.
Proof.
  intros Hcase. unfold checkForCompletedDependencies.
  rewrite status_not_done_exists_spec, incomplete_by_direct_rows.
  destruct Hcase as [Hnone|Hopen].
  - rewrite Hnone. cbn [existsb]. destruct (target_is_open db taskId sid); reflexivity.
  - rewrite Hopen. reflexivity.
Qed.

(** X7: the gate is a one-hop check. Two stores with the same tasks,
    statuses and categories and the same dependency rows for the task
    give the same answer: the rows recorded for other tasks, among them
    the dependencies of the dependencies and any cycle through them, are
    never read. *)
Theorem gate_reads_only_direct_dependencies db db' taskId sid :
  same_tasks_and_statuses db db' ->
  dependency_rows db taskId = dependency_rows db' taskId ->
  checkForCompletedDependencies db taskId sid
  = checkForCompletedDependencies db' taskId sid.
Proof.
  intros Hsame Hrows. unfold checkForCompletedDependencies.
  rewrite !incomplete_by_direct_rows, Hrows.
  rewrite (status_not_done_exists_same db db' _ _ Hsame).
  rewrite (existsb_ext (blocking db) (blocking db'));
    [reflexivity | intros td _; apply blocking_same; exact Hsame].
Qed.

End GateMoreFacts.

(** ** More on re-parenting *)

Section ReparentMoreFacts.

Import Store ReparentMore.

Context (UNMAPPED : string).

Local Abbreviation convertToSubtask := (Store.convertToSubtask UNMAPPED).
Local Abbreviation bound_group := (ReparentMore.bound_group UNMAPPED).

Implicit Types (db : Db) (body : Body).

Lemma lookup_update_tasks_any set (p1 : option string) db j :
  tasks (update_tasks_where_id set p1 db) !! j
  = (fun t => if Sql.is_true (Sql.eq_ (Some j) p1) then set t else t) <$> tasks db !! j.
Proof.
  unfold update_tasks_where_id. cbn [tasks]. rewrite map_lookup_imap.
  destruct (tasks db !! j); reflexivity.
Qed.

Lemma lookup_update_tasks_other set (p1 : option string) db j :
  p1 <> Some j ->
  tasks (update_tasks_where_id set p1 db) !! j = tasks db !! j.
Proof.
  intros Hne. rewrite lookup_update_tasks_any.
  destruct p1 as [i|]; [|destruct (tasks db !! j); reflexivity].
  rewrite is_true_eq_some.
  destruct (String.eqb_spec j i) as [->|_]; [congruence|].
  destruct (tasks db !! j); reflexivity.
Qed.

Lemma run_convertToTask db body :
  run (convertToTask body) db
  = update_tasks_where_id
      (fun t => {| project_id := project_id t; status_id := status_id t;
                   priority_id := priority_id t; parent_task_id := None;
                   sort_order := Some (next_sort_order db (body_project_id body)) |})
      (id body) db.
Proof. reflexivity. Qed.

(** A position of a project is the position of one of its rows. *)
Lemma in_sort_positions db pid z :
  In z (sort_positions db pid)
  <-> exists j r, tasks db !! j = Some r /\ project_id r = Some pid /\
                  sort_order r = Some z.
Proof.
  unfold sort_positions, rows.
  assert (forall l : list (string * TaskRow),
            In z (Sql.values
                    (List.map (fun t => sort_order (snd t))
                       (List.filter
                          (fun t => bool_decide (project_id (snd t) = Some pid)) l)))
            <-> exists row, In row l /\ project_id (snd row) = Some pid /\
                            sort_order (snd row) = Some z) as Hlist.
  { induction l as [|row l IH]; simpl.
    - split; [intros [] | intros (row & [] & _)].
    - destruct (bool_decide_reflect (project_id (snd row) = Some pid)) as [Hp|Hp].
      + cbn [List.map Sql.values]. destruct (sort_order (snd row)) as [y|] eqn:Hy.
        * cbn [In]. rewrite IH. split.
          -- intros [<-|(row' & Hin & Hrow)]; [exists row; auto|].
             exists row'. split; [right; exact Hin | exact Hrow].
          -- intros (row' & [<-|Hin] & Hproj & Hsort).
             ++ left. congruence.
             ++ right. exists row'. auto.
        * rewrite IH. split.
          -- intros (row' & Hin & Hrow). exists row'. split; [right; exact Hin | exact Hrow].
          -- intros (row' & [<-|Hin] & Hproj & Hsort); [congruence|].
             exists row'. auto.
      + rewrite IH. split.
        * intros (row' & Hin & Hrow). exists row'. split; [right; exact Hin | exact Hrow].
        * intros (row' & [<-|Hin] & Hproj & Hsort); [contradiction|].
          exists row'. auto. }
  rewrite Hlist. split.
  - intros ([j r] & Hin & Hproj & Hsort).
    apply list_elem_of_In, elem_of_map_to_list in Hin. exists j, r. auto.
  - intros (j & r & Hin & Hproj & Hsort). exists (j, r).
    split; [apply list_elem_of_In, elem_of_map_to_list; exact Hin | auto].
Qed.

(** The position a conversion assigns is above every position of the
    project. *)
Lemma next_sort_order_above db pid y :
  In y (sort_positions db pid) -> (y < next_sort_order db (Some pid))%Z.
Proof.
  intros Hin.
  destruct (next_sort_order_spec db pid) as [[Hnil _]|(m & [_ Hmax] & ->)].
  - rewrite Hnil in Hin. destruct Hin.
  - specialize (Hmax y Hin). lia.
Qed.

(** X8: [convertToTask] writes one row at most. The other tables, the set
    of task ids and every row but the one with the given id are as
    before, and with an id that no task has (or with none) the tasks are
    left exactly as they were. *)
Theorem convertToTask_touches_one_row db body :
  sys_task_status_categories (run (convertToTask body) db)
  = sys_task_status_categories db /\
  task_statuses (run (convertToTask body) db) = task_statuses db /\
  task_dependencies (run (convertToTask body) db) = task_dependencies db /\
  dom (tasks (run (convertToTask body) db)) = dom (tasks db) /\
  (forall j, id body <> Some j ->
     tasks (run (convertToTask body) db) !! j = tasks db !! j) /\
  ((forall i, id body = Some i -> tasks db !! i = None) ->
   tasks (run (convertToTask body) db) = tasks db).
Proof.
  rewrite run_convertToTask.
  split; [reflexivity|]. split; [reflexivity|]. split; [reflexivity|].
  split; [|split].
  - apply set_eq. intros j. rewrite !elem_of_dom, lookup_update_tasks_any.
    rewrite fmap_is_Some. reflexivity.
  - intros j Hne. apply lookup_update_tasks_other. exact Hne.
  - intros Hnone. apply map_eq. intros j.
    destruct (decide (id body = Some j)) as [Hj|Hj].
    + rewrite lookup_update_tasks_any, (Hnone j Hj). reflexivity.
    + apply lookup_update_tasks_other. exact Hj.
Qed.

(** X9: [convertToTask] puts the task last in the project it is given:
    its new position is above every position the project had, so no
    other task of the project shares it, and project, status and priority
    of the row stay as they were. *)
Theorem convertToTask_puts_task_last db body i pid (t : TaskRow) :
  id body = Some i ->
  body_project_id body = Some pid ->
  tasks db !! i = Some t ->
  exists t' z,
    tasks (run (convertToTask body) db) !! i = Some t' /\
    sort_order t' = Some z /\
    same_project_status_priority t t' /\
    (forall y, In y (sort_positions db pid) -> (y < z)%Z) /\
    (forall j r, j <> i -> tasks (run (convertToTask body) db) !! j = Some r ->
       project_id r = Some pid -> sort_order r <> Some z).
Proof.
  intros Hid Hpid Ht. rewrite run_convertToTask, Hid, Hpid.
  eexists _, (next_sort_order db (Some pid)).
  split; [apply lookup_update_tasks; exact Ht|].
  split; [reflexivity|]. split; [repeat split|].
  split; [intros y Hy; apply next_sort_order_above; exact Hy|].
  intros j r Hne Hr Hproj Hsort.
  rewrite lookup_update_tasks_other in Hr by congruence.
  assert (In (next_sort_order db (Some pid)) (sort_positions db pid)) as Hin
    by (apply in_sort_positions; eauto).
  apply next_sort_order_above in Hin. lia.
Qed.

(** X10: on a task the project already holds, [convertToTask] is not
    idempotent in the position: a second call moves the task one further
    although it is the last already, while the parent stays NULL. *)
Theorem convertToTask_twice_moves_again db body i pid (t : TaskRow) :
  id body = Some i ->
  body_project_id body = Some pid ->
  tasks db !! i = Some t ->
  project_id t = Some pid ->
  exists t1 t2 z,
    tasks (run (convertToTask body) db) !! i = Some t1 /\
    tasks (run (convertToTask body) (run (convertToTask body) db)) !! i = Some t2 /\
    sort_order t1 = Some z /\ sort_order t2 = Some (z + 1)%Z /\
    parent_task_id t1 = None /\ parent_task_id t2 = None.
Proof.
  intros Hid Hpid Ht Hproj.
  set (db1 := run (convertToTask body) db).
  set (z := next_sort_order db (Some pid)).
  assert (tasks db1 !! i
          = Some {| project_id := project_id t; status_id := status_id t;
                    priority_id := priority_id t; parent_task_id := None;
                    sort_order := Some z |}) as H1.
  { unfold db1. rewrite run_convertToTask, Hid, Hpid.
    exact (lookup_update_tasks
             (fun t0 => {| project_id := project_id t0; status_id := status_id t0;
                           priority_id := priority_id t0; parent_task_id := None;
                           sort_order := Some z |})
             db i t Ht). }
  assert (is_maximum z (sort_positions db1 pid)) as Hmax.
  { split.
    - apply in_sort_positions. eexists i, _. split; [exact H1|]. split; [exact Hproj|].
      reflexivity.
    - intros y Hy. apply in_sort_positions in Hy. destruct Hy as (j & r & Hr & Hp & Hs).
      destruct (decide (j = i)) as [->|Hne].
      + rewrite H1 in Hr. injection Hr as <-. cbn in Hs. injection Hs as <-. lia.
      + unfold db1 in Hr. rewrite run_convertToTask, Hid in Hr.
        rewrite lookup_update_tasks_other in Hr by congruence.
        assert (In y (sort_positions db pid)) as Hin by (apply in_sort_positions; eauto).
        apply next_sort_order_above in Hin. unfold z. lia. }
  assert (next_sort_order db1 (Some pid) = (z + 1)%Z) as Hnext.
  { destruct (next_sort_order_spec db1 pid) as [[Hnil _]|(m & [Hin Hm] & ->)].
    - destruct Hmax as [Hin _]. rewrite Hnil in Hin. destruct Hin.
    - destruct Hmax as [Hinz Hz]. specialize (Hm z Hinz). specialize (Hz m Hin). lia. }
  eexists _, _, z. split; [exact H1|]. split.
  - rewrite run_convertToTask, Hid, Hpid. apply lookup_update_tasks. exact H1.
  - cbn [sort_order parent_task_id]. rewrite Hnext. repeat split; reflexivity.
Qed.

Lemma run_convertToSubtask db body :
  run (convertToSubtask body) db
  = if Js.strict_eq (group_by body) "status" then
      update_tasks_where_id
        (fun t => {| project_id := project_id t; status_id := bound_group body;
                     priority_id := priority_id t;
                     parent_task_id := body_parent_task_id body;
                     sort_order := Some (next_sort_order db (body_project_id body)) |})
        (id body) db
    else if Js.strict_eq (group_by body) "priority" then
      update_tasks_where_id
        (fun t => {| project_id := project_id t; status_id := status_id t;
                     priority_id := bound_group body;
                     parent_task_id := body_parent_task_id body;
                     sort_order := Some (next_sort_order db (body_project_id body)) |})
        (id body) db
    else if Js.strict_eq (group_by body) "phase" then
      update_tasks_where_id
        (fun t => {| project_id := project_id t; status_id := status_id t;
                     priority_id := priority_id t;
                     parent_task_id := body_parent_task_id body;
                     sort_order := Some (next_sort_order db (body_project_id body)) |})
        (id body) db
    else db.
Proof.
  unfold Store.convertToSubtask, ReparentMore.bound_group.
  destruct (group_by body) as [g|]; [|reflexivity]. cbn [Js.strict_eq].
  destruct (String.eqb_spec g "status") as [->|_]; [reflexivity|].
  destruct (String.eqb_spec g "priority") as [->|_]; [reflexivity|].
  destruct (String.eqb_spec g "phase") as [->|_]; reflexivity.
Qed.

(** X11: what [convertToSubtask] does to the row of the task, by group
    type. For status it sets parent, position and status, the status
    being the group id or NULL for the sentinel; for priority likewise
    with the priority; for phase it sets parent and position only; for
    any other group type it issues the empty statement and the store
    stays as it was. The project of the row never changes, and the other
    column of the pair status, priority is never touched. *)
Theorem convertToSubtask_row_by_group_type db body i (t : TaskRow) :
  id body = Some i ->
  tasks db !! i = Some t ->
  exists t',
    tasks (run (convertToSubtask body) db) !! i = Some t' /\
    project_id t' = project_id t /\
    if Js.strict_eq (group_by body) "status" then
      parent_task_id t' = body_parent_task_id body /\
      status_id t' = bound_group body /\ priority_id t' = priority_id t /\
      sort_order t' = Some (next_sort_order db (body_project_id body))
    else if Js.strict_eq (group_by body) "priority" then
      parent_task_id t' = body_parent_task_id body /\
      priority_id t' = bound_group body /\ status_id t' = status_id t /\
      sort_order t' = Some (next_sort_order db (body_project_id body))
    else if Js.strict_eq (group_by body) "phase" then
      parent_task_id t' = body_parent_task_id body /\
      status_id t' = status_id t /\ priority_id t' = priority_id t /\
      sort_order t' = Some (next_sort_order db (body_project_id body))
    else
      t' = t /\ run (convertToSubtask body) db = db /\
      exists ps, convertToSubtask body
                 = [ {| statement := EmptyStatement; params := ps |};
                     {| statement := GetSingleTask; params := [id body] |} ] /\
                 length ps = 4.
Proof.
  intros Hid Ht. rewrite run_convertToSubtask.
  destruct (Js.strict_eq (group_by body) "status") eqn:Hs.
  { rewrite Hid. eexists. split; [apply lookup_update_tasks; exact Ht|].
    repeat split; reflexivity. }
  destruct (Js.strict_eq (group_by body) "priority") eqn:Hp.
  { rewrite Hid. eexists. split; [apply lookup_update_tasks; exact Ht|].
    repeat split; reflexivity. }
  destruct (Js.strict_eq (group_by body) "phase") eqn:Hph.
  { rewrite Hid. eexists. split; [apply lookup_update_tasks; exact Ht|].
    repeat split; reflexivity. }
  exists t. split; [exact Ht|]. split; [reflexivity|]. split; [reflexivity|].
  split; [reflexivity|].
  unfold Store.convertToSubtask. rewrite Hs, Hp, Hph. cbn [app].
  eexists. split; reflexivity.
Qed.

End ReparentMoreFacts.

(** ** More on label assignment *)

Section LabelsMoreFacts.

Import Labels LabelsMore.

Implicit Types (l : Loop) (labels : list string).

Lemma forEach_trace id labels : forall l,
  trace (forEach (callback id) labels l)
  = (trace l ++ imap (fun n label => Issued (writes l + n) id label) labels)%list /\
  pending (forEach (callback id) labels l)
  = (pending l ++ imap (fun n _ => (writes l + n, Return)) labels)%list /\
  writes (forEach (callback id) labels l) = writes l + length labels.
Proof.
  induction labels as [|label labels IH]; intros l.
  - cbn. rewrite !app_nil_r. repeat split. lia.
  - change (forEach (callback id) (label :: labels) l)
      with (forEach (callback id) labels (call_async (callback id label) l)).
    destruct (IH (call_async (callback id label) l)) as (Htrace & Hpending & Hwrites).
    rewrite Htrace, Hpending, Hwrites. unfold callback, call_async.
    cbn [trace pending writes imap length].
    rewrite <- !app_assoc, !Nat.add_0_r. cbn [app].
    repeat split; [| |lia].
    + do 2 f_equal. apply imap_ext. intros n x _. cbn. f_equal. lia.
    + do 2 f_equal. apply imap_ext. intros n x _. cbn. f_equal. lia.
Qed.

(** X12: [assignLabelsToTask] issues exactly one write per label, for
    the task of the request and in the order of the labels, all of them
    before the response and none of them awaited; without labels it only
    responds. *)
Theorem assignLabelsToTask_issues_one_write_per_label id labels :
  trace (assignLabelsToTask id labels start)
  = (imap (fun n label => Issued n id label) labels
     ++ [Responded 200 true "Labels assigned successfully"])%list /\
  pending (assignLabelsToTask id labels start)
  = imap (fun n _ => (n, Return)) labels /\
  writes (assignLabelsToTask id labels start) = length labels /\
  trace (assignLabelsToTask id [] start)
  = [Responded 200 true "Labels assigned successfully"].
Proof.
  destruct (forEach_trace id labels start) as (Htrace & Hpending & Hwrites).
  unfold assignLabelsToTask, send. cbn [trace pending writes].
  rewrite Htrace, Hpending, Hwrites. cbn [start trace pending writes app].
  repeat split.
Qed.

(** What stays true while the event loop settles the writes: the
    suspended bodies have nothing left to do, and every write is either
    pending or settled. *)
Lemma later_invariant l l' :
  later l l' ->
  Forall (fun p => snd p = Return) (pending l) ->
  Forall (fun p => snd p = Return) (pending l') /\
  writes l' = writes l /\
  count_events is_issued (trace l') = count_events is_issued (trace l) /\
  count_events is_response (trace l') = count_events is_response (trace l) /\
  count_events is_settled (trace l') + length (pending l')
  = count_events is_settled (trace l) + length (pending l).
Proof.
  intros Hlater. induction Hlater as [l|l1 l2 l3 _ IH Hstep]; intros Hreturn.
  - repeat split. exact Hreturn.
  - destruct (IH Hreturn) as (Hret & Hw & Hi & Hr & Hs).
    destruct Hstep as [l2 before after n body Hpending].
    rewrite Hpending in Hret, Hs.
    apply Forall_app in Hret. destruct Hret as [Hbefore Hafter].
    apply Forall_cons in Hafter. destruct Hafter as [Hbody Hafter].
    cbn in Hbody. subst body. cbn [call_async trace pending writes].
    unfold count_events in *. rewrite !List.filter_app, !length_app in *.
    cbn [List.filter is_issued is_response is_settled length] in *.
    repeat split; [apply Forall_app; split; assumption | lia..].
Qed.

(** X13: after [assignLabelsToTask] has returned, the event loop only
    settles what was issued: in every later state the number of writes is
    the number of labels, no write is issued again, the response stays
    the only one, and each write is either still pending or settled
    once. *)
Theorem writes_are_only_settled_afterwards id labels l' :
  later (assignLabelsToTask id labels start) l' ->
  writes l' = length labels /\
  count_events is_issued (trace l') = length labels /\
  count_events is_response (trace l') = 1 /\
  count_events is_settled (trace l') + length (pending l') = length labels.
Proof.
  intros Hlater.
  destruct (forEach_trace id labels start) as (Htrace & Hpending & Hwrites).
  cbn [start trace pending writes app] in Htrace, Hpending, Hwrites.
  apply later_invariant in Hlater.
  - destruct Hlater as (_ & Hw & Hi & Hr & Hs).
    unfold assignLabelsToTask, send in *. cbn [trace pending writes] in *.
    rewrite Htrace in Hi, Hr, Hs. rewrite Hpending in Hs. rewrite Hwrites in Hw.
    unfold count_events in *. rewrite !List.filter_app, !length_app in *.
    cbn [List.filter is_issued is_response is_settled length] in *.
    rewrite length_imap in Hs.
    assert (forall (k : nat) (ls : list string),
              length (List.filter is_issued
                        (imap (fun n label => Issued (k + n) id label) ls)) = length ls
              /\ length (List.filter is_response
                           (imap (fun n label => Issued (k + n) id label) ls)) = 0
              /\ length (List.filter is_settled
                           (imap (fun n label => Issued (k + n) id label) ls)) = 0)
      as Hissued.
    { intros k ls. revert k. induction ls as [|x ls IH]; intros k; [repeat split|].
      cbn [imap List.filter is_issued is_response is_settled length].
      destruct (IH (S k)) as (H1 & H2 & H3).
      rewrite (imap_ext _ (fun n label => Issued (S k + n) id label)) by
        (intros n y _; cbn; f_equal; lia).
      rewrite H1, H2, H3. repeat split. }
    destruct (Hissued 0 labels) as (H1 & H2 & H3).
    rewrite H1 in Hi. rewrite H2 in Hr. rewrite H3 in Hs.
    repeat split; lia.
  - unfold assignLabelsToTask, send. cbn [pending]. rewrite Hpending.
    clear.
    assert (forall (f : nat -> string -> nat * Async) (ls : list string),
              (forall n x, snd (f n x) = Return) ->
              Forall (fun p => snd p = Return) (imap f ls)) as Hall.
    { intros f ls. revert f. induction ls as [|x ls IH]; intros f Hf; [constructor|].
      cbn [imap]. constructor; [apply Hf|]. apply IH. intros n y. apply Hf. }
    apply Hall. reflexivity.
Qed.

End LabelsMoreFacts.

(** ** More on the query planner *)

Section QueryMoreFacts.

Import Query QueryMore.

Lemma append_cons c (a s : string) : String c a ++ s = String c (a ++ s).
Proof. reflexivity. Qed.

Lemma no_space_cons c (a : string) :
  no_space (String c a) = true -> Ascii.eqb c " "%char = false /\ no_space a = true.
Proof.
  unfold no_space. cbn [spaces]. destruct (Ascii.eqb c " "%char); [discriminate|].
  intros H. split; [reflexivity | exact H].
Qed.

Lemma split_space_nonempty (s : string) : Js.split_space s <> [].
Proof.
  induction s as [|c s IH]; cbn [Js.split_space]; [discriminate|].
  destruct (Ascii.eqb c " "%char); [discriminate|].
  destruct (Js.split_space s); [contradiction | discriminate].
Qed.

Lemma split_space_append (a s : string) :
  no_space a = true ->
  Js.split_space (a ++ " " ++ s) = a :: Js.split_space s.
Proof.
  induction a as [|c a IH]; intros Hno; [reflexivity|].
  apply no_space_cons in Hno. destruct Hno as [Hc Ha].
  rewrite append_cons. cbn [Js.split_space]. rewrite Hc, (IH Ha). reflexivity.
Qed.

Lemma split_space_word (a : string) : no_space a = true -> Js.split_space a = [a].
Proof.
  induction a as [|c a IH]; intros Hno; [reflexivity|].
  apply no_space_cons in Hno. destruct Hno as [Hc Ha].
  cbn [Js.split_space]. rewrite Hc, (IH Ha). reflexivity.
Qed.

Lemma split_join_space (ids : list string) :
  ids <> [] -> forallb no_space ids = true ->
  Js.split_space (Js.join " " ids) = ids.
Proof.
  induction ids as [|a ids IH]; intros Hne Hall; [contradiction|].
  cbn [forallb] in Hall. apply andb_true_iff in Hall. destruct Hall as [Ha Hall].
  destruct ids as [|b ids].
  - cbn [Js.join]. apply split_space_word. exact Ha.
  - change (Js.join " " (a :: b :: ids)) with (a ++ " " ++ Js.join " " (b :: ids)).
    rewrite (split_space_append a _ Ha), IH; [reflexivity | discriminate | exact Hall].
Qed.

Lemma split_space_length (s : string) : length (Js.split_space s) = S (spaces s).
Proof.
  induction s as [|c s IH]; [reflexivity|]. cbn [Js.split_space spaces].
  destruct (Ascii.eqb c " "%char).
  - cbn [length]. rewrite IH. reflexivity.
  - pose proof (split_space_nonempty s) as Hne.
    destruct (Js.split_space s) as [|h t]; [contradiction|]. exact IH.
Qed.

(** X14: a list of ids sent as one string with single spaces between
    them comes back from [flatString] as exactly those ids, each between
    two quotes, separated by commas and in the same order. In general a
    text with k spaces gives k + 1 literals, so the list after IN is
    never empty, and a leading, trailing or doubled space gives an empty
    literal. *)
Theorem flatString_quotes_each_id (ids : list string) (text : string) :
  (ids <> [] -> forallb no_space ids = true ->
   flatString (Some (Js.join " " ids)) = Js.join "," (List.map quote ids)) /\
  (exists literals,
     flatString (Some text) = Js.join "," (List.map quote literals) /\
     length literals = S (spaces text) /\ Js.join " " literals = text).
Proof.
  split.
  - intros Hne Hall. unfold flatString. rewrite (split_join_space ids Hne Hall).
    reflexivity.
  - exists (Js.split_space text). split; [reflexivity|].
    split; [apply split_space_length|].
    induction text as [|c text IH]; [reflexivity|]. cbn [Js.split_space].
    pose proof (split_space_nonempty text) as Hne.
    destruct (Ascii.eqb_spec c " "%char) as [->|Hc].
    + destruct (Js.split_space text) as [|h t]; [contradiction|].
      change (Js.join " " ("" :: h :: t)) with ("" ++ " " ++ Js.join " " (h :: t)).
      rewrite IH. reflexivity.
    + destruct (Js.split_space text) as [|h [|h' t]]; [contradiction| |].
      * cbn [Js.join] in *. rewrite IH. reflexivity.
      * change (Js.join " " (String c h :: h' :: t))
          with (String c (h ++ " " ++ Js.join " " (h' :: t))).
        change (Js.join " " (h :: h' :: t)) with (h ++ " " ++ Js.join " " (h' :: t)) in IH.
        rewrite IH. reflexivity.
Qed.

Lemma join_nonempty sep (first : string) (rest : list string) :
  first <> "" -> Js.join sep (first :: rest) <> "".
Proof.
  intros Hne. destruct first as [|c first]; [contradiction|].
  destruct rest; cbn [Js.join]; [discriminate|]. rewrite append_cons. discriminate.
Qed.

(** X15: the WHERE clause of [getQuery] is never empty: whatever the
    request, between two and eight fragments reach it, none of them
    empty, so the text after WHERE starts with a fragment and [AND] only
    stands between two fragments. *)
Theorem where_clause_is_never_empty (options : Options) :
  2 <= length (where_fragments options) <= 8 /\
  filters options <> "" /\
  exists first rest,
    where_fragments options = first :: rest /\ first <> "" /\
    Forall (fun f => f <> "") rest.
Proof.
  assert (Forall (fun f => f <> "") (where_fragments options)) as Hall.
  { apply List.Forall_forall. intros f Hin. unfold where_fragments in Hin.
    apply List.filter_In in Hin. destruct Hin as [_ Hne]. intros ->. discriminate Hne. }
  assert (2 <= length (where_fragments options) <= 8) as Hlen.
  { split.
    - unfold where_fragments, filter_candidates, archivedFilter, getFilterByAssignee.
      cbn [List.filter].
      destruct (nonempty (subTasksFilter options));
        destruct (Js.truthy (parent_task options));
        destruct (Js.strict_eq (archived options) "true");
        destruct (Js.strict_eq (filterBy options) "member");
        cbn [nonempty String.eqb negb Ascii.eqb Bool.eqb length]; lia.
    - unfold where_fragments.
      pose proof (List.filter_length_le nonempty (filter_candidates options)) as Hle.
      unfold filter_candidates in Hle at 2. cbn [length] in Hle. exact Hle. }
  split; [exact Hlen|].
  destruct (where_fragments options) as [|first rest] eqn:Hfrag;
    [cbn in Hlen; lia|].
  apply Forall_cons in Hall. destruct Hall as [Hfirst Hrest].
  split.
  - unfold filters. rewrite Hfrag. apply join_nonempty. exact Hfirst.
  - exists first, rest. split; [reflexivity|]. split; assumption.
Qed.

End QueryMoreFacts.

Section SubtaskScopeFacts.

Import Query QueryMore.

Lemma multi_value_fragment_prefix (options : Options) fragment :
  In fragment (skipn 3 (filter_candidates options)) ->
  fragment = "" \/
  exists rest,
    fragment = "status_id IN (" ++ rest \/ fragment = "priority_id IN (" ++ rest \/
    fragment = "id IN (" ++ rest \/ fragment = "project_id IN (" ++ rest.
Proof.
  unfold filter_candidates. cbn [skipn].
  unfold getFilterByStatusWhereClosure, getFilterByPriorityWhereClosure,
    getFilterByLabelsWhereClosure, getFilterByMembersWhereClosure,
    getFilterByProjectsWhereClosure.
  intros Hin. repeat destruct Hin as [<-|Hin]; try contradiction;
    match goal with
    | |- (if ?b then _ else _) = _ \/ _ => destruct b; [right; eexists|left; reflexivity]
    end.
  - left. reflexivity.
  - right. left. reflexivity.
  - right. right. left. reflexivity.
  - right. right. left. reflexivity.
  - right. right. right. reflexivity.
Qed.

Lemma parent_literal_not_a_filter (options : Options) (b : bool) :
  ~ In (if b then "parent_task_id = $2" else "parent_task_id IS NULL")
      (skipn 3 (filter_candidates options)).
Proof.
  intros Hin. apply multi_value_fragment_prefix in Hin.
  destruct Hin as [Heq|[rest [Heq|[Heq|[Heq|Heq]]]]]; destruct b;
    vm_compute in Heq; discriminate Heq.
Qed.


End SubtaskScopeFacts.

(** ** [checkUserAssignedToTask] *)

Section AssignmentFacts.

Import Assignment.

Implicit Types (db : Db) (taskId userId teamId : string).

Lemma memberships_filter db userId teamId :
  List.filter
    (fun m => Sql.is_true
                (Sql.and_ (Sql.eq_ (mi_user_id m) (Some userId))
                   (Sql.eq_ (mi_team_id m) (Some teamId))))
    (team_member_info_view db)
  = memberships db userId teamId.
Proof.
  unfold memberships. apply List.filter_ext. intros m.
  rewrite is_true_and, !is_true_eq_decide. reflexivity.
Qed.

(** X17: [checkUserAssignedToTask] for a user the view does not list in
    the team answers false whatever the assignments are, and so it does
    when the one row of the view has no member id; with one row and a
    member id it answers true exactly when an assignment of that member
    to the task exists. *)
Theorem checkUserAssignedToTask_by_membership db taskId userId teamId :
  (memberships db userId teamId = [] ->
   checkUserAssignedToTask db taskId userId teamId = Some false) /\
  (forall m : MemberInfo,
     memberships db userId teamId = [m] -> mi_team_member_id m = None ->
     checkUserAssignedToTask db taskId userId teamId = Some false) /\
  (forall (m : MemberInfo) (member : string),
     memberships db userId teamId = [m] -> mi_team_member_id m = Some member ->
     exists b,
       checkUserAssignedToTask db taskId userId teamId = Some b /\
       (b = true <->
        exists a, In a (tasks_assignees db) /\ ta_task_id a = Some taskId /\
                  ta_team_member_id a = Some member)).
Proof.
  unfold checkUserAssignedToTask, member_of_user. rewrite memberships_filter.
  assert (forall member : option string,
            member = None ->
            existsb
              (fun a => Sql.is_true
                          (Sql.and_ (Sql.eq_ (ta_task_id a) (Some taskId))
                             (Sql.eq_ (ta_team_member_id a) member)))
              (tasks_assignees db) = false) as Hnull.
  { intros member ->. induction (tasks_assignees db) as [|a l IH]; [reflexivity|].
    cbn [existsb]. rewrite is_true_and, is_true_eq_null_r, andb_false_r. exact IH. }
  split; [|split].
  - intros ->. rewrite Hnull; reflexivity.
  - intros m -> Hm. rewrite Hm, Hnull; reflexivity.
  - intros m member -> Hm. rewrite Hm. eexists. split; [reflexivity|].
    rewrite existsb_exists. split.
    + intros (a & Hin & Ha). rewrite is_true_and, !is_true_eq_decide in Ha.
      apply andb_true_iff in Ha. destruct Ha as [Ht Hmem].
      apply bool_decide_eq_true_1 in Ht. apply bool_decide_eq_true_1 in Hmem.
      exists a. auto.
    + intros (a & Hin & Ht & Hmem). exists a. split; [exact Hin|].
      rewrite is_true_and, !is_true_eq_decide, Ht, Hmem.
      rewrite !bool_decide_eq_true_2 by reflexivity. reflexivity.
Qed.

End AssignmentFacts.

(** ** [updateCustomColumnValue] *)

Section CustomColumnFacts.

Import CustomColumns.

Context {Json Number Date Time : Type}.
Context (toString : Json -> string) (parseFloat : string -> Number)
  (newDate : string -> Date) (toBoolean : Json -> bool) (isArray : Json -> bool)
  (stringify stringifySingleton : Json -> string).

Local Abbreviation update :=
  (updateCustomColumnValue toString parseFloat newDate toBoolean isArray stringify
     stringifySingleton).
Local Abbreviation slots_for :=
  (CustomColumns.slots_for toString parseFloat newDate toBoolean isArray stringify
     stringifySingleton).

Implicit Types (req : Request Json) (db : Tables Number Date Time)
  (r : ValueRow Number Date Time) (s : Slots Number Date) (now : Time)
  (c : ColumnRow).

Lemma found_column_head req db :
  found_column req db
  = match List.filter (column_matches (project_id req) (column_key req))
            (cc_custom_columns db) with
    | [] => None
    | c :: _ => Some c
    end.
Proof. unfold found_column. destruct (List.filter _ _); reflexivity. Qed.

(** X18: how [updateCustomColumnValue] answers. A request that lacks the
    task id, the column key, the project id or the value is answered 400
    before any query; a complete request for a column the project does
    not have is answered 404 after the one lookup; in both cases the
    store is left as it was. Every other request is answered 200 after
    two lookups and exactly one write, an update or an insert, and the
    columns table is never written. *)
Theorem updateCustomColumnValue_answers now req db :
  (status (response (update now req db)) = 400 /\
   done (response (update now req db)) = false /\
   store (update now req db) = db /\ queries (update now req db) = [] /\
   ~ complete req) \/
  (status (response (update now req db)) = 404 /\
   done (response (update now req db)) = false /\
   store (update now req db) = db /\ queries (update now req db) = [ColumnLookup] /\
   complete req /\ found_column req db = None) \/
  (status (response (update now req db)) = 200 /\
   done (response (update now req db)) = true /\
   complete req /\
   cc_custom_columns (store (update now req db)) = cc_custom_columns db /\
   exists c w,
     found_column req db = Some c /\ is_write w = true /\
     queries (update now req db) = [ColumnLookup; ValueLookup; w]).
Proof.
  rewrite found_column_head. unfold updateCustomColumnValue, complete.
  destruct (value req) as [v|].
  2:{ left. repeat split. intros (_ & _ & _ & Hv). congruence. }
  destruct (Js.truthy (taskId req)); cbn [negb orb];
    [|left; repeat split; intros (H & _); discriminate H].
  destruct (Js.truthy (column_key req)); cbn [negb orb];
    [|left; repeat split; intros (_ & H & _); discriminate H].
  destruct (Js.truthy (project_id req)); cbn [negb orb];
    [|left; repeat split; intros (_ & _ & H & _); discriminate H].
  destruct (List.filter (column_matches (project_id req) (column_key req))
              (cc_custom_columns db)) as [|c cs].
  - right. left. repeat split. discriminate.
  - right. right. cbn zeta.
    destruct (Nat.ltb 0 (length (List.filter _ (cc_column_values db))));
      cbn [response store queries status done cc_custom_columns];
      (repeat split; [discriminate|]); eexists c, _;
      (split; [reflexivity|]); (split; [|reflexivity]); reflexivity.
Qed.

Lemma slots_for_one (fieldType : option string) (v : Json) now r :
  slots_set (with_slots (slots_for fieldType v) now r) = 1.
Proof.
  unfold CustomColumns.slots_for.
  destruct (Js.strict_eq fieldType "number"); [reflexivity|].
  destruct (Js.strict_eq fieldType "date"); [reflexivity|].
  destruct (Js.strict_eq fieldType "checkbox"); [reflexivity|].
  destruct (Js.strict_eq fieldType "people"); reflexivity.
Qed.

Lemma value_matches_with_slots (task : option string) (column : string) s now r :
  value_matches task column (with_slots s now r) = value_matches task column r.
Proof. reflexivity. Qed.

Lemma filter_map_matching (m : ValueRow Number Date Time -> bool)
    (f : ValueRow Number Date Time -> ValueRow Number Date Time)
    (l : list (ValueRow Number Date Time)) :
  (forall r, m (f r) = m r) ->
  List.filter m (List.map (fun r => if m r then f r else r) l)
  = List.map f (List.filter m l) /\
  List.filter (fun r => negb (m r)) (List.map (fun r => if m r then f r else r) l)
  = List.filter (fun r => negb (m r)) l.
Proof.
  intros Hsame. induction l as [|r l [IH1 IH2]]; [split; reflexivity|].
  cbn [List.map List.filter]. destruct (m r) eqn:Hr.
  - rewrite Hsame, Hr. cbn [negb List.map]. rewrite IH1, IH2. split; reflexivity.
  - rewrite Hr. cbn [negb]. rewrite IH1, IH2. split; reflexivity.
Qed.

Lemma value_matches_new_row (task : string) (column : string) s now :
  value_matches (Some task) column (new_row (Some task) column s now) = true.
Proof.
  unfold value_matches, new_row. cbn [cv_task_id cv_column_id].
  rewrite is_true_and, !is_true_eq_some, !String.eqb_refl. reflexivity.
Qed.

Lemma truthy_some (o : option string) : Js.truthy o = true -> exists t, o = Some t.
Proof. destruct o as [t|]; [eauto | discriminate]. Qed.

(** The rows of the value table after a request that is answered 200. *)
Lemma saved_rows now req db (v : Json) c :
  complete req -> value req = Some v -> found_column req db = Some c ->
  cc_column_values (store (update now req db))
  = match List.filter (value_matches (taskId req) (cc_id c)) (cc_column_values db) with
    | [] =>
        (cc_column_values db
         ++ [new_row (taskId req) (cc_id c) (slots_for (cc_field_type c) v) now])%list
    | _ :: _ =>
        List.map
          (fun r => if value_matches (taskId req) (cc_id c) r
                    then with_slots (slots_for (cc_field_type c) v) now r else r)
          (cc_column_values db)
    end /\
  queries (update now req db)
  = [ColumnLookup; ValueLookup;
     match List.filter (value_matches (taskId req) (cc_id c)) (cc_column_values db) with
     | [] => ValueInsert
     | _ :: _ => ValueUpdate
     end] /\
  status (response (update now req db)) = 200.
Proof.
  intros (Htask & Hkey & Hproject & _) Hv. rewrite found_column_head.
  unfold updateCustomColumnValue. rewrite Hv, Htask, Hkey, Hproject. cbn [negb orb].
  destruct (List.filter (column_matches _ _) _) as [|c' cs]; [discriminate|].
  intros Hc. injection Hc as ->. cbn zeta.
  destruct (List.filter (value_matches _ _) _) as [|r0 rs]; cbn [length Nat.ltb Nat.leb];
    repeat split.
Qed.

(** X19: a request answered 200 is an upsert on the pair of task and
    column. Afterwards every row of the pair holds the value in the class
    of slot the field type of the column selects, with exactly one slot
    set and the update time of the write; there is one such row if there
    was none and as many as before otherwise; the rows of other pairs
    are as they were, in the same order. *)
Theorem updateCustomColumnValue_upserts now req db (v : Json) c :
  complete req -> value req = Some v -> found_column req db = Some c ->
  Forall
    (fun r => holds (slots_for (cc_field_type c) v) r /\ slots_set r = 1 /\
              updated_at r = Some now)
    (List.filter (value_matches (taskId req) (cc_id c))
       (cc_column_values (store (update now req db)))) /\
  length (List.filter (value_matches (taskId req) (cc_id c))
            (cc_column_values (store (update now req db))))
  = Nat.max 1 (length (List.filter (value_matches (taskId req) (cc_id c))
                         (cc_column_values db))) /\
  List.filter (fun r => negb (value_matches (taskId req) (cc_id c) r))
    (cc_column_values (store (update now req db)))
  = List.filter (fun r => negb (value_matches (taskId req) (cc_id c) r))
      (cc_column_values db).
Proof.
  intros Hcomplete Hv Hc.
  destruct (saved_rows now req db v c Hcomplete Hv Hc) as (Hrows & _ & _).
  rewrite Hrows. clear Hrows.
  destruct Hcomplete as (Htask & _). apply truthy_some in Htask.
  destruct Htask as [task Htask]. rewrite Htask.
  set (m := value_matches (Some task) (cc_id c)).
  set (s := slots_for (cc_field_type c) v).
  destruct (List.filter m (cc_column_values db)) as [|r0 rs] eqn:Hexisting.
  - rewrite !List.filter_app, Hexisting. cbn [List.filter app].
    unfold m. rewrite !value_matches_new_row. cbn [negb length Nat.max].
    rewrite app_nil_r. split; [|split; reflexivity].
    constructor; [|constructor]. split; [repeat split|].
    split; [|reflexivity].
    unfold s, CustomColumns.slots_for.
    destruct (Js.strict_eq (cc_field_type c) "number"); [reflexivity|].
    destruct (Js.strict_eq (cc_field_type c) "date"); [reflexivity|].
    destruct (Js.strict_eq (cc_field_type c) "checkbox"); [reflexivity|].
    destruct (Js.strict_eq (cc_field_type c) "people"); reflexivity.
  - destruct (filter_map_matching m (with_slots s now) (cc_column_values db))
      as [Hin Hout]; [reflexivity|].
    rewrite Hin, Hout, Hexisting. split; [|split; [|reflexivity]].
    + apply List.Forall_forall. intros r Hr. apply in_map_iff in Hr.
      destruct Hr as (r' & <- & _). split; [repeat split|].
      split; [apply slots_for_one | reflexivity].
    + rewrite length_map. cbn [length]. lia.
Qed.

Lemma updateCustomColumnValue_answers_columns now req db :
  store (update now req db) = db \/
  cc_custom_columns (store (update now req db)) = cc_custom_columns db.
Proof.
  unfold updateCustomColumnValue.
  destruct (value req) as [v|]; [|left; reflexivity].
  destruct (_ || _); [left; reflexivity|].
  destruct (List.filter (column_matches _ _) _) as [|c cs]; [left; reflexivity|].
  right. cbn zeta. destruct (Nat.ltb _ _); reflexivity.
Qed.

(** X20: a repeated request is harmless. When a request has been
    answered 200, the same request with the same time is answered 200
    again, takes the update path and leaves the store exactly as the
    first call left it. *)
Theorem updateCustomColumnValue_again now req db (v : Json) c :
  complete req -> value req = Some v -> found_column req db = Some c ->
  store (update now req (store (update now req db))) = store (update now req db) /\
  queries (update now req (store (update now req db)))
  = [ColumnLookup; ValueLookup; ValueUpdate] /\
  status (response (update now req (store (update now req db)))) = 200.
Proof.
  intros Hcomplete Hv Hc.
  destruct (saved_rows now req db v c Hcomplete Hv Hc) as (Hrows & _ & _).
  assert (cc_custom_columns (store (update now req db)) = cc_custom_columns db)
    as Hcolumns.
  { destruct (updateCustomColumnValue_answers_columns now req db) as [-> | ->];
      reflexivity. }
  assert (found_column req (store (update now req db)) = Some c) as Hc'.
  { unfold found_column in *. rewrite Hcolumns. exact Hc. }
  destruct (saved_rows now req (store (update now req db)) v c Hcomplete Hv Hc')
    as (Hrows' & Hqueries' & Hstatus').
  destruct Hcomplete as (Htask & _). apply truthy_some in Htask.
  destruct Htask as [task Htask]. rewrite Htask in *.
  set (m := value_matches (Some task) (cc_id c)) in *.
  set (s := slots_for (cc_field_type c) v) in *.
  assert (Forall (fun r => m r = true -> with_slots s now r = r)
            (cc_column_values (store (update now req db)))) as Hfixed.
  { rewrite Hrows.
    destruct (List.filter m (cc_column_values db)) as [|r0 rs] eqn:Hexisting.
    - apply Forall_app. split.
      + apply List.Forall_forall. intros r Hr Hm.
        assert (In r (List.filter m (cc_column_values db))) as Hin
          by (apply List.filter_In; split; assumption).
        rewrite Hexisting in Hin. destruct Hin.
      + constructor; [|constructor]. intros _. reflexivity.
    - apply List.Forall_forall. intros r Hr Hm. apply in_map_iff in Hr.
      destruct Hr as (r' & <- & _). cbv beta in *.
      destruct (m r') eqn:Hr'; [reflexivity|]. congruence. }
  assert (exists r0 rs,
            List.filter m (cc_column_values (store (update now req db))) = r0 :: rs)
    as (r0 & rs & Hexisting').
  { rewrite Hrows.
    destruct (List.filter m (cc_column_values db)) as [|r1 rs1] eqn:Hexisting.
    - rewrite List.filter_app, Hexisting. cbn [List.filter app].
      unfold m at 1. rewrite value_matches_new_row. eauto.
    - destruct (filter_map_matching m (with_slots s now) (cc_column_values db))
        as [Hin _]; [reflexivity|].
      rewrite Hin, Hexisting. cbn [List.map]. eauto. }
  rewrite Hexisting' in Hrows', Hqueries'.
  split; [|split; [exact Hqueries' | exact Hstatus']].
  assert (cc_column_values (store (update now req (store (update now req db))))
          = cc_column_values (store (update now req db))) as Hsame.
  { rewrite Hrows'. clear Hrows' Hrows Hexisting'.
    induction Hfixed as [|r l Hr _ IH]; [reflexivity|].
    cbn [List.map]. rewrite IH. destruct (m r) eqn:Hm; [rewrite (Hr eq_refl)|];
      reflexivity. }
  assert (cc_custom_columns (store (update now req (store (update now req db))))
          = cc_custom_columns (store (update now req db))) as Hcolumns'.
  { destruct (updateCustomColumnValue_answers_columns now req
                (store (update now req db))) as [-> | ->]; reflexivity. }
  destruct (store (update now req (store (update now req db)))) as [cols' rows'].
  destruct (store (update now req db)) as [cols rows].
  cbn in *. congruence.
Qed.

End CustomColumnFacts.

(** ** [getGroups] *)

Section GroupsFacts.

Import Groups.

Context (STATUS PRIORITY LABELS PHASE : string).

Local Abbreviation getGroups := (Groups.getGroups STATUS PRIORITY LABELS PHASE).

(** X21: [getGroups] binds a value for every placeholder of the
    statement it sends, except when it groups by labels: that statement
    names [$1] and [$2] and no value is bound, so the store cannot run
    it. For a dimension outside the enum it sends the empty text. *)
Theorem getGroups_binds_placeholders_except_labels (groupBy projectId : string) :
  all_bound (getGroups groupBy projectId)
  = negb (negb (String.eqb groupBy STATUS) && negb (String.eqb groupBy PRIORITY)
          && String.eqb groupBy LABELS) /\
  placeholders label_groups_sql = [2%N; 1%N] /\
  (String.eqb groupBy STATUS = false -> String.eqb groupBy PRIORITY = false ->
   String.eqb groupBy LABELS = false -> String.eqb groupBy PHASE = false ->
   getGroups groupBy projectId = ("", [])).
Proof.
  split; [|split].
  - unfold Groups.getGroups.
    destruct (String.eqb groupBy STATUS); [vm_compute; reflexivity|].
    destruct (String.eqb groupBy PRIORITY); [vm_compute; reflexivity|].
    destruct (String.eqb groupBy LABELS); [vm_compute; reflexivity|].
    destruct (String.eqb groupBy PHASE); vm_compute; reflexivity.
  - vm_compute. reflexivity.
  - intros Hs Hp Hl Hph. unfold Groups.getGroups. rewrite Hs, Hp, Hl, Hph. reflexivity.
Qed.

End GroupsFacts.

(** ** The further properties on sample data *)

Lemma group_entries_keep_flat_order_witness :
  exists map' g,
    Grouping.updateMapByGroup Examples.UNMAPPED Examples.GroupBy_STATUS
      Examples.GroupBy_PRIORITY Examples.GroupBy_PHASE Examples.no_view
      Examples.board "status" Examples.status_shells = Some map' /\
    Grouping.own map' !! "done" = Some g /\
    exists ns,
      List.map Grouping.index (Grouping.tasks g) = List.map Some ns /\
      StronglySorted lt ns /\ Forall (fun i => i < 4) ns.
Proof.
  assert (Grouping.task_count (Grouping.own Examples.status_shells) = 0) as Hempty
    by (vm_compute; reflexivity).
  destruct (Grouping.updateMapByGroup Examples.UNMAPPED Examples.GroupBy_STATUS
              Examples.GroupBy_PRIORITY Examples.GroupBy_PHASE Examples.no_view
              Examples.board "status" Examples.status_shells) as [map'|] eqn:Hresult;
    [|vm_compute in Hresult; discriminate Hresult].
  destruct (Grouping.own map' !! "done") as [g|] eqn:Hg.
  - exists map', g. split; [reflexivity|]. split; [exact Hg|].
    exact (proj1 (group_entries_keep_flat_order Examples.UNMAPPED Examples.GroupBy_STATUS
                    Examples.GroupBy_PRIORITY Examples.GroupBy_PHASE Examples.no_view
                    Examples.board "status" Examples.status_shells map' "done" g
                    Hempty Hresult Hg)).
  - exfalso. vm_compute in Hresult. injection Hresult as <-.
    vm_compute in Hg. discriminate Hg.
Defined.


Lemma gate_allows_without_dependencies_witness :
  GateMore.dependency_rows Examples.gate_db "t2" = [] /\
  Store.checkForCompletedDependencies Examples.gate_db "t2" "p-done" = true.
Proof.
  split; [reflexivity|].
  apply (gate_allows_without_dependencies_or_to_open_status Examples.gate_db "t2"
           "p-done").
  left. reflexivity.
Defined.

Lemma gate_reads_only_direct_dependencies_witness :
  Store.checkForCompletedDependencies Examples.gate_db "t1" "p-done"
  = Store.checkForCompletedDependencies Samples.gate_db_with_cycle "t1" "p-done".
Proof.
  apply (gate_reads_only_direct_dependencies Examples.gate_db
           Samples.gate_db_with_cycle "t1" "p-done").
  - repeat split.
  - reflexivity.
Defined.

Lemma convertToTask_puts_task_last_witness :
  exists t' z,
    Store.tasks (Store.run (Store.convertToTask Examples.to_task_body) Examples.gate_db)
      !! "t2" = Some t' /\
    Store.sort_order t' = Some z /\
    forall y, In y (Store.sort_positions Examples.gate_db "p") -> (y < z)%Z.
Proof.
  destruct (convertToTask_puts_task_last Examples.gate_db Examples.to_task_body
              "t2" "p" Samples.row_t2)
    as (t' & z & Hlookup & Hsort & _ & Habove & _).
  - reflexivity.
  - reflexivity.
  - vm_compute. reflexivity.
  - exists t', z. split; [exact Hlookup|]. split; [exact Hsort | exact Habove].
Defined.

Lemma convertToTask_twice_moves_again_witness :
  exists t1 t2 z,
    Store.tasks (Store.run (Store.convertToTask Examples.to_task_body) Examples.gate_db)
      !! "t2" = Some t1 /\
    Store.tasks
      (Store.run (Store.convertToTask Examples.to_task_body)
         (Store.run (Store.convertToTask Examples.to_task_body) Examples.gate_db))
      !! "t2" = Some t2 /\
    Store.sort_order t1 = Some z /\ Store.sort_order t2 = Some (z + 1)%Z.
Proof.
  destruct (convertToTask_twice_moves_again Examples.gate_db Examples.to_task_body
              "t2" "p" Samples.row_t2)
    as (t1 & t2 & z & H1 & H2 & Hz1 & Hz2 & _).
  - reflexivity.
  - reflexivity.
  - vm_compute. reflexivity.
  - reflexivity.
  - exists t1, t2, z. repeat split; assumption.
Defined.

Lemma convertToSubtask_row_by_group_type_witness :
  exists t',
    Store.tasks
      (Store.run (Store.convertToSubtask Examples.UNMAPPED Examples.to_unmapped_body)
         Examples.gate_db) !! "t2" = Some t' /\
    Store.project_id t' = Some "p".
Proof.
  destruct (convertToSubtask_row_by_group_type Examples.UNMAPPED Examples.gate_db
              Examples.to_unmapped_body "t2" Samples.row_t2)
    as (t' & Hlookup & Hproject & _).
  - reflexivity.
  - vm_compute. reflexivity.
  - exists t'. split; [exact Hlookup | exact Hproject].
Defined.

Lemma writes_are_only_settled_afterwards_witness :
  Labels.writes (Labels.assignLabelsToTask "t1" ["bug"; "ui"] Labels.start) = 2.
Proof.
  destruct (writes_are_only_settled_afterwards "t1" ["bug"; "ui"]
              (Labels.assignLabelsToTask "t1" ["bug"; "ui"] Labels.start)
              (Labels.later_now _)) as [Hwrites _].
  exact Hwrites.
Defined.

Lemma checkUserAssignedToTask_by_membership_witness :
  Assignment.checkUserAssignedToTask Samples.assignment_db "t1" "u2" "team" = Some false.
Proof.
  apply (checkUserAssignedToTask_by_membership Samples.assignment_db "t1" "u2" "team").
  reflexivity.
Defined.

Lemma updateCustomColumnValue_upserts_witness :
  length
    (List.filter (CustomColumns.value_matches (Some "t1") "c1")
       (CustomColumns.cc_column_values
          (CustomColumns.store
             (CustomColumns.updateCustomColumnValue Samples.text_of Samples.number_of
                Samples.date_of Samples.truth_of Samples.is_array Samples.json_of
                Samples.json_of_singleton 7 Samples.estimate_request
                Samples.column_tables))))
  = 1.
Proof.
  destruct (updateCustomColumnValue_upserts Samples.text_of Samples.number_of
              Samples.date_of Samples.truth_of Samples.is_array Samples.json_of
              Samples.json_of_singleton 7 Samples.estimate_request Samples.column_tables
              "12.5" Samples.estimate_column)
    as (_ & Hlength & _).
  - repeat split; discriminate.
  - reflexivity.
  - reflexivity.
  - exact Hlength.
Defined.

Lemma updateCustomColumnValue_again_witness :
  CustomColumns.queries
    (CustomColumns.updateCustomColumnValue Samples.text_of Samples.number_of
       Samples.date_of Samples.truth_of Samples.is_array Samples.json_of
       Samples.json_of_singleton 7 Samples.estimate_request
       (CustomColumns.store
          (CustomColumns.updateCustomColumnValue Samples.text_of Samples.number_of
             Samples.date_of Samples.truth_of Samples.is_array Samples.json_of
             Samples.json_of_singleton 7 Samples.estimate_request
             Samples.column_tables)))
  = [CustomColumns.ColumnLookup; CustomColumns.ValueLookup; CustomColumns.ValueUpdate].
Proof.
  destruct (updateCustomColumnValue_again Samples.text_of Samples.number_of
              Samples.date_of Samples.truth_of Samples.is_array Samples.json_of
              Samples.json_of_singleton 7 Samples.estimate_request Samples.column_tables
              "12.5" Samples.estimate_column)
    as (_ & Hqueries & _).
  - repeat split; discriminate.
  - reflexivity.
  - reflexivity.
  - exact Hqueries.
Defined.
